(** * Verification of the QA API testing framework's bookkeeping core

    Shallow embedding of
      - [conftest.py]: the shared result aggregator [_endpoint_results],
        the session-teardown summary [_print_endpoint_discovery_summary]
        and the two token fixtures [auth_token] / [fresh_auth_token];
      - [utils/schema_manager.py]: class [SchemaManager];
      - the recording code of the test modules ([test_basic_get],
        the result loop of [test_concurrent_requests], [do_request]).

    Conventions.  Python [str] values are Rocq strings, read as UTF-8 byte
    strings: splitting at '/', prefix and substring tests and comparison
    agree on bytes and on code points.  The two builtins that consult
    Unicode tables, [int] and [str.lower], are written out for ASCII texts
    and are a parameter of the interpreter elsewhere.  Python [int] is [Z].
    Response times are Python floats in the source; they are modelled by
    exact rationals [Q], so rounding is abstracted away.  Dictionaries whose
    iteration order is observable are insertion-ordered association lists;
    JSON objects read back from disk are [gmap]s. *)

From Stdlib Require Import ZArith QArith List Ascii String Bool Lia DecimalString.
From Stdlib Require Import Sorting.Sorted Sorting.Permutation.
From stdpp Require Import base option list strings gmap.

Set Warnings "-register-all".

Open Scope Z_scope.
Open Scope string_scope.
Open Scope list_scope.

(** ** Python values and exceptions *)

(** JSON documents, as [json.load] returns them. *)
Inductive json : Type :=
  | JNull
  | JBool (b : bool)
  | JInt (z : Z)
  | JFloat (q : Q)
  | JStr (s : string)
  | JArr (l : list json)
  | JObj (m : gmap string json).

(** The exceptions the modelled code can raise or let through.
    [RequestException] stands for [requests.exceptions.RequestException]
    and its connection/timeout subclasses, [HTTPError] for the subclass
    that [raise_for_status] raises. *)
Inductive exn : Type :=
  | ValueError (msg : string)
  | TypeError
  | AttributeError
  | KeyError (k : string)
  | JSONDecodeError
  | YAMLError
  | FileNotFoundError
  | RequestException (what : string)
  | HTTPError (status : Z)
  | Exception (msg : string).

(** [isinstance(e, requests.exceptions.RequestException)] *)
Definition is_RequestException (e : exn) : bool :=
  match e with
  | RequestException _ | HTTPError _ => true
  | _ => false
  end.

Inductive result (A : Type) : Type :=
  | Ok (a : A)
  | Raise (e : exn).
Arguments Ok {A} a.
Arguments Raise {A} e.

Definition is_Ok {A} (r : result A) : bool :=
  match r with Ok _ => true | Raise _ => false end.

(** ** The interpreter

    What depends on the version of CPython or on its Unicode tables is a
    parameter of the model:
    - [max_str_digits]: the limit on the number of digits that [int]
      accepts in a text ([sys.get_int_max_str_digits()], 4300 by default
      from CPython 3.11 on; 0 means no limit);
    - [int_non_ascii]: [int(s)] for a text [s] that is not pure ASCII
      (Unicode decimal digits and white space are accepted there); [None]
      stands for [ValueError];
    - [lower_non_ascii]: [s.lower()] for such a text;
    - [HTTPStatus_name]: [http.HTTPStatus(code).name], [None] when
      [HTTPStatus(code)] raises [ValueError]. *)
Record interpreter : Type := {
  max_str_digits : nat;
  int_non_ascii : string -> option Z;
  lower_non_ascii : string -> string;
  HTTPStatus_name : Z -> option string
}.

(** ** Builtins on strings *)

Module py.

Definition is_ascii (c : ascii) : bool := (nat_of_ascii c <? 128)%nat.

Definition ascii_only (s : string) : bool :=
  forallb is_ascii (list_ascii_of_string s).

(** [str(n)] for an integer. *)
Definition str_of_int (n : Z) : string := NilZero.string_of_int (Z.to_int n).

(** [s.split(sep)] for a one-character separator. *)
Fixpoint split (sep : ascii) (s : string) : list string :=
  match s with
  | EmptyString => [EmptyString]
  | String c s' =>
      if Ascii.eqb c sep then EmptyString :: split sep s'
      else match split sep s' with
           | [] => [String c EmptyString]
           | h :: t => String c h :: t
           end
  end.

(** [l[-1]] on the (never empty) list that [split] returns. *)
Definition last_item (l : list string) : string := List.last l EmptyString.

(** [s.startswith(p)] *)
Definition startswith (s p : string) : bool := String.prefix p s.

(** [s.lower()]: on an ASCII text the letters A-Z are mapped to a-z; a
    text with other characters is lower-cased by the interpreter's Unicode
    tables. *)
Definition lower_ascii (c : ascii) : ascii :=
  let n := nat_of_ascii c in
  if ((65 <=? n) && (n <=? 90))%nat then ascii_of_nat (n + 32) else c.

Fixpoint lower_letters (s : string) : string :=
  match s with
  | EmptyString => EmptyString
  | String c s' => String (lower_ascii c) (lower_letters s')
  end.

Definition lower (python : interpreter) (s : string) : string :=
  if ascii_only s then lower_letters s else lower_non_ascii python s.

(** [a in b] for two strings: substring test. *)
Definition substring_of (a b : string) : bool :=
  match String.index 0 a b with Some _ => true | None => false end.

(** *** [int(s)], base 10

    On an ASCII text CPython skips surrounding white space, accepts one
    sign, then digits in which single underscores may separate digits, and
    refuses a text with more digits than [max_str_digits] allows; anything
    else is a [ValueError].  A text with other characters goes through the
    interpreter's Unicode tables first. *)

Definition is_space (c : ascii) : bool :=
  let n := nat_of_ascii c in
  (((9 <=? n) && (n <=? 13)) || (n =? 32))%nat.

Definition digit_val (c : ascii) : option Z :=
  let n := nat_of_ascii c in
  if ((48 <=? n) && (n <=? 57))%nat then Some (Z.of_nat n - 48) else None.

Fixpoint lstrip (l : list ascii) : list ascii :=
  match l with
  | [] => []
  | c :: l' => if is_space c then lstrip l' else l
  end.

Definition strip (l : list ascii) : list ascii := rev (lstrip (rev (lstrip l))).

(** [after_underscore] is also true at the start, where an underscore is
    refused as well; the empty digit string is refused the same way. *)
Fixpoint parse_digits (acc : Z) (ndigits : nat) (after_underscore : bool)
    (l : list ascii) : option (Z * nat) :=
  match l with
  | [] => if after_underscore then None else Some (acc, ndigits)
  | c :: l' =>
      match digit_val c with
      | Some d => parse_digits (10 * acc + d) (S ndigits) false l'
      | None =>
          if Ascii.eqb c "_"%char then
            if after_underscore then None else parse_digits acc ndigits true l'
          else None
      end
  end.

Definition parse_unsigned (max_str_digits : nat) (l : list ascii) : option Z :=
  match parse_digits 0 0 true l with
  | Some (v, n) =>
      if ((0 <? max_str_digits) && (max_str_digits <? n))%nat then None else Some v
  | None => None
  end.

Definition int_of_ascii (max_str_digits : nat) (s : string) : option Z :=
  let body := strip (list_ascii_of_string s) in
  match body with
  | c :: rest =>
      if Ascii.eqb c "-"%char then Z.opp <$> parse_unsigned max_str_digits rest
      else if Ascii.eqb c "+"%char then parse_unsigned max_str_digits rest
      else parse_unsigned max_str_digits body
  | [] => None
  end.

Definition int_of_str (python : interpreter) (s : string) : result Z :=
  let parsed :=
    if ascii_only s then int_of_ascii (max_str_digits python) s
    else int_non_ascii python s in
  match parsed with
  | Some v => Ok v
  | None => Raise (ValueError ("invalid literal for int() with base 10: " ++ s))
  end.

(** *** [sorted]

    A stable sort; [sorted(l, key=f)] first evaluates [f] on every element
    (so an exception of [f] aborts the call even for a one-element list),
    then orders the elements by their keys. *)

Section sorted.
Context {A : Type} (le : A -> A -> bool).

Fixpoint insert_sorted (x : A) (l : list A) : list A :=
  match l with
  | [] => [x]
  | y :: l' => if le x y then x :: l else y :: insert_sorted x l'
  end.

Definition sorted (l : list A) : list A := foldr insert_sorted [] l.
End sorted.

Fixpoint eval_keys {A K} (key : A -> result K) (l : list A) : result (list (K * A)) :=
  match l with
  | [] => Ok []
  | x :: l' =>
      match key x with
      | Raise e => Raise e
      | Ok k =>
          match eval_keys key l' with
          | Raise e => Raise e
          | Ok kl => Ok ((k, x) :: kl)
          end
      end
  end.

Definition sorted_by_key {A K} (le : K -> K -> bool) (key : A -> result K)
    (l : list A) : result (list A) :=
  match eval_keys key l with
  | Raise e => Raise e
  | Ok kl => Ok (map snd (sorted (fun a b => le (fst a) (fst b)) kl))
  end.

End py.

(** ** Insertion-ordered dictionaries

    A Python [dict] keeps its keys in insertion order and [d[k] = v] on a
    present key replaces the value in place. *)

Module odict.
Section odict.
Context {K V : Type} `{EqDecision K}.

Fixpoint get (k : K) (d : list (K * V)) : option V :=
  match d with
  | [] => None
  | (k', v) :: d' => if decide (k = k') then Some v else get k d'
  end.

Fixpoint set (k : K) (v : V) (d : list (K * V)) : list (K * V) :=
  match d with
  | [] => [(k, v)]
  | (k', v') :: d' =>
      if decide (k = k') then (k, v) :: d' else (k', v') :: set k v d'
  end.

Definition mem (k : K) (d : list (K * V)) : bool :=
  match get k d with Some _ => true | None => false end.

Definition keys (d : list (K * V)) : list K := map fst d.
Definition values (d : list (K * V)) : list V := map snd d.
End odict.
End odict.

(** ** Module [constants]

    The sources import this module but it is not among them.  Its other
    names ([AUTH_GENERATE_ENDPOINT], [AUTH_TIMEOUT], [OPENAPI_YAML_ENDPOINT],
    [SCHEMA_DOWNLOAD_TIMEOUT]) are parameters of the functions that use
    them. *)
Module constants.

(** Modelled from the spec: the constant [HTTP_OK] of the missing module
    [constants].  It is the status that the spec calls a 200 response and
    that the sources also compare with literally
    ([resp.status_code == 200]). *)
Definition HTTP_OK : Z := 200.

End constants.

(** ** The outside world: HTTP, files, the log *)

Record request : Type := {
  req_method : string;
  req_url : string;
  req_json : option json;
  req_timeout : Q;
  req_verify : bool
}.

(** [elapsed] is [response.elapsed.total_seconds()]. *)
Record response : Type := {
  status_code : Z;
  text : string;
  elapsed : Q
}.

Inductive level : Type := DEBUG | INFO | WARNING | ERROR.

(** [server] is the behaviour of the remote service and of the network for
    the duration of a call: what [requests.get]/[requests.post] returns or
    raises for a request.  [files] maps a path to the content of the file
    stored there. *)
Record world : Type := {
  server : request -> result response;
  files : gmap string string;
  sent : list request;
  logged : list (level * string)
}.

(** ** A state-and-exception monad over the world *)

Definition M (A : Type) : Type := world -> result A * world.

#[global] Instance M_ret : MRet M := fun A a w => (Ok a, w).
#[global] Instance M_bind : MBind M := fun A B f m w =>
  match m w with
  | (Ok a, w') => f a w'
  | (Raise e, w') => (Raise e, w')
  end.

Definition raise {A} (e : exn) : M A := fun w => (Raise e, w).

Definition lift {A} (r : result A) : M A := fun w => (r, w).

(** [try: body  except <class> as e: handler e] *)
Definition try_except {A} (body : M A) (caught : exn -> bool) (handler : exn -> M A)
    : M A := fun w =>
  match body w with
  | (Ok a, w') => (Ok a, w')
  | (Raise e, w') => if caught e then handler e w' else (Raise e, w')
  end.

(** [logger.<lvl>(msg)] *)
Definition log (lvl : level) (msg : string) : M unit := fun w =>
  (Ok tt, {| server := server w; files := files w; sent := sent w;
             logged := logged w ++ [(lvl, msg)] |}).

(** [requests.get(...)] and [requests.post(...)]: the request goes out and
    the server's answer, or the exception, comes back. *)
Definition send (r : request) : M response := fun w =>
  (server w r, {| server := server w; files := files w; sent := sent w ++ [r];
                  logged := logged w |}).

(** [path.exists()] *)
Definition file_exists (path : string) : M bool := fun w =>
  (Ok (bool_decide (is_Some (files w !! path))), w).

(** [with open(path, 'w') as f: f.write(content)] *)
Definition write_file (path content : string) : M unit := fun w =>
  (Ok tt, {| server := server w; files := <[path := content]> (files w);
             sent := sent w; logged := logged w |}).

(** [with open(path) as f: f.read()] *)
Definition read_file (path : string) : M string := fun w =>
  match files w !! path with
  | Some content => (Ok content, w)
  | None => (Raise FileNotFoundError, w)
  end.

(** [response.raise_for_status()]: 4xx and 5xx raise [HTTPError]. *)
Definition raise_for_status (r : response) : M unit :=
  if (400 <=? status_code r)%Z && (status_code r <? 600)%Z
  then raise (HTTPError (status_code r))
  else mret tt.

(** [str(e)], as formatted into log messages. *)
Definition str_of_exn (e : exn) : string :=
  match e with
  | ValueError msg | Exception msg | RequestException msg => msg
  | KeyError k => k
  | HTTPError status => py.str_of_int status ++ " Error"
  | TypeError => "TypeError"
  | AttributeError => "AttributeError"
  | JSONDecodeError => "JSONDecodeError"
  | YAMLError => "YAMLError"
  | FileNotFoundError => "FileNotFoundError"
  end.

(** ** Operations on JSON values, with Python's dynamic typing *)

Module pyjson.

(** [obj.get(k, default)]: only dictionaries have [get]. *)
Definition get (obj : json) (k : string) (default : json) : result json :=
  match obj with
  | JObj m => Ok (match m !! k with Some v => v | None => default end)
  | _ => Raise AttributeError
  end.

Definition is_str (k : string) (v : json) : bool :=
  match v with JStr s => String.eqb s k | _ => false end.

(** [k in obj] for a string [k]: key of a dictionary, element of a list,
    substring of a string; other values are not containers. *)
Definition contains (obj : json) (k : string) : result bool :=
  match obj with
  | JObj m => Ok (bool_decide (is_Some (m !! k)))
  | JArr l => Ok (existsb (is_str k) l)
  | JStr s => Ok (py.substring_of k s)
  | _ => Raise TypeError
  end.

(** [obj[k]] for a string [k]. *)
Definition getitem (obj : json) (k : string) : result json :=
  match obj with
  | JObj m => match m !! k with Some v => Ok v | None => Raise (KeyError k) end
  | _ => Raise TypeError
  end.

(** [obj.keys()] *)
Definition keys (obj : json) : result (list string) :=
  match obj with
  | JObj m => Ok (map fst (map_to_list m))
  | _ => Raise AttributeError
  end.

End pyjson.

(** ** [conftest.py] *)

Module conftest.

(** The record built by the default factory of [_endpoint_results]. *)
Record EndpointResult : Type := {
  status_codes : list Z;
  response_times : list Q;
  test_count : Z;
  passed : Z;
  failed : Z
}.

(** A value stored under a key of that record. *)
Inductive field_value : Type :=
  | IntList (l : list Z)
  | FloatList (l : list Q)
  | Int (n : Z).

(** The record seen as the Python dictionary it is: [d.items()]. *)
Definition items (d : EndpointResult) : list (string * field_value) :=
  [ ("status_codes", IntList (status_codes d));
    ("response_times", FloatList (response_times d));
    ("test_count", Int (test_count d));
    ("passed", Int (passed d));
    ("failed", Int (failed d)) ].

(** [lambda: {"status_codes": [], "response_times": [], "test_count": 0,
              "passed": 0, "failed": 0}] *)
Definition default_factory (_ : unit) : EndpointResult :=
  {| status_codes := []; response_times := [];
     test_count := 0; passed := 0; failed := 0 |}.

(** [_endpoint_results]: a [defaultdict] from endpoint path to record. *)
Definition endpoint_results : Type := list (string * EndpointResult).

(** [_endpoint_results = defaultdict(...)]: no key at import time. *)
Definition initial_results : endpoint_results := [].

(** [_endpoint_results[k]]: [defaultdict.__getitem__]; a missing key is
    given the factory's record, which is stored and returned. *)
Definition getitem (k : string) (s : endpoint_results)
    : EndpointResult * endpoint_results :=
  match odict.get k s with
  | Some d => (d, s)
  | None => (default_factory tt, odict.set k (default_factory tt) s)
  end.

(** The record a read of [_endpoint_results[k]] would return. *)
Definition view (k : string) (s : endpoint_results) : EndpointResult :=
  fst (getitem k s).

(** [_endpoint_results[k][...] ...]: look the record up (creating it if
    needed) and change it in place. *)
Definition mutate (k : string) (f : EndpointResult -> EndpointResult)
    (s : endpoint_results) : endpoint_results :=
  let (d, s') := getitem k s in odict.set k (f d) s'.

(** The five statements by which the test modules write to the
    aggregator. *)
Inductive record_op : Type :=
  | AppendStatusCode (code : Z)   (* [...]["status_codes"].append(code) *)
  | AppendResponseTime (t : Q)    (* [...]["response_times"].append(t) *)
  | IncTestCount                  (* [...]["test_count"] += 1 *)
  | IncPassed                     (* [...]["passed"] += 1 *)
  | IncFailed.                    (* [...]["failed"] += 1 *)

Definition apply_op (op : record_op) (d : EndpointResult) : EndpointResult :=
  match op with
  | AppendStatusCode code =>
      {| status_codes := status_codes d ++ [code];
         response_times := response_times d;
         test_count := test_count d; passed := passed d; failed := failed d |}
  | AppendResponseTime t =>
      {| status_codes := status_codes d;
         response_times := response_times d ++ [t];
         test_count := test_count d; passed := passed d; failed := failed d |}
  | IncTestCount =>
      {| status_codes := status_codes d; response_times := response_times d;
         test_count := test_count d + 1; passed := passed d; failed := failed d |}
  | IncPassed =>
      {| status_codes := status_codes d; response_times := response_times d;
         test_count := test_count d; passed := passed d + 1; failed := failed d |}
  | IncFailed =>
      {| status_codes := status_codes d; response_times := response_times d;
         test_count := test_count d; passed := passed d; failed := failed d + 1 |}
  end.

Definition record (k : string) (op : record_op) (s : endpoint_results)
    : endpoint_results :=
  mutate k (apply_op op) s.

(** A session's writes: statements executed one after the other, each on
    the endpoint key it names. *)
Definition run (ops : list (string * record_op)) (s : endpoint_results)
    : endpoint_results :=
  fold_left (fun s ko => record (fst ko) (snd ko) s) ops s.

(** *** [_print_endpoint_discovery_summary]

    The summary is written with [logger.info], one call per line; a line
    is kept here with the values that are formatted into it. *)

Inductive icon : Type := IconOk | IconUnstable | IconFailed.

Inductive summary_line : Type :=
  | NoTestsLine          (* debug: "No endpoint discovery tests executed ..." *)
  | RuleLine             (* "=" * 80 or "-" * 80 *)
  | TitleLine (title : string)
  | EndpointLine (i : icon) (endpoint : string)
  | StatusLine (status_text : string)
  | CountsLine (tests n_passed n_failed : Z)
  | CodesLine (status_summary : list (Z * string * Z))
  | AvgLine (avg_time : Q)
  | StableLine (n : nat)
  | UnstableLine (n : nat)
  | FailedLine (n : nat)
  | TotalsLine (total_tests total_passed : Z) (success_rate : Q).

Section summary.
Context (python : interpreter).

(** [lambda x: int(x.split('/')[-1])] *)
Definition sort_key (x : string) : result Z :=
  py.int_of_str python (py.last_item (py.split "/" x)).

(** [200 in codes] *)
Definition has_200 (codes : list Z) : bool := existsb (Z.eqb 200) codes.

(** The loop that fills [status_distribution]. *)
Definition count_codes (codes : list Z) : list (Z * Z) :=
  fold_left
    (fun dist code => odict.set code (default 0 (odict.get code dist) + 1) dist)
    codes [].

(** Order of the tuples [(code, count)]. *)
Definition item_le (a b : Z * Z) : bool :=
  ((fst a <? fst b) || ((fst a =? fst b) && (snd a <=? snd b)))%Z.

Definition status_name (code : Z) : string :=
  match HTTPStatus_name python code with Some n => n | None => "UNKNOWN" end.

Definition status_summary (dist : list (Z * Z)) : list (Z * string * Z) :=
  map (fun cc => (fst cc, status_name (fst cc), snd cc)) (py.sorted item_le dist).

(** [sum(times) / len(times) if times else 0] *)
Definition avg_time (times : list Q) : Q :=
  match times with
  | [] => 0%Q
  | _ => (fold_left Qplus times 0 / inject_Z (Z.of_nat (length times)))%Q
  end.

(** The three-way verdict, from [has_success] and the distribution:
    the icon, the status text, and whether the endpoint is appended to
    [successful_endpoints] (otherwise to [failed_endpoints]). *)
Definition verdict (has_success : bool) (dist : list (Z * Z))
    : icon * string * bool :=
  if has_success && (length dist =? 1)%nat && odict.mem 200 dist
  then (IconOk, "OK", true)
  else if has_success then (IconUnstable, "UNSTABLE", false)
  else (IconFailed, "FAILED", false).

Record loop_state : Type := {
  results : endpoint_results;
  successful_endpoints : list string;
  failed_endpoints : list string;
  lines : list summary_line
}.

(** The lines written for one endpoint. *)
Definition endpoint_block (endpoint : string) (data : EndpointResult)
    : list summary_line :=
  let has_success := has_200 (status_codes data) in
  let status_distribution := count_codes (status_codes data) in
  let '(status_icon, status_text, _) := verdict has_success status_distribution in
  [ EndpointLine status_icon endpoint;
    StatusLine status_text;
    CountsLine (test_count data) (passed data) (failed data);
    CodesLine (status_summary status_distribution);
    AvgLine (avg_time (response_times data)) ].

(** Body of [for endpoint in sorted_endpoints]. *)
Definition loop_body (st : loop_state) (endpoint : string) : loop_state :=
  let (data, s) := getitem endpoint (results st) in
  let has_success := has_200 (status_codes data) in
  let status_distribution := count_codes (status_codes data) in
  let '(_, _, stable) := verdict has_success status_distribution in
  {| results := s;
     successful_endpoints :=
       if stable then successful_endpoints st ++ [endpoint]
       else successful_endpoints st;
     failed_endpoints :=
       if stable then failed_endpoints st
       else failed_endpoints st ++ [endpoint];
     lines := lines st ++ endpoint_block endpoint data |}.

(** The two comprehensions over [failed_endpoints]; [want_200] tells
    whether 200 must be in or not in the status codes. *)
Fixpoint count_failed (want_200 : bool) (l : list string) (s : endpoint_results)
    : nat * endpoint_results :=
  match l with
  | [] => (O, s)
  | e :: l' =>
      let (d1, s1) := getitem e s in
      let keep :=
        match status_codes d1 with
        | [] => (false, s1)
        | _ => let (d2, s2) := getitem e s1 in
               (Bool.eqb (has_200 (status_codes d2)) want_200, s2)
        end in
      let (n, s') := count_failed want_200 l' (snd keep) in
      ((if fst keep then S n else n), s')
  end.

Definition sum_Z (l : list Z) : Z := fold_left Z.add l 0.

Definition success_rate (total_passed total_tests : Z) : Q :=
  if (0 <? total_tests)%Z
  then (inject_Z total_passed / inject_Z total_tests * 100)%Q
  else 0%Q.

(** The function: the aggregator after the call, the lines logged, and
    how the call ends. *)
Definition _print_endpoint_discovery_summary (s : endpoint_results)
    : endpoint_results * list summary_line * result unit :=
  match s with
  | [] => (s, [NoTestsLine], Ok tt)
  | _ =>
      let header := [RuleLine; TitleLine "ENDPOINT DISCOVERY SUMMARY"; RuleLine] in
      match py.sorted_by_key Z.leb sort_key (odict.keys s) with
      | Raise e => (s, header, Raise e)
      | Ok sorted_endpoints =>
          let st := fold_left loop_body sorted_endpoints
                      {| results := s; successful_endpoints := [];
                         failed_endpoints := []; lines := header |} in
          let (n_unstable, s1) := count_failed true (failed_endpoints st) (results st) in
          let (n_failed, s2) := count_failed false (failed_endpoints st) s1 in
          let total_tests := sum_Z (map test_count (odict.values s2)) in
          let total_passed := sum_Z (map passed (odict.values s2)) in
          (s2,
           lines st ++
             [ RuleLine; TitleLine "OVERALL RESULTS"; RuleLine;
               StableLine (length (successful_endpoints st));
               UnstableLine n_unstable;
               FailedLine n_failed;
               TotalsLine total_tests total_passed
                 (success_rate total_passed total_tests);
               RuleLine ],
           Ok tt)
      end
  end.
End summary.

(** *** The token fixtures

    [AUTH_GENERATE_ENDPOINT] and [AUTH_TIMEOUT] come from module
    [constants], [SSL_VERIFY] and the refresh token from the environment,
    [json_loads] is the JSON parser behind [response.json()]. *)

Section fixtures.
Context (AUTH_GENERATE_ENDPOINT : string) (AUTH_TIMEOUT : Q)
        (SSL_VERIFY : bool) (json_loads : string -> result json).

(** [requests.post(url, json={"refresh_token": token}, timeout=..., verify=...)] *)
Definition token_request (url token : string) (verify : bool) : request :=
  {| req_method := "POST"; req_url := url;
     req_json := Some (JObj {[ "refresh_token" := JStr token ]});
     req_timeout := AUTH_TIMEOUT; req_verify := verify |}.

Definition auth_token (base_url initial_refresh_token : string) : M json :=
  log INFO "Generating session access token...";;
  let endpoint := (base_url ++ AUTH_GENERATE_ENDPOINT)%string in
  response ← send (token_request endpoint initial_refresh_token SSL_VERIFY);
  (if (status_code response =? constants.HTTP_OK)%Z
   then log INFO "Session access token generated successfully"
   else log ERROR ("Failed to generate token: "
                   ++ py.str_of_int (status_code response)));;
  body ← lift (json_loads (text response));
  lift (pyjson.getitem body "access_token").

Definition fresh_auth_token (base_url initial_refresh_token : string) : M json :=
  log DEBUG "Generating fresh access token for test...";;
  response ← send (token_request (base_url ++ AUTH_GENERATE_ENDPOINT)%string
                     initial_refresh_token false);
  (if negb (status_code response =? constants.HTTP_OK)%Z
   then raise (Exception ("Failed to generate token: "
                          ++ py.str_of_int (status_code response)))
   else mret tt);;
  token_data ← lift (json_loads (text response));
  lift (pyjson.getitem token_data "access_token").
End fixtures.

End conftest.

(** ** [utils/schema_manager.py] *)

Module schema_manager.

Record SchemaManager : Type := {
  base_url : string;
  schema_dir : string;
  schema_file : string
}.

(** [SchemaManager(base_url, schema_dir)], when its [mkdir] succeeds.
    Directories are not part of the model of the file system: the
    [OSError] that [mkdir] can raise is not modelled here, and the path of
    the schema file is written by concatenation, which is what [pathlib]
    gives for a [schema_dir] that it leaves as it is (no trailing or
    doubled '/', no "." segment).  Statements about a manager take the
    manager as given. *)
Definition __init__ (base_url schema_dir : string) : SchemaManager :=
  {| base_url := base_url; schema_dir := schema_dir;
     schema_file := schema_dir ++ "/openapi_schema.json" |}.

(** [OPENAPI_YAML_ENDPOINT] and [SCHEMA_DOWNLOAD_TIMEOUT] come from module
    [constants] and [SSL_VERIFY] from [conftest].  The YAML and JSON
    libraries are parameters: [yaml_safe_load] parses a text into a Python
    object or raises; [json_dump] gives the text that reaches the file and
    the exception, if any, that interrupts the dump (an object that JSON
    cannot encode); [json_load] parses a file's content. *)
Section SchemaManager.
Context (python : interpreter).
Context (OPENAPI_YAML_ENDPOINT : string) (SCHEMA_DOWNLOAD_TIMEOUT : Q)
        (SSL_VERIFY : bool).
Context {pyobj : Type}
        (yaml_safe_load : string -> result pyobj)
        (json_dump : pyobj -> string * option exn)
        (json_load : string -> result json).

(** [requests.get(url, timeout=SCHEMA_DOWNLOAD_TIMEOUT, verify=SSL_VERIFY)] *)
Definition schema_request (self : SchemaManager) : request :=
  {| req_method := "GET";
     req_url := base_url self ++ OPENAPI_YAML_ENDPOINT;
     req_json := None;
     req_timeout := SCHEMA_DOWNLOAD_TIMEOUT;
     req_verify := SSL_VERIFY |}.

(** [with open(path, 'w') as f: json.dump(schema, f, indent=2)] *)
Definition dump_to_file (path : string) (schema : pyobj) : M unit :=
  let (written, failure) := json_dump schema in
  write_file path written;;
  match failure with
  | Some e => raise e
  | None => mret tt
  end.

Definition download_schema (self : SchemaManager) (force : bool) : M string :=
  cached ← file_exists (schema_file self);
  if cached && negb force then
    log INFO (" OpenAPI schema already exists: " ++ schema_file self);;
    mret (schema_file self)
  else
    log INFO (" Downloading OpenAPI schema from " ++ base_url self ++ "...");;
    try_except
      (response ← send (schema_request self);
       raise_for_status response;;
       schema ← lift (yaml_safe_load (text response));
       dump_to_file (schema_file self) schema;;
       log INFO (" OpenAPI schema saved: " ++ schema_file self);;
       mret (schema_file self))
      is_RequestException
      (fun e =>
         log ERROR (" Failed to download OpenAPI schema: " ++ str_of_exn e);;
         raise e).

Definition get_schema (self : SchemaManager) : M json :=
  cached ← file_exists (schema_file self);
  (if negb cached then download_schema self false;; mret tt else mret tt);;
  content ← read_file (schema_file self);
  lift (json_load content).

Definition get_endpoint_schema (self : SchemaManager) (path method : string)
    : M json :=
  schema ← get_schema self;
  paths ← lift (pyjson.get schema "paths" (JObj ∅));
  known ← lift (pyjson.contains paths path);
  (if negb known
   then raise (ValueError ("Endpoint " ++ path ++ " not found in schema"))
   else mret tt);;
  paths' ← lift (pyjson.getitem schema "paths");
  endpoint ← lift (pyjson.getitem paths' path);
  supported ← lift (pyjson.contains endpoint (py.lower python method));
  (if negb supported
   then raise (ValueError ("Method " ++ method ++ " not supported for " ++ path))
   else mret tt);;
  lift (pyjson.getitem endpoint (py.lower python method)).

(** The loop [for path in ...keys(): if path.startswith(...): append]. *)
Definition test_paths (keys : list string) : list string :=
  fold_left
    (fun test_endpoints path =>
       if py.startswith path "/api/test/" then test_endpoints ++ [path]
       else test_endpoints)
    keys [].

Definition get_all_test_endpoints (self : SchemaManager) : M (list string) :=
  schema ← get_schema self;
  paths ← lift (pyjson.get schema "paths" (JObj ∅));
  keys ← lift (pyjson.keys paths);
  mret (py.sorted String.leb (test_paths keys)).
End SchemaManager.

End schema_manager.

(** ** Recording code of the test modules *)

(** [tests/discovery/test_endpoint_discovery.py] *)
Module test_endpoint_discovery.
Import conftest.

(** [TestEndpointsCommon.test_basic_get], after [requests.get] has returned
    [response]; the closing assertion does not touch the aggregator. *)
Definition test_basic_get (endpoint_path : string) (response : response)
    (s : endpoint_results) : endpoint_results :=
  let s := record endpoint_path (AppendStatusCode (status_code response)) s in
  let s := record endpoint_path (AppendResponseTime (elapsed response)) s in
  let s := record endpoint_path IncTestCount s in
  if (status_code response =? constants.HTTP_OK)%Z
  then record endpoint_path IncPassed s
  else record endpoint_path IncFailed s.

End test_endpoint_discovery.

(** [tests/discovery/test_endpoint_1_discovery.py] *)
Module test_endpoint_1_discovery.
Import conftest.

(** What [make_request] returns: a status with its time, or the marker
    "ERROR" with the text of the exception. *)
Inductive request_result : Type :=
  | Status (status : Z) (time : Q)
  | Error (error : string).

Definition make_request (outcome : result response) : request_result :=
  match outcome with
  | Ok response => Status (status_code response) (elapsed response)
  | Raise e => Error (str_of_exn e)
  end.

(** Body of [for future in as_completed(futures)], run by the main
    thread. *)
Definition record_result (test_endpoint : string) (r : request_result)
    (s : endpoint_results) : endpoint_results :=
  let s := record test_endpoint IncTestCount s in
  match r with
  | Status status time =>
      if (status =? constants.HTTP_OK)%Z then
        let s := record test_endpoint (AppendStatusCode status) s in
        let s := record test_endpoint (AppendResponseTime time) s in
        record test_endpoint IncPassed s
      else
        let s := record test_endpoint IncFailed s in
        record test_endpoint (AppendStatusCode status) s
  | Error _ => record test_endpoint IncFailed s
  end.

(** [test_concurrent_requests]: [completed] lists the outcomes of the 20
    requests in the order in which their futures complete. *)
Definition test_concurrent_requests (test_endpoint : string)
    (completed : list (result response)) (s : endpoint_results)
    : endpoint_results :=
  fold_left (fun s outcome => record_result test_endpoint (make_request outcome) s)
    completed s.

End test_endpoint_1_discovery.

(** [tests/performance/test_concurrent_requests.py] *)
Module test_concurrent_requests.
Import conftest.

(** The dictionary that [do_request] returns. *)
Record request_report : Type := {
  i : Z;
  status : Z;
  time : Q;
  ok : bool;
  error : option string
}.

(** One call of the worker [do_request(i)], taken in isolation: [outcome]
    is what [requests.get] returns or raises and [elapsed_time] the
    measured [time.time() - start].  An exception that is not a
    [RequestException] is not caught. *)
Definition do_request (endpoint_path : string) (i : Z)
    (outcome : result response) (elapsed_time : Q) (s : endpoint_results)
    : result request_report * endpoint_results :=
  match outcome with
  | Ok resp =>
      let s := record endpoint_path (AppendStatusCode (status_code resp)) s in
      let s := record endpoint_path (AppendResponseTime elapsed_time) s in
      let s := record endpoint_path IncTestCount s in
      let s := if (status_code resp =? 200)%Z
               then record endpoint_path IncPassed s
               else record endpoint_path IncFailed s in
      (Ok {| i := i; status := status_code resp; time := elapsed_time;
             ok := (status_code resp =? 200)%Z; error := None |}, s)
  | Raise e =>
      if is_RequestException e then
        let s := record endpoint_path IncTestCount s in
        let s := record endpoint_path IncFailed s in
        (Ok {| i := i; status := 0; time := elapsed_time; ok := false;
               error := Some (str_of_exn e) |}, s)
      else (Raise e, s)
  end.

End test_concurrent_requests.

(** ** Vocabulary of the statements *)

(** [d'] extends [d]: both lists are kept as prefixes and no counter is
    smaller. *)
Definition extends (d d' : conftest.EndpointResult) : Prop :=
  (exists codes, conftest.status_codes d' = conftest.status_codes d ++ codes) /\
  (exists times, conftest.response_times d' = conftest.response_times d ++ times) /\
  conftest.test_count d <= conftest.test_count d' /\
  conftest.passed d <= conftest.passed d' /\
  conftest.failed d <= conftest.failed d'.

(** The three lines that open the summary. *)
Definition header : list conftest.summary_line :=
  [conftest.RuleLine; conftest.TitleLine "ENDPOINT DISCOVERY SUMMARY";
   conftest.RuleLine].

(** The sum of a list of samples. *)
Fixpoint Qsum (l : list Q) : Q :=
  match l with
  | [] => 0%Q
  | x :: l' => (x + Qsum l')%Q
  end.

(** The characters of the last path segment of a key: [k.split('/')[-1]]. *)
Definition segment (k : string) : list ascii :=
  list_ascii_of_string (py.last_item (py.split "/" k)).

(** One step of the loop that fills [status_distribution]. *)
Definition bump (dist : list (Z * Z)) (code : Z) : list (Z * Z) :=
  odict.set code (default 0 (odict.get code dist) + 1) dist.

(** How often [c] occurs in [codes]. *)
Definition occurrences (c : Z) (codes : list Z) : Z :=
  Z.of_nat (count_occ Z.eq_dec codes c).

(** The ['paths'] mapping of a schema document that is the nested mapping
    of the data model: the document is an object and its ['paths'] entry,
    if there is one, is an object too (no entry reads as the empty
    mapping, as in [schema.get("paths", {})]). *)
Definition paths_of (schema : json) : option (gmap string json) :=
  match schema with
  | JObj doc =>
      match doc !! "paths" with
      | None => Some ∅
      | Some (JObj paths) => Some paths
      | Some _ => None
      end
  | _ => None
  end.

(** 4xx and 5xx: the statuses on which [raise_for_status] raises. *)
Definition is_error_status (status : Z) : bool :=
  ((400 <=? status) && (status <? 600))%Z.

(** ** Concrete situations used to exercise the statements *)

Module example.

(** An interpreter for ASCII inputs, with the default digit limit and a
    few status names. *)
Definition python : interpreter :=
  {| max_str_digits := 4300;
     int_non_ascii := fun _ => None;
     lower_non_ascii := fun s => s;
     HTTPStatus_name := fun code =>
       if (code =? 200)%Z then Some "OK"
       else if (code =? 500)%Z then Some "INTERNAL_SERVER_ERROR"
       else if (code =? 503)%Z then Some "SERVICE_UNAVAILABLE"
       else None |}.

(** A JSON parser that knows one text. *)
Definition json_loads (t : string) : result json :=
  if String.eqb t "token-body"
  then Ok (JObj {[ "access_token" := JStr "abc" ]})
  else Raise JSONDecodeError.

(** A service that answers every request with status 503. *)
Definition unavailable : world :=
  {| server := fun _ => Ok {| status_code := 503; text := "token-body";
                              elapsed := 1 # 10 |};
     files := ∅; sent := []; logged := [] |}.

(** A schema manager and the libraries it calls, cut down to one text. *)
Definition manager : schema_manager.SchemaManager :=
  schema_manager.__init__ "https://qa.example" "data/schemas".

Definition yaml_safe_load (t : string) : result json :=
  if String.eqb t "paths: {}" then Ok (JObj {[ "paths" := JObj ∅ ]})
  else Raise YAMLError.

Definition json_dump (schema : json) : string * option exn :=
  ("{ paths: {} }", None).

(** A service that serves the YAML document; nothing is cached yet. *)
Definition serving : world :=
  {| server := fun _ => Ok {| status_code := 200; text := "paths: {}";
                              elapsed := 1 # 10 |};
     files := ∅; sent := []; logged := [] |}.

(** An unreachable service, with an old schema in the cache. *)
Definition offline : world :=
  {| server := fun _ => Raise (RequestException "connection refused");
     files := {[ "data/schemas/openapi_schema.json" := "old schema" ]};
     sent := []; logged := [] |}.

(** A service that answers 503, with an old schema in the cache. *)
Definition failing : world :=
  {| server := fun _ => Ok {| status_code := 503; text := "Service Unavailable";
                              elapsed := 1 # 10 |};
     files := {[ "data/schemas/openapi_schema.json" := "old schema" ]};
     sent := []; logged := [] |}.

(** A cached schema with one path that documents the method "get",
    and a parser that reads it back. *)
Definition schema_doc : json :=
  JObj {[ "openapi" := JStr "3.0.0";
          "paths" := JObj {[ "/api/test/1" := JObj {[ "get" := JObj ∅ ]};
                             "/api/test/2" := JObj {[ "GET" := JObj ∅ ]};
                             "/health" := JObj {[ "get" := JObj ∅ ]} ]} ]}.

Definition json_load (content : string) : result json :=
  if String.eqb content "cached schema" then Ok schema_doc
  else Raise JSONDecodeError.

Definition with_schema : world :=
  {| server := fun _ => Raise (RequestException "connection refused");
     files := {[ "data/schemas/openapi_schema.json" := "cached schema" ]};
     sent := []; logged := [] |}.

(** A session's aggregator: one endpoint that always answered 200, one
    that never did, one that did sometimes. *)
Definition store : conftest.endpoint_results :=
  conftest.run
    [ ("/api/test/2", conftest.AppendStatusCode 500);
      ("/api/test/2", conftest.IncTestCount);
      ("/api/test/2", conftest.IncFailed);
      ("/api/test/1", conftest.AppendStatusCode 200);
      ("/api/test/1", conftest.AppendResponseTime (1 # 2));
      ("/api/test/1", conftest.IncTestCount);
      ("/api/test/1", conftest.IncPassed);
      ("/api/test/3", conftest.AppendStatusCode 200);
      ("/api/test/3", conftest.AppendStatusCode 503);
      ("/api/test/3", conftest.AppendStatusCode 200) ]
    conftest.initial_results.

(** The same, after a test has recorded under a health-check path. *)
Definition store_with_health : conftest.endpoint_results :=
  conftest.record "/health" conftest.IncTestCount store.

End example.

(** ** More of the test modules

    The remaining functions of [test_endpoint_discovery.py] and
    [test_endpoint_1_discovery.py] that write to the aggregator.  The
    requests of one test are numbered from 0: [get i] is what the request
    of iteration [i] returns or raises, [clock i] the time measured around
    it where the test measures time itself. *)

Module discovery_tests.
Import conftest.

Inductive flow : Type := Continue | Break.

(** [for i in range(i, i + n): body(i)] over the state [St]; the body may
    raise, or leave the loop with [break]. *)
Fixpoint for_range {St : Type} (n i : nat)
    (body : nat -> St -> result flow * St) (s : St) : result unit * St :=
  match n with
  | O => (Ok tt, s)
  | S n' =>
      match body i s with
      | (Raise e, s') => (Raise e, s')
      | (Ok Break, s') => (Ok tt, s')
      | (Ok Continue, s') => for_range n' (S i) body s'
      end
  end.

(** The statements that the tests repeat after a response: both appends,
    the test count, and [passed] or [failed] by the test's own rule. *)
Definition record_response (k : string) (passes : Z -> bool)
    (status : Z) (time : Q) (s : endpoint_results) : endpoint_results :=
  let s := record k (AppendStatusCode status) s in
  let s := record k (AppendResponseTime time) s in
  let s := record k IncTestCount s in
  if passes status then record k IncPassed s else record k IncFailed s.

(** The statements of the [except] clauses. *)
Definition record_error (k : string) (s : endpoint_results) : endpoint_results :=
  let s := record k IncTestCount s in
  record k IncFailed s.

(** [status == HTTP_OK] *)
Definition is_ok (status : Z) : bool := (status =? constants.HTTP_OK)%Z.

(** *** [test_endpoint_discovery.py]: loops without [try] *)

Definition test_response_time_consistency (endpoint_path : string)
    (get : nat -> result response) (clock : nat -> Q) (s : endpoint_results)
    : result unit * endpoint_results :=
  for_range 15 0
    (fun i s =>
       match get i with
       | Raise e => (Raise e, s)
       | Ok response =>
           (Ok Continue,
            record_response endpoint_path is_ok (status_code response) (clock i) s)
       end) s.

Definition test_with_different_tokens (endpoint_path : string)
    (get : nat -> result response) (s : endpoint_results)
    : result unit * endpoint_results :=
  for_range 3 0
    (fun i s =>
       match get i with
       | Raise e => (Raise e, s)
       | Ok response =>
           (Ok Continue,
            record_response endpoint_path is_ok (status_code response)
              (elapsed response) s)
       end) s.

Definition test_server_routing (endpoint_path : string)
    (get : nat -> result response) (s : endpoint_results)
    : result unit * endpoint_results :=
  for_range 10 0
    (fun i s =>
       match get i with
       | Raise e => (Raise e, s)
       | Ok response =>
           (Ok Continue,
            record_response endpoint_path is_ok (status_code response)
              (elapsed response) s)
       end) s.

Definition test_consistency_rapid_fire (endpoint_path : string)
    (get : nat -> result response) (s : endpoint_results)
    : result unit * endpoint_results :=
  for_range 10 0
    (fun i s =>
       match get i with
       | Raise e => (Raise e, s)
       | Ok response =>
           (Ok Continue,
            record_response endpoint_path is_ok (status_code response)
              (elapsed response) s)
       end) s.

Definition test_consistency_with_delays (endpoint_path : string)
    (get : nat -> result response) (s : endpoint_results)
    : result unit * endpoint_results :=
  for_range 5 0
    (fun i s =>
       match get i with
       | Raise e => (Raise e, s)
       | Ok response =>
           (Ok Continue,
            record_response endpoint_path is_ok (status_code response)
              (elapsed response) s)
       end) s.

Definition test_timing_analysis (endpoint_path : string)
    (get : nat -> result response) (clock : nat -> Q) (s : endpoint_results)
    : result unit * endpoint_results :=
  for_range 10 0
    (fun i s =>
       match get i with
       | Raise e => (Raise e, s)
       | Ok response =>
           (Ok Continue,
            record_response endpoint_path is_ok (status_code response) (clock i) s)
       end) s.

(** *** [test_endpoint_1_discovery.py] *)

(** 100 requests, each in [try ... except Exception]; [break] on 429. *)
Definition test_stress_rapid_fire (test_endpoint : string)
    (get : nat -> result response) (s : endpoint_results)
    : result unit * endpoint_results :=
  for_range 100 0
    (fun i s =>
       match get i with
       | Ok response =>
           let s := record_response test_endpoint is_ok (status_code response)
                      (elapsed response) s in
           if (status_code response =? 429)%Z then (Ok Break, s)
           else (Ok Continue, s)
       | Raise e => (Ok Continue, record_error test_endpoint s)
       end) s.

(** 200 requests without [try]; [break] on 429. *)
Definition test_rate_limiting_detection (test_endpoint : string)
    (get : nat -> result response) (s : endpoint_results)
    : result unit * endpoint_results :=
  for_range 200 0
    (fun i s =>
       match get i with
       | Raise e => (Raise e, s)
       | Ok response =>
           let s := record_response test_endpoint is_ok (status_code response)
                      (elapsed response) s in
           if (status_code response =? 429)%Z then (Ok Break, s)
           else (Ok Continue, s)
       end) s.

(** 60 requests without [try]. *)
Definition test_long_running_session (test_endpoint : string)
    (get : nat -> result response) (s : endpoint_results)
    : result unit * endpoint_results :=
  for_range 60 0
    (fun i s =>
       match get i with
       | Raise e => (Raise e, s)
       | Ok response =>
           (Ok Continue,
            record_response test_endpoint is_ok (status_code response)
              (elapsed response) s)
       end) s.

(** Four payloads; 200 and 400 both count as passed. *)
Definition test_invalid_payloads (test_endpoint : string)
    (get : nat -> result response) (s : endpoint_results)
    : result unit * endpoint_results :=
  for_range 4 0
    (fun i s =>
       match get i with
       | Raise e => (Raise e, s)
       | Ok response =>
           (Ok Continue,
            record_response test_endpoint
              (fun status => is_ok status || (status =? 400)%Z)
              (status_code response) (elapsed response) s)
       end) s.

(** Four invalid tokens; only 401 counts as passed. *)
Definition test_expired_token (test_endpoint : string)
    (get : nat -> result response) (s : endpoint_results)
    : result unit * endpoint_results :=
  for_range 4 0
    (fun i s =>
       match get i with
       | Raise e => (Raise e, s)
       | Ok response =>
           (Ok Continue,
            record_response test_endpoint (fun status => (status =? 401)%Z)
              (status_code response) (elapsed response) s)
       end) s.

(** Four timeouts, each request in [try]; both [except] clauses record
    the same. *)
Definition test_timeout_scenarios (test_endpoint : string)
    (get : nat -> result response) (s : endpoint_results)
    : result unit * endpoint_results :=
  for_range 4 0
    (fun i s =>
       match get i with
       | Ok response =>
           (Ok Continue,
            record_response test_endpoint is_ok (status_code response)
              (elapsed response) s)
       | Raise e => (Ok Continue, record_error test_endpoint s)
       end) s.

(** Three sets of headers without a valid token; only 401 counts as
    passed. *)
Definition test_missing_headers (test_endpoint : string)
    (get : nat -> result response) (s : endpoint_results)
    : result unit * endpoint_results :=
  for_range 3 0
    (fun i s =>
       match get i with
       | Raise e => (Raise e, s)
       | Ok response =>
           (Ok Continue,
            record_response test_endpoint (fun status => (status =? 401)%Z)
              (status_code response) (elapsed response) s)
       end) s.

(** 50 requests without [try], timed by the test itself. *)
Definition test_statistical_outlier_detection (test_endpoint : string)
    (get : nat -> result response) (clock : nat -> Q) (s : endpoint_results)
    : result unit * endpoint_results :=
  for_range 50 0
    (fun i s =>
       match get i with
       | Raise e => (Raise e, s)
       | Ok response =>
           (Ok Continue,
            record_response test_endpoint is_ok (status_code response) (clock i) s)
       end) s.

(** 30 requests without [try]. *)
Definition test_response_content_consistency (test_endpoint : string)
    (get : nat -> result response) (s : endpoint_results)
    : result unit * endpoint_results :=
  for_range 30 0
    (fun i s =>
       match get i with
       | Raise e => (Raise e, s)
       | Ok response =>
           (Ok Continue,
            record_response test_endpoint is_ok (status_code response)
              (elapsed response) s)
       end) s.

(** Ten requests over a session, each in [try ... except Exception]. *)
Definition test_network_interruption_simulation (test_endpoint : string)
    (get : nat -> result response) (s : endpoint_results)
    : result unit * endpoint_results :=
  for_range 10 0
    (fun i s =>
       match get i with
       | Ok response =>
           (Ok Continue,
            record_response test_endpoint is_ok (status_code response)
              (elapsed response) s)
       | Raise e => (Ok Continue, record_error test_endpoint s)
       end) s.

(** Seven payload sizes, each request in [try ... except Exception]. *)
Definition test_payload_size_boundaries (test_endpoint : string)
    (get : nat -> result response) (s : endpoint_results)
    : result unit * endpoint_results :=
  for_range 7 0
    (fun i s =>
       match get i with
       | Ok response =>
           (Ok Continue,
            record_response test_endpoint is_ok (status_code response)
              (elapsed response) s)
       | Raise e => (Ok Continue, record_error test_endpoint s)
       end) s.

(** Six HTTP methods, each request in [try ... except Exception]; 405 and
    200 both count as passed. *)
Definition test_http_method_variations (test_endpoint : string)
    (get : nat -> result response) (s : endpoint_results)
    : result unit * endpoint_results :=
  for_range 6 0
    (fun i s =>
       match get i with
       | Ok response =>
           (Ok Continue,
            record_response test_endpoint
              (fun status => (status =? 405)%Z || is_ok status)
              (status_code response) (elapsed response) s)
       | Raise e => (Ok Continue, record_error test_endpoint s)
       end) s.

(** Five sets of headers, each request in [try ... except Exception]; 200
    and 401 both count as passed. *)
Definition test_special_characters_in_headers (test_endpoint : string)
    (get : nat -> result response) (s : endpoint_results)
    : result unit * endpoint_results :=
  for_range 5 0
    (fun i s =>
       match get i with
       | Ok response =>
           (Ok Continue,
            record_response test_endpoint
              (fun status => is_ok status || (status =? 401)%Z)
              (status_code response) (elapsed response) s)
       | Raise e => (Ok Continue, record_error test_endpoint s)
       end) s.

(** How [test_response_size_patterns] ends: normally, with the
    [IndexError] of [sizes[0]], or with the exception of a request. *)
Inductive size_test_end : Type :=
  | SizesReported
  | SizesIndexError
  | RequestRaised (e : exn).

(** 20 requests without [try]; [content_length r] is [len(r.content)].
    The closing report reads [sizes[0]] unless more than one distinct size
    was seen. *)
Definition test_response_size_patterns (test_endpoint : string)
    (content_length : response -> Z)
    (get : nat -> result response) (s : endpoint_results)
    : size_test_end * endpoint_results :=
  let loop :=
    for_range 20 0
      (fun i (st : endpoint_results * list Z) =>
         match get i with
         | Raise e => (Raise e, st)
         | Ok response =>
             let s := record_response test_endpoint is_ok (status_code response)
                        (elapsed response) (fst st) in
             let sizes :=
               if is_ok (status_code response)
               then snd st ++ [content_length response] else snd st in
             (Ok Continue, (s, sizes))
         end) (s, []) in
  match loop with
  | (Raise e, (s', _)) => (RequestRaised e, s')
  | (Ok _, (s', sizes)) =>
      if (1 <? length (remove_dups sizes))%nat then (SizesReported, s')
      else match sizes with
           | [] => (SizesIndexError, s')
           | _ :: _ => (SizesReported, s')
           end
  end.

End discovery_tests.

(** ** [tests/discovery/test_endpoint_4_discovery.py] *)

Module test_endpoint_4_discovery.
Import conftest.

(** [TestEndpoint4Discovery.test_endpoint_basic_get], after [requests.get]
    has returned [response]: the three recording statements.  The
    assertions that follow do not touch the aggregator; neither [passed]
    nor [failed] is written anywhere in the test. *)
Definition test_endpoint_basic_get (endpoint_path : string) (response : response)
    (s : endpoint_results) : endpoint_results :=
  let s := record endpoint_path (AppendStatusCode (status_code response)) s in
  let s := record endpoint_path (AppendResponseTime (elapsed response)) s in
  record endpoint_path IncTestCount s.

End test_endpoint_4_discovery.

(** ** The rest of [tests/performance/test_concurrent_requests.py]

    [test_concurrent_requests] after its workers: the futures are drained
    in the order of completion, the metrics are computed from the reports,
    and the test is failed or marked as an expected failure before any of
    the closing threshold assertions.  Those assertions compare floats and
    are not part of the model, and neither are the warm-up requests, whose
    results and exceptions are thrown away. *)

Module performance_tests.
Import conftest.

(** The entry of [PERFORMANCE_THRESHOLDS] for an endpoint; the last three
    keys are optional in the table. *)
Record thresholds : Type := {
  max_avg_response_time : Q;
  min_success_rate : Q;
  max_p95_latency : Q;
  expected_failure : option bool;
  needs_warmup : option bool;
  warmup_requests : option Z
}.

Definition total_requests : nat := 10.
Definition concurrency : nat := 5.

(** One completed future: the argument of [do_request], what
    [requests.get] returned or raised in it, and the time it measured. *)
Definition completion : Type := Z * result response * Q.

(** The workers: what the futures hold, and the aggregator after all of
    them.  [completed] lists the futures in the order in which
    [as_completed] yields them, and the workers are run in that same
    order, each call of [do_request] as one step.  The threads reach their
    appends in an order of their own, so of the lists in the aggregator
    only what does not depend on the order of their new elements carries
    over to a run of the code. *)
Fixpoint run_workers (endpoint_path : string) (completed : list completion)
    (s : endpoint_results)
    : list (result test_concurrent_requests.request_report) * endpoint_results :=
  match completed with
  | [] => ([], s)
  | (i, outcome, t) :: rest =>
      let (r, s') := test_concurrent_requests.do_request endpoint_path i outcome t s in
      let (rs, s'') := run_workers endpoint_path rest s' in
      (r :: rs, s'')
  end.

(** [for fut in as_completed(futures): results.append(fut.result())]:
    the first future that holds an exception raises it. *)
Fixpoint drain (futures : list (result test_concurrent_requests.request_report))
    : result (list test_concurrent_requests.request_report) :=
  match futures with
  | [] => Ok []
  | Raise e :: _ => Raise e
  | Ok r :: rest =>
      match drain rest with
      | Ok rs => Ok (r :: rs)
      | Raise e => Raise e
      end
  end.

(** [max(times)] for a non-empty list: the first of the largest elements. *)
Fixpoint max_from (best : Q) (times : list Q) : Q :=
  match times with
  | [] => best
  | t :: rest => max_from (if Qle_bool t best then best else t) rest
  end.

(** [sum(times) / len(times)], the exact mean that [statistics.mean]
    rounds to a float. *)
Definition mean (times : list Q) : Q :=
  (fold_left Qplus times 0 / inject_Z (Z.of_nat (length times)))%Q.

(** The expression for [p95_latency]; [p95_index n] is
    [int(n * 0.95)] in float arithmetic, and [None] stands for the
    [IndexError] of an index out of range. *)
Definition p95 (p95_index : nat -> nat) (response_times : list Q) : option Q :=
  if (20 <=? length response_times)%nat then
    nth_error (py.sorted Qle_bool response_times)
      (p95_index (length response_times))
  else
    match response_times with
    | [] => Some 0%Q
    | t :: rest => Some (max_from t rest)
    end.

Record metrics : Type := {
  response_times : list Q;
  success_count : nat;
  error_count : nat;
  success_rate : Q;
  avg_response_time : Q;
  p95_latency : option Q
}.

Definition compute_metrics (p95_index : nat -> nat)
    (results : list test_concurrent_requests.request_report) : metrics :=
  let response_times :=
    map test_concurrent_requests.time
      (List.filter test_concurrent_requests.ok results) in
  let successful_requests := List.filter test_concurrent_requests.ok results in
  let success_count := length successful_requests in
  {| response_times := response_times;
     success_count := success_count;
     error_count := length results - success_count;
     success_rate :=
       if (0 <? total_requests)%nat
       then (inject_Z (Z.of_nat success_count)
             / inject_Z (Z.of_nat total_requests))%Q
       else 0%Q;
     avg_response_time :=
       match response_times with [] => 0%Q | _ => mean response_times end;
     p95_latency := p95 p95_index response_times |}.

(** How the test ends before its threshold assertions. *)
Inductive test_end : Type :=
  | Raised (e : exn)          (* an exception out of [fut.result()] *)
  | Failed                    (* [pytest.fail]: 0% success rate *)
  | XFailed                   (* [pytest.xfail]: known issues *)
  | ReachesAssertions (m : metrics).

Definition test_concurrent_requests (endpoint_path : string)
    (limits : thresholds) (p95_index : nat -> nat)
    (completed : list completion) (s : endpoint_results)
    : test_end * endpoint_results :=
  let (futures, s') := run_workers endpoint_path completed s in
  match drain futures with
  | Raise e => (Raised e, s')
  | Ok results =>
      let m := compute_metrics p95_index results in
      if Qeq_bool (success_rate m) 0 then (Failed, s')
      else if default false (expected_failure limits) then (XFailed, s')
      else (ReachesAssertions m, s')
  end.

End performance_tests.

(** ** The schema fixtures of [conftest.py] *)

Module schema_fixtures.
Import schema_manager.

Section fixtures.
Context (python : interpreter).
Context (SCHEMA_DIR OPENAPI_YAML_ENDPOINT : string) (SCHEMA_DOWNLOAD_TIMEOUT : Q)
        (SSL_VERIFY : bool).
Context {pyobj : Type}
        (yaml_safe_load : string -> result pyobj)
        (json_dump : pyobj -> string * option exn)
        (json_load : string -> result json).

(** [schema_manager(base_url)].  [constructed] is what the call
    [SchemaManager(base_url, SCHEMA_DIR)] returns or raises (its [mkdir]
    can fail); the call stands before the [try], so its exception leaves
    the fixture.  Any exception of the first download is logged as a
    warning and the manager is returned all the same; [str e] is Python's
    [str(e)]. *)
Definition schema_manager (str : exn -> string)
    (constructed : result SchemaManager) : M SchemaManager :=
  manager ← lift constructed;
  try_except
    (download_schema OPENAPI_YAML_ENDPOINT SCHEMA_DOWNLOAD_TIMEOUT SSL_VERIFY
       yaml_safe_load json_dump manager false;;
     log INFO " OpenAPI schema loaded successfully")
    (fun _ => true)
    (fun e => log WARNING (" Could not load OpenAPI schema: " +:+ str e));;
  mret manager.

(** [openapi_schema(schema_manager)] *)
Definition openapi_schema (manager : SchemaManager) : M json :=
  get_schema OPENAPI_YAML_ENDPOINT SCHEMA_DOWNLOAD_TIMEOUT SSL_VERIFY
    yaml_safe_load json_dump json_load manager.

(** The function that [endpoint_schema(schema_manager)] returns, with its
    default method. *)
Definition endpoint_schema (manager : SchemaManager) (path : string)
    (method : option string) : M json :=
  get_endpoint_schema python OPENAPI_YAML_ENDPOINT SCHEMA_DOWNLOAD_TIMEOUT
    SSL_VERIFY yaml_safe_load json_dump json_load manager path
    (default "get" method).
End fixtures.

End schema_fixtures.

(** ** Texts that read as an integer

    What the summary needs of the last segment of a key, stated on the
    text itself and without [int]'s parser: optional white space, an
    optional sign, decimal digits in which single underscores may separate
    digits, and optional white space, that is
    [\s*[+-]?[0-9]+(_[0-9]+)*\s*].  The text is read in one pass, one
    character at a time. *)

Module integer_text.

(** Space, tab, line feed, vertical tab, form feed, carriage return. *)
Definition blank (c : ascii) : bool :=
  existsb (Ascii.eqb c) [" "; "009"; "010"; "011"; "012"; "013"]%char.

(** The decimal digits, each at the place of its value. *)
Definition decimal_digits : list ascii := list_ascii_of_string "0123456789".

Fixpoint place (c : ascii) (among : list ascii) (from : Z) : option Z :=
  match among with
  | [] => None
  | d :: rest => if Ascii.eqb c d then Some from else place c rest (from + 1)
  end.

(** The value of a decimal digit. *)
Definition digit (c : ascii) : option Z := place c decimal_digits 0.

(** Where the reading is: in the leading white space, after the sign,
    after a digit, after an underscore, in the trailing white space, or
    stopped at a character that cannot follow. *)
Inductive phase : Type :=
  Leading | Signed | Digits | Underscore | Trailing | Refused.

Definition step (p : phase) (c : ascii) : phase :=
  match p with
  | Leading =>
      if blank c then Leading
      else if Ascii.eqb c "+" || Ascii.eqb c "-" then Signed
      else match digit c with Some _ => Digits | None => Refused end
  | Signed | Underscore =>
      match digit c with Some _ => Digits | None => Refused end
  | Digits =>
      match digit c with
      | Some _ => Digits
      | None =>
          if Ascii.eqb c "_" then Underscore
          else if blank c then Trailing else Refused
      end
  | Trailing => if blank c then Trailing else Refused
  | Refused => Refused
  end.

Definition accepting (p : phase) : bool :=
  match p with Digits | Trailing => true | _ => false end.

Definition well_formed (text : list ascii) : bool :=
  accepting (fold_left step text Leading).

(** The digits of a text, in order, and the number they write in base
    10. *)
Definition digits (text : list ascii) : list Z := omap digit text.

Definition magnitude (text : list ascii) : Z :=
  fold_left (fun acc d => 10 * acc + d) (digits text) 0.

Definition negative (text : list ascii) : bool :=
  existsb (Ascii.eqb "-") text.

(** [limit] is the interpreter's limit on the number of digits, 0 for no
    limit. *)
Definition within_limit (limit : nat) (text : list ascii) : bool :=
  (limit =? 0)%nat || (length (digits text) <=? limit)%nat.

(** The integer that a text reads as, if it reads as one. *)
Definition value (limit : nat) (text : list ascii) : option Z :=
  if well_formed text && within_limit limit text
  then Some (if negative text then - magnitude text else magnitude text)
  else None.

End integer_text.

(** The integer that ends a key: what the text after the last '/' reads
    as.  A text that is not pure ASCII is left to the interpreter's
    Unicode tables. *)
Definition key_number (python : interpreter) (k : string) : option Z :=
  if forallb py.is_ascii (segment k)
  then integer_text.value (max_str_digits python) (segment k)
  else int_non_ascii python (string_of_list_ascii (segment k)).

(** ** Vocabulary of the further statements *)

(** The endpoints named by the summary's endpoint lines, in order. *)
Fixpoint reported (lines : list conftest.summary_line) : list string :=
  match lines with
  | [] => []
  | conftest.EndpointLine _ e :: rest => e :: reported rest
  | _ :: rest => reported rest
  end.

(** The three groups of the closing totals, as conditions on the status
    codes of an entry. *)
Definition all_200 (codes : list Z) : bool :=
  conftest.has_200 codes && forallb (Z.eqb 200) codes.

Definition mixed_200 (codes : list Z) : bool :=
  conftest.has_200 codes && negb (forallb (Z.eqb 200) codes).

Definition answered_never_200 (codes : list Z) : bool :=
  match codes with [] => false | _ => negb (conftest.has_200 codes) end.

Definition answered (codes : list Z) : bool :=
  match codes with [] => false | _ => true end.

(** How many recorded keys have status codes that satisfy [p]. *)
Definition count_keys (p : list Z -> bool) (s : conftest.endpoint_results) : nat :=
  length (List.filter
            (fun k => p (conftest.status_codes (conftest.view k s)))
            (odict.keys s)).

(** An entry whose counters add up: every counted test is passed or
    failed, and no list is longer than the number of counted tests. *)
Definition balanced (d : conftest.EndpointResult) : Prop :=
  conftest.test_count d = conftest.passed d + conftest.failed d
  /\ 0 <= conftest.passed d /\ 0 <= conftest.failed d
  /\ (length (conftest.response_times d) <= length (conftest.status_codes d))%nat
  /\ Z.of_nat (length (conftest.status_codes d)) <= conftest.test_count d.

Definition balanced_results (s : conftest.endpoint_results) : Prop :=
  Forall (fun entry => balanced (snd entry)) s.

(** An entry after more recordings: new status codes and times at the end
    of its lists, and as many more counted tests as passed and failed ones
    together. *)
Definition grown (d : conftest.EndpointResult) (codes : list Z) (times : list Q)
    (n_passed n_failed : Z) : conftest.EndpointResult :=
  {| conftest.status_codes := conftest.status_codes d ++ codes;
     conftest.response_times := conftest.response_times d ++ times;
     conftest.test_count := conftest.test_count d + (n_passed + n_failed);
     conftest.passed := conftest.passed d + n_passed;
     conftest.failed := conftest.failed d + n_failed |}.

(** The shape shared by the bodies of the request loops: a response is
    recorded, then [stop] decides on [break]; an exception is recorded as
    an error when the request is [guarded] by [try], and leaves the loop
    otherwise. *)
Definition request_body (k : string) (passes stop : Z -> bool) (guarded : bool)
    (time_of : nat -> response -> Q) (get : nat -> result response)
    : nat -> conftest.endpoint_results
      -> result discovery_tests.flow * conftest.endpoint_results :=
  fun i s =>
    match get i with
    | Ok r =>
        let s := discovery_tests.record_response k passes (status_code r)
                   (time_of i r) s in
        if stop (status_code r) then (Ok discovery_tests.Break, s)
        else (Ok discovery_tests.Continue, s)
    | Raise e =>
        if guarded then (Ok discovery_tests.Continue, discovery_tests.record_error k s)
        else (Raise e, s)
    end.

(** The iterations that such a loop of at most [n] requests, numbered from
    [i], goes through: each with the outcome of its request. *)
Fixpoint executed (stop : Z -> bool) (guarded : bool) (n i : nat)
    (get : nat -> result response) : list (nat * result response) :=
  match n with
  | O => []
  | S n' =>
      match get i with
      | Ok r =>
          (i, Ok r) :: (if stop (status_code r) then []
                        else executed stop guarded n' (S i) get)
      | Raise e =>
          if guarded then (i, Raise e) :: executed stop guarded n' (S i) get
          else []
      end
  end.

(** The exception that ends such a loop, if one does. *)
Fixpoint escaping (stop : Z -> bool) (guarded : bool) (n i : nat)
    (get : nat -> result response) : option exn :=
  match n with
  | O => None
  | S n' =>
      match get i with
      | Ok r => if stop (status_code r) then None
                else escaping stop guarded n' (S i) get
      | Raise e => if guarded then escaping stop guarded n' (S i) get else Some e
      end
  end.

(** The responses among executed iterations, with the iteration's number. *)
Fixpoint responses (trace : list (nat * result response)) : list (nat * response) :=
  match trace with
  | [] => []
  | (i, Ok r) :: rest => (i, r) :: responses rest
  | (_, Raise _) :: rest => responses rest
  end.

(** How many of the executed iterations ended in an exception. *)
Fixpoint errors (trace : list (nat * result response)) : nat :=
  match trace with
  | [] => O
  | (_, Ok _) :: rest => errors rest
  | (_, Raise _) :: rest => S (errors rest)
  end.

(** How many of the responses satisfy a condition on the status. *)
Definition count_status (p : Z -> bool) (rs : list (nat * response)) : Z :=
  Z.of_nat (length (List.filter (fun ir => p (status_code (snd ir))) rs)).

(** The entry of [k] after the executed iterations [trace]. *)
Definition after_trace (passes : Z -> bool) (time_of : nat -> response -> Q)
    (trace : list (nat * result response)) (d : conftest.EndpointResult)
    : conftest.EndpointResult :=
  grown d
    (map (fun ir => status_code (snd ir)) (responses trace))
    (map (fun ir => time_of (fst ir) (snd ir)) (responses trace))
    (count_status passes (responses trace))
    (count_status (fun status => negb (passes status)) (responses trace)
     + Z.of_nat (errors trace)).

(** The first [m] requests of a test, each with its outcome. *)
Definition requests_made (get : nat -> result response) (m : nat)
    : list (nat * result response) :=
  map (fun j => (j, get j)) (seq 0 m).

(** What a loop of [n] requests does when each request is in
    [try ... except] and nothing leaves the loop: it never raises, all [n]
    requests are made and counted, and other entries are left alone. *)
Definition records_every_request (n : nat) (passes : Z -> bool) (k : string)
    (get : nat -> result response) (s : conftest.endpoint_results)
    (out : result unit * conftest.endpoint_results) : Prop :=
  fst out = Ok tt
  /\ conftest.view k (snd out)
     = after_trace passes (fun _ r => elapsed r) (requests_made get n)
         (conftest.view k s)
  /\ conftest.test_count (conftest.view k (snd out))
     = conftest.test_count (conftest.view k s) + Z.of_nat n
  /\ (forall other, other <> k ->
        conftest.view other (snd out) = conftest.view other s).

(** The sizes that [test_response_size_patterns] has collected after the
    requests [i], ..., [i + n - 1], or after those before the first one
    that raises. *)
Fixpoint sizes_seen (content_length : response -> Z) (n i : nat)
    (get : nat -> result response) : list Z :=
  match n with
  | O => []
  | S n' =>
      match get i with
      | Ok r =>
          (if discovery_tests.is_ok (status_code r) then [content_length r] else [])
          ++ sizes_seen content_length n' (S i) get
      | Raise _ => []
      end
  end.

(** What a loop of at most [n] requests with [break] on a status does, as
    far as it goes: it makes the first [m] requests and records them; only
    the last of them can have the status that stops the loop; without
    [try] all of them were answered. *)
Definition records_until_stop (n m : nat) (passes stop : Z -> bool)
    (k : string) (get : nat -> result response)
    (s : conftest.endpoint_results)
    (out : result unit * conftest.endpoint_results) : Prop :=
  (m <= n)%nat
  /\ conftest.view k (snd out)
     = after_trace passes (fun _ r => elapsed r) (requests_made get m)
         (conftest.view k s)
  /\ conftest.test_count (conftest.view k (snd out))
     = conftest.test_count (conftest.view k s) + Z.of_nat m
  /\ (forall j r, (j + 1 < m)%nat -> get j = Ok r -> stop (status_code r) = false)
  /\ (forall other, other <> k ->
        conftest.view other (snd out) = conftest.view other s).

(** The loop has stopped at its bound or after a stopping status. *)
Definition stopped_at (n m : nat) (stop : Z -> bool)
    (get : nat -> result response) : Prop :=
  m = n
  \/ exists r, (0 < m)%nat /\ get (m - 1)%nat = Ok r
               /\ stop (status_code r) = true.

(** What a loop of [n] requests without [try] and without [break] does:
    the first [m] requests are answered and recorded, one status code, one
    time and one counted test each; the loop ends normally when [m = n],
    and with the exception of request [m] otherwise.  Other entries are
    left alone. *)
Definition records_until_exception (n : nat) (passes : Z -> bool)
    (time_of : nat -> response -> Q) (k : string) (get : nat -> result response)
    (s : conftest.endpoint_results)
    (out : result unit * conftest.endpoint_results) : Prop :=
  exists m rs,
    (m <= n)%nat /\ length rs = m
    /\ (forall j r, nth_error rs j = Some r -> get j = Ok r)
    /\ (m = n -> fst out = Ok tt)
    /\ ((m < n)%nat -> exists e, get m = Raise e /\ fst out = Raise e)
    /\ conftest.view k (snd out)
       = grown (conftest.view k s)
           (map status_code rs)
           (imap time_of rs)
           (Z.of_nat (length (List.filter (fun r => passes (status_code r)) rs)))
           (Z.of_nat (length (List.filter
                                (fun r => negb (passes (status_code r))) rs)))
    /\ conftest.test_count (conftest.view k (snd out))
       = conftest.test_count (conftest.view k s) + Z.of_nat m
    /\ (forall other, other <> k ->
          conftest.view other (snd out) = conftest.view other s).

(** The aggregator after each of the recording tests of the two discovery
    modules, run on [s] for the key [k]: [answer] is the response to the
    single request of [test_basic_get], [get] gives the outcomes of the
    requests of a loop, and [completed] those of the 20 concurrent
    requests. *)
Definition after_discovery_test (k : string) (answer : response)
    (get : nat -> result response) (clock : nat -> Q)
    (content_length : response -> Z)
    (completed : list (result response)) (s : conftest.endpoint_results)
    : list conftest.endpoint_results :=
  [ test_endpoint_discovery.test_basic_get k answer s;
    snd (discovery_tests.test_response_time_consistency k get clock s);
    snd (discovery_tests.test_with_different_tokens k get s);
    snd (discovery_tests.test_server_routing k get s);
    snd (discovery_tests.test_consistency_rapid_fire k get s);
    snd (discovery_tests.test_consistency_with_delays k get s);
    snd (discovery_tests.test_timing_analysis k get clock s);
    snd (discovery_tests.test_stress_rapid_fire k get s);
    test_endpoint_1_discovery.test_concurrent_requests k completed s;
    snd (discovery_tests.test_long_running_session k get s);
    snd (discovery_tests.test_invalid_payloads k get s);
    snd (discovery_tests.test_expired_token k get s);
    snd (discovery_tests.test_missing_headers k get s);
    snd (discovery_tests.test_timeout_scenarios k get s);
    snd (discovery_tests.test_network_interruption_simulation k get s);
    snd (discovery_tests.test_response_size_patterns k content_length get s);
    snd (discovery_tests.test_statistical_outlier_detection k get clock s);
    snd (discovery_tests.test_rate_limiting_detection k get s);
    snd (discovery_tests.test_payload_size_boundaries k get s);
    snd (discovery_tests.test_response_content_consistency k get s);
    snd (discovery_tests.test_http_method_variations k get s);
    snd (discovery_tests.test_special_characters_in_headers k get s) ].

(** The summary's lines about counters are consistent: the tests of an
    endpoint are its passed and failed ones, and the totals give a rate
    between 0 and 100. *)
Definition consistent_line (line : conftest.summary_line) : Prop :=
  match line with
  | conftest.CountsLine tests n_passed n_failed =>
      tests = n_passed + n_failed /\ 0 <= n_passed /\ 0 <= n_failed
  | conftest.TotalsLine total_tests total_passed rate =>
      0 <= total_passed <= total_tests /\ (0 <= rate)%Q /\ (rate <= 100)%Q
  | _ => True
  end.

(** The responses among the outcomes of requests, in their order. *)
Fixpoint answers (outcomes : list (result response)) : list response :=
  match outcomes with
  | [] => []
  | Ok r :: rest => r :: answers rest
  | Raise _ :: rest => answers rest
  end.

(** A completed future of the performance test whose request was answered
    with status 200. *)
Definition succeeded (c : performance_tests.completion) : bool :=
  match c with
  | (_, Ok r, _) => (status_code r =? 200)%Z
  | (_, Raise _, _) => false
  end.

(** A completed future whose request was answered. *)
Definition was_answered (c : performance_tests.completion) : bool :=
  match c with
  | (_, Ok _, _) => true
  | (_, Raise _, _) => false
  end.

(** A completed future that holds a report: the request was answered, or
    raised an exception that [do_request] catches. *)
Definition reported_back (c : performance_tests.completion) : bool :=
  match c with
  | (_, Ok _, _) => true
  | (_, Raise e, _) => is_RequestException e
  end.

(** The status of the answer and the time measured by a completed
    future. *)
Definition status_of (c : performance_tests.completion) : Z :=
  match c with
  | (_, Ok r, _) => status_code r
  | (_, Raise _, _) => 0
  end.

Definition measured (c : performance_tests.completion) : Q := snd c.

(** ** Further concrete situations *)

Module scenario.

(** An endpoint whose only recorded test ended in an exception, beside an
    endpoint that answered. *)
Definition silent_endpoint : conftest.endpoint_results :=
  conftest.run
    [ ("/api/test/10", conftest.AppendStatusCode 200);
      ("/api/test/10", conftest.IncTestCount);
      ("/api/test/10", conftest.IncPassed);
      ("/api/test/9", conftest.IncTestCount);
      ("/api/test/9", conftest.IncFailed) ]
    conftest.initial_results.

(** Thresholds of an endpoint flagged as an expected failure. *)
Definition flagged : performance_tests.thresholds :=
  {| performance_tests.max_avg_response_time := 2;
     performance_tests.min_success_rate := 0;
     performance_tests.max_p95_latency := 3;
     performance_tests.expected_failure := Some true;
     performance_tests.needs_warmup := None;
     performance_tests.warmup_requests := None |}.

(** Ten completed futures, all answered with status 503. *)
Definition all_unavailable : list performance_tests.completion :=
  map (fun i => (Z.of_nat i,
                 Ok {| status_code := 503; text := "down"; elapsed := 1 # 10 |},
                 2 # 10))
      (seq 0 10).

(** Ten completed futures: nine answered with status 200 after 0.2 s, the
    last one after 0.5 s. *)
Definition mostly_fast : list performance_tests.completion :=
  map (fun i => (Z.of_nat i,
                 Ok {| status_code := 200; text := "ok"; elapsed := 1 # 10 |},
                 if (i <? 9)%nat then 2 # 10 else 5 # 10))
      (seq 0 10).

(** Thresholds of an endpoint without flags. *)
Definition strict : performance_tests.thresholds :=
  {| performance_tests.max_avg_response_time := 1;
     performance_tests.min_success_rate := 1;
     performance_tests.max_p95_latency := 15 # 10;
     performance_tests.expected_failure := None;
     performance_tests.needs_warmup := None;
     performance_tests.warmup_requests := None |}.

(** A YAML parser that yields a document with a date, and a JSON encoder
    that stops at the date after half of the text. *)
Definition yaml_with_date (t : string) : result json :=
  Ok (JObj {[ "paths" := JObj ∅ ]}).

Definition json_dump_stops (schema : json) : string * option exn :=
  ("{ paths: {}, released: ", Some TypeError).

(** An unreachable service and no cached schema. *)
Definition unreachable : world :=
  {| server := fun _ => Raise (RequestException "connection refused");
     files := ∅; sent := []; logged := [] |}.

(** A cached schema in which one path is documented by a list of method
    names, and a parser that reads it back. *)
Definition listed_methods : json :=
  JObj {[ "paths" := JObj {[ "/api/test/1" := JArr [JStr "get"; JStr "post"] ]} ]}.

Definition json_load_listed (content : string) : result json :=
  Ok listed_methods.

(** A service that answers the token request with status 200. *)
Definition granting : world :=
  {| server := fun _ => Ok {| status_code := 200; text := "token-body";
                              elapsed := 1 # 10 |};
     files := ∅; sent := []; logged := [] |}.

(** A service that answers 200 with a page that is no YAML document;
    nothing is cached. *)
Definition garbled : world :=
  {| server := fun _ => Ok {| status_code := 200; text := "<html>";
                              elapsed := 1 # 10 |};
     files := ∅; sent := []; logged := [] |}.

End scenario.


(** * Properties *)

(** ** The builtins on a few inputs *)

Example split_last_segment :
  py.last_item (py.split "/" "/api/test/12") = "12".
Proof. reflexivity. Qed.

Example split_keeps_empty_segments : py.split "/" "/a//b/" = [""; "a"; ""; "b"; ""].
Proof. reflexivity. Qed.

Example int_accepts_sign_space_underscore :
  py.int_of_str example.python " +1_0 " = Ok 10.
Proof. reflexivity. Qed.

Example int_accepts_leading_zeros : py.int_of_str example.python "007" = Ok 7.
Proof. reflexivity. Qed.

Example int_refuses_double_underscore :
  is_Ok (py.int_of_str example.python "1__0") = false.
Proof. reflexivity. Qed.

Example int_refuses_empty : is_Ok (py.int_of_str example.python "") = false.
Proof. reflexivity. Qed.

Example lower_GET : py.lower example.python "GET" = "get".
Proof. reflexivity. Qed.

Example str_of_int_503 : py.str_of_int 503 = "503".
Proof. reflexivity. Qed.

Example sorted_is_stable :
  py.sorted_by_key Z.leb (fun x : Z * string => Ok (fst x))
    [(2, "a"); (1, "b"); (2, "c"); (1, "d")]
  = Ok [(1, "b"); (1, "d"); (2, "a"); (2, "c")].
Proof. reflexivity. Qed.

Example summary_of_store :
  snd (fst (conftest._print_endpoint_discovery_summary example.python
              example.store))
  = [ conftest.RuleLine; conftest.TitleLine "ENDPOINT DISCOVERY SUMMARY";
      conftest.RuleLine;
      conftest.EndpointLine conftest.IconOk "/api/test/1";
      conftest.StatusLine "OK";
      conftest.CountsLine 1 1 0;
      conftest.CodesLine [(200, "OK", 1)];
      conftest.AvgLine (1 # 2);
      conftest.EndpointLine conftest.IconFailed "/api/test/2";
      conftest.StatusLine "FAILED";
      conftest.CountsLine 1 0 1;
      conftest.CodesLine [(500, "INTERNAL_SERVER_ERROR", 1)];
      conftest.AvgLine 0;
      conftest.EndpointLine conftest.IconUnstable "/api/test/3";
      conftest.StatusLine "UNSTABLE";
      conftest.CountsLine 0 0 0;
      conftest.CodesLine [(200, "OK", 2); (503, "SERVICE_UNAVAILABLE", 1)];
      conftest.AvgLine 0;
      conftest.RuleLine; conftest.TitleLine "OVERALL RESULTS"; conftest.RuleLine;
      conftest.StableLine 1; conftest.UnstableLine 1; conftest.FailedLine 1;
      conftest.TotalsLine 2 1 (100 # 2);
      conftest.RuleLine ].
Proof. vm_compute. reflexivity. Qed.

(** ** Insertion-ordered dictionaries *)

Section odict_facts.
Context {K V : Type} `{EqDecision K}.
Implicit Types (k : K) (v : V) (d : list (K * V)).

Lemma odict_get_set_eq k v d : odict.get k (odict.set k v d) = Some v.
Proof.
  induction d as [|[k' v'] d IH]; simpl.
  - destruct (decide (k = k)); congruence.
  - destruct (decide (k = k')) as [->|Hne]; simpl.
    + destruct (decide (k' = k')); congruence.
    + destruct (decide (k = k')); [congruence | exact IH].
Qed.

Lemma odict_get_set_ne k k' v d :
  k <> k' -> odict.get k' (odict.set k v d) = odict.get k' d.
Proof.
  intros Hne. induction d as [|[k0 v0] d IH]; simpl.
  - destruct (decide (k' = k)); congruence.
  - destruct (decide (k = k0)) as [->|Hk]; simpl.
    + destruct (decide (k' = k0)); congruence.
    + destruct (decide (k' = k0)); [reflexivity | exact IH].
Qed.

Lemma odict_set_absent k v d :
  odict.get k d = None -> odict.set k v d = d ++ [(k, v)].
Proof.
  induction d as [|[k' v'] d IH]; simpl; [reflexivity|].
  destruct (decide (k = k')); [discriminate|].
  intros Hd. now rewrite IH.
Qed.

Lemma odict_set_same k v d : odict.get k d = Some v -> odict.set k v d = d.
Proof.
  induction d as [|[k' v'] d IH]; simpl; [discriminate|].
  destruct (decide (k = k')) as [->|Hne].
  - now intros [= ->].
  - intros Hd. now rewrite IH.
Qed.

Lemma odict_get_In k d : In k (odict.keys d) -> exists v, odict.get k d = Some v.
Proof.
  induction d as [|[k' v'] d IH]; simpl; [tauto|].
  destruct (decide (k = k')); [eauto|]. intros [Heq|Hin]; [congruence | auto].
Qed.

Lemma odict_get_Some_In k v d : odict.get k d = Some v -> In k (odict.keys d).
Proof.
  induction d as [|[k' v'] d IH]; simpl; [discriminate|].
  destruct (decide (k = k')) as [->|Hne]; auto.
Qed.
End odict_facts.

(** ** The aggregator *)

Section aggregator.
Import conftest.
Implicit Types (k e : string) (s : endpoint_results) (d : EndpointResult).

Lemma getitem_present k s d : odict.get k s = Some d -> getitem k s = (d, s).
Proof. unfold getitem. now intros ->. Qed.

Lemma getitem_absent k s :
  odict.get k s = None ->
  getitem k s = (default_factory tt, s ++ [(k, default_factory tt)]).
Proof. unfold getitem. intros Hk. now rewrite Hk, odict_set_absent. Qed.

Lemma view_get k s :
  view k s = match odict.get k s with Some d => d | None => default_factory tt end.
Proof. unfold view, getitem. now destruct (odict.get k s). Qed.

Lemma get_mutate_eq k f s : odict.get k (mutate k f s) = Some (f (view k s)).
Proof.
  unfold mutate, view. destruct (getitem k s) as [d s'] eqn:E. simpl.
  apply odict_get_set_eq.
Qed.

Lemma get_mutate_ne k e f s : k <> e -> odict.get e (mutate k f s) = odict.get e s.
Proof.
  intros Hne. unfold mutate, getitem.
  destruct (odict.get k s) as [d|] eqn:E;
    now rewrite ?odict_get_set_ne by assumption.
Qed.

Lemma view_record k op s e :
  view e (record k op s) = if decide (e = k) then apply_op op (view k s) else view e s.
Proof.
  unfold record. rewrite (view_get e). destruct (decide (e = k)) as [->|Hne].
  - now rewrite get_mutate_eq.
  - rewrite get_mutate_ne by congruence. now rewrite view_get.
Qed.
End aggregator.

Section recording.
Import conftest.
Implicit Types (k e : string) (s : endpoint_results) (d : EndpointResult).

Lemma extends_refl d : extends d d.
Proof.
  unfold extends. repeat split; try lia; exists []; now rewrite app_nil_r.
Qed.

Lemma extends_trans d1 d2 d3 : extends d1 d2 -> extends d2 d3 -> extends d1 d3.
Proof.
  intros ([c1 Hc1] & [t1 Ht1] & ? & ? & ?) ([c2 Hc2] & [t2 Ht2] & ? & ? & ?).
  unfold extends. repeat split; try lia.
  - exists (c1 ++ c2). now rewrite Hc2, Hc1, app_assoc.
  - exists (t1 ++ t2). now rewrite Ht2, Ht1, app_assoc.
Qed.

Lemma apply_op_shape op d :
  exists codes times a b c,
    apply_op op d =
      {| status_codes := status_codes d ++ codes;
         response_times := response_times d ++ times;
         test_count := test_count d + a;
         passed := passed d + b;
         failed := failed d + c |}
    /\ 0 <= a /\ 0 <= b /\ 0 <= c.
Proof.
  destruct d as [sc rt tc pa fa]. destruct op as [code|t| | |]; simpl.
  - exists [code], [], 0, 0, 0. rewrite app_nil_r, !Z.add_0_r. repeat split; lia.
  - exists [], [t], 0, 0, 0. rewrite app_nil_r, !Z.add_0_r. repeat split; lia.
  - exists [], [], 1, 0, 0. rewrite !app_nil_r, !Z.add_0_r. repeat split; lia.
  - exists [], [], 0, 1, 0. rewrite !app_nil_r, !Z.add_0_r. repeat split; lia.
  - exists [], [], 0, 0, 1. rewrite !app_nil_r, !Z.add_0_r. repeat split; lia.
Qed.

Lemma apply_op_extends op d : extends d (apply_op op d).
Proof.
  destruct (apply_op_shape op d) as (codes & times & a & b & c & -> & ? & ? & ?).
  unfold extends; simpl. repeat split; eauto; lia.
Qed.

Lemma record_extends k op s e : extends (view e s) (view e (record k op s)).
Proof.
  rewrite view_record. destruct (decide (e = k)) as [->|_].
  - apply apply_op_extends.
  - apply extends_refl.
Qed.

Lemma run_extends ops s e : extends (view e s) (view e (run ops s)).
Proof.
  revert s. induction ops as [|[k op] ops IH]; intros s; simpl.
  - apply extends_refl.
  - eapply extends_trans; [apply record_extends | apply IH].
Qed.

Lemma run_app ops1 ops2 s : run (ops1 ++ ops2) s = run ops2 (run ops1 s).
Proof. unfold run. apply fold_left_app. Qed.

Lemma test_basic_get_run k (r : response) s :
  exists ops, test_endpoint_discovery.test_basic_get k r s = run ops s.
Proof.
  unfold test_endpoint_discovery.test_basic_get.
  destruct (status_code r =? constants.HTTP_OK)%Z.
  - now exists [(k, AppendStatusCode (status_code r));
                (k, AppendResponseTime (elapsed r)); (k, IncTestCount);
                (k, IncPassed)].
  - now exists [(k, AppendStatusCode (status_code r));
                (k, AppendResponseTime (elapsed r)); (k, IncTestCount);
                (k, IncFailed)].
Qed.

Lemma record_result_run k r s :
  exists ops, test_endpoint_1_discovery.record_result k r s = run ops s.
Proof.
  unfold test_endpoint_1_discovery.record_result.
  destruct r as [status time|err].
  - destruct (status =? constants.HTTP_OK)%Z.
    + now exists [(k, IncTestCount); (k, AppendStatusCode status);
                  (k, AppendResponseTime time); (k, IncPassed)].
    + now exists [(k, IncTestCount); (k, IncFailed); (k, AppendStatusCode status)].
  - now exists [(k, IncTestCount); (k, IncFailed)].
Qed.

Lemma test_concurrent_requests_run k completed s :
  exists ops, test_endpoint_1_discovery.test_concurrent_requests k completed s = run ops s.
Proof.
  unfold test_endpoint_1_discovery.test_concurrent_requests.
  revert s. induction completed as [|o completed IH]; intros s; simpl.
  - now exists [].
  - destruct (record_result_run k (test_endpoint_1_discovery.make_request o) s)
      as [ops1 ->].
    destruct (IH (run ops1 s)) as [ops2 ->].
    exists (ops1 ++ ops2). now rewrite run_app.
Qed.

Lemma do_request_run k i outcome t s :
  exists ops, snd (test_concurrent_requests.do_request k i outcome t s) = run ops s.
Proof.
  unfold test_concurrent_requests.do_request.
  destruct outcome as [resp|err].
  - destruct (status_code resp =? 200)%Z; simpl.
    + now exists [(k, AppendStatusCode (status_code resp));
                  (k, AppendResponseTime t); (k, IncTestCount); (k, IncPassed)].
    + now exists [(k, AppendStatusCode (status_code resp));
                  (k, AppendResponseTime t); (k, IncTestCount); (k, IncFailed)].
  - destruct (is_RequestException err); simpl.
    + now exists [(k, IncTestCount); (k, IncFailed)].
    + now exists [].
Qed.
End recording.

(** C6 (as stated, refuted): the record that the default factory creates
    on the first access of a key does not have four fields. *)
Lemma C6_record_has_not_four_fields :
  length (conftest.items
            (fst (conftest.getitem "/api/test/1" conftest.initial_results)))
  <> 4%nat.
Proof. vm_compute. discriminate. Qed.

(** C6 (amended): the aggregator maps an endpoint path to a record with
    five fields (status codes, response times, test count, passed count,
    failed count).  The record of a key is created on the first access of
    that key, by the default factory, with both lists empty and the three
    counters zero, and is stored under the key after all earlier keys; a
    later access returns the stored record and creates nothing. *)
Theorem C6_default_record_is_lazy_and_empty (k : string) (s : conftest.endpoint_results) :
  map fst (conftest.items (conftest.view k s))
    = ["status_codes"; "response_times"; "test_count"; "passed"; "failed"]
  /\ conftest.items (conftest.default_factory tt)
    = [ ("status_codes", conftest.IntList []);
        ("response_times", conftest.FloatList []);
        ("test_count", conftest.Int 0);
        ("passed", conftest.Int 0);
        ("failed", conftest.Int 0) ]
  /\ odict.get k conftest.initial_results = None
  /\ match odict.get k s with
     | None =>
         conftest.getitem k s
           = (conftest.default_factory tt, s ++ [(k, conftest.default_factory tt)])
     | Some d => conftest.getitem k s = (d, s)
     end.
Proof.
  repeat split.
  destruct (odict.get k s) as [d|] eqn:E.
  - now apply getitem_present.
  - now apply getitem_absent.
Qed.

(** C7: every statement by which a test function writes to an entry of the
    aggregator appends to one of the two lists or adds a non-negative
    amount to one of the three counters, and touches the entry of its own
    key only.  Hence over any sequence of such statements, and so over the
    recording code of the test functions, the lists of every entry only
    grow at the end and its counters never decrease. *)
Theorem C7_recording_is_additive :
  (forall op d, exists codes times a b c,
      conftest.apply_op op d =
        {| conftest.status_codes := conftest.status_codes d ++ codes;
           conftest.response_times := conftest.response_times d ++ times;
           conftest.test_count := conftest.test_count d + a;
           conftest.passed := conftest.passed d + b;
           conftest.failed := conftest.failed d + c |}
      /\ 0 <= a /\ 0 <= b /\ 0 <= c)
  /\ (forall k op s e,
        conftest.view e (conftest.record k op s)
        = if decide (e = k) then conftest.apply_op op (conftest.view k s)
          else conftest.view e s)
  /\ (forall ops s e, extends (conftest.view e s) (conftest.view e (conftest.run ops s)))
  /\ (forall k r s e,
        extends (conftest.view e s)
                (conftest.view e (test_endpoint_discovery.test_basic_get k r s)))
  /\ (forall k completed s e,
        extends (conftest.view e s)
                (conftest.view e
                   (test_endpoint_1_discovery.test_concurrent_requests k completed s)))
  /\ (forall k i outcome t s e,
        extends (conftest.view e s)
                (conftest.view e
                   (snd (test_concurrent_requests.do_request k i outcome t s)))).
Proof.
  split; [exact apply_op_shape|].
  split; [exact view_record|].
  split; [exact run_extends|].
  split; [|split].
  - intros k r s e. destruct (test_basic_get_run k r s) as [ops ->].
    apply run_extends.
  - intros k completed s e.
    destruct (test_concurrent_requests_run k completed s) as [ops ->].
    apply run_extends.
  - intros k i outcome t s e. destruct (do_request_run k i outcome t s) as [ops ->].
    apply run_extends.
Qed.

(** ** The status-code histogram *)

Section histogram.
Import conftest.
Implicit Types (codes : list Z) (dist : list (Z * Z)) (c code : Z).

Lemma count_codes_fold codes : count_codes codes = fold_left bump codes [].
Proof. reflexivity. Qed.

Lemma sum_Z_from (l : list Z) a : fold_left Z.add l a = a + sum_Z l.
Proof.
  unfold sum_Z. revert a. induction l as [|x l IH]; intros a; simpl; [lia|].
  rewrite (IH (a + x)), (IH (0 + x)). lia.
Qed.

Lemma sum_Z_cons x (l : list Z) : sum_Z (x :: l) = x + sum_Z l.
Proof. unfold sum_Z at 1. simpl. now rewrite sum_Z_from. Qed.

Lemma sum_bump dist code :
  sum_Z (map snd (bump dist code)) = sum_Z (map snd dist) + 1.
Proof.
  unfold bump. induction dist as [|[c n] dist IH]; simpl.
  - reflexivity.
  - destruct (decide (code = c)) as [->|Hne]; simpl.
    + rewrite !sum_Z_cons. lia.
    + rewrite !sum_Z_cons, IH. lia.
Qed.

Lemma sum_fold_bump codes dist :
  sum_Z (map snd (fold_left bump codes dist))
  = sum_Z (map snd dist) + Z.of_nat (length codes).
Proof.
  revert dist. induction codes as [|c codes IH]; intros dist; simpl length.
  - simpl. lia.
  - simpl fold_left. rewrite IH, sum_bump. lia.
Qed.

(** The counts of the histogram add up to the number of recorded status
    codes. *)
Lemma histogram_total codes :
  sum_Z (map snd (count_codes codes)) = Z.of_nat (length codes).
Proof. rewrite count_codes_fold, sum_fold_bump. reflexivity. Qed.

Lemma get_bump dist code c :
  odict.get c (bump dist code)
  = if decide (c = code) then Some (default 0 (odict.get code dist) + 1)
    else odict.get c dist.
Proof.
  unfold bump. destruct (decide (c = code)) as [->|Hne].
  - apply odict_get_set_eq.
  - apply odict_get_set_ne. congruence.
Qed.

Lemma get_fold_bump codes dist c :
  odict.get c (fold_left bump codes dist)
  = match odict.get c dist with
    | Some n => Some (n + occurrences c codes)
    | None => if decide (occurrences c codes = 0) then None
              else Some (occurrences c codes)
    end.
Proof.
  unfold occurrences.
  revert dist. induction codes as [|x codes IH]; intros dist.
  - simpl. destruct (odict.get c dist); [f_equal; lia | reflexivity].
  - simpl fold_left. rewrite IH, get_bump. simpl count_occ.
    destruct (decide (c = x)) as [->|Hne].
    + destruct (Z.eq_dec x x); [|congruence].
      destruct (odict.get x dist) as [n|]; simpl default.
      * f_equal. lia.
      * destruct (decide (Z.of_nat (S _) = 0)); [lia | f_equal; lia].
    + destruct (Z.eq_dec x c); [congruence|]. reflexivity.
Qed.

Lemma get_count_codes codes c :
  odict.get c (count_codes codes)
  = if decide (occurrences c codes = 0) then None else Some (occurrences c codes).
Proof. rewrite count_codes_fold, get_fold_bump. reflexivity. Qed.
End histogram.

(** C8: when the request of the worker [do_request] raises a request
    exception, the call returns a report with [ok] false and status 0,
    adds one to the entry's [test_count] and [failed] and leaves its two
    lists (and [passed], and every other entry) as they were.  The counts
    of the printed histogram add up to the length of the status-code
    list, so an entry whose tests were all counted before the call has,
    after it, more counted tests than the histogram accounts for. *)
Theorem C8_request_exception_counts_without_status
    (endpoint_path : string) (i : Z) (e : exn) (t : Q)
    (s : conftest.endpoint_results) :
  is_RequestException e = true ->
  let r := fst (test_concurrent_requests.do_request endpoint_path i (Raise e) t s) in
  let s' := snd (test_concurrent_requests.do_request endpoint_path i (Raise e) t s) in
  let d := conftest.view endpoint_path s in
  let d' := conftest.view endpoint_path s' in
  (exists report, r = Ok report
      /\ test_concurrent_requests.ok report = false
      /\ test_concurrent_requests.status report = 0)
  /\ conftest.test_count d' = conftest.test_count d + 1
  /\ conftest.failed d' = conftest.failed d + 1
  /\ conftest.passed d' = conftest.passed d
  /\ conftest.status_codes d' = conftest.status_codes d
  /\ conftest.response_times d' = conftest.response_times d
  /\ (forall other, other <> endpoint_path ->
        conftest.view other s' = conftest.view other s)
  /\ conftest.sum_Z (map snd (conftest.count_codes (conftest.status_codes d')))
       = Z.of_nat (length (conftest.status_codes d'))
  /\ (Z.of_nat (length (conftest.status_codes d)) <= conftest.test_count d ->
      Z.of_nat (length (conftest.status_codes d')) < conftest.test_count d').
Proof.
  intros He. unfold test_concurrent_requests.do_request. rewrite He. simpl.
  rewrite !view_record.
  destruct (decide (endpoint_path = endpoint_path)) as [_|]; [|congruence].
  simpl. repeat split.
  - eexists. repeat split.
  - intros other Hne. rewrite !view_record.
    destruct (decide (other = endpoint_path)); [congruence | reflexivity].
  - apply histogram_total.
  - lia.
Qed.

(** From a fresh aggregator, one failed request: a counted test and no
    status code. *)
Lemma C8_witness :
  let s' := snd (test_concurrent_requests.do_request "/api/test/2" 0
                   (Raise (RequestException "timed out")) (1 # 2)
                   conftest.initial_results) in
  conftest.test_count (conftest.view "/api/test/2" s') = 1
  /\ length (conftest.status_codes (conftest.view "/api/test/2" s')) = 0%nat
  /\ Z.of_nat (length (conftest.status_codes (conftest.view "/api/test/2" s')))
     < conftest.test_count (conftest.view "/api/test/2" s').
Proof.
  pose proof (C8_request_exception_counts_without_status "/api/test/2" 0
                (RequestException "timed out") (1 # 2) conftest.initial_results
                eq_refl) as H.
  cbv zeta in H.
  destruct H as (_ & Hcount & _ & _ & Hcodes & _ & _ & _ & Hlt).
  split; [exact Hcount|]. split; [now rewrite Hcodes|].
  apply Hlt. vm_compute. discriminate.
Defined.

(** ** Running the world monad *)

Lemma bind_Ok {A B} (m : M A) (f : A -> M B) w a w' :
  m w = (Ok a, w') -> (m ≫= f) w = f a w'.
Proof. unfold mbind, M_bind. now intros ->. Qed.

Lemma bind_Raise {A B} (m : M A) (f : A -> M B) w e w' :
  m w = (Raise e, w') -> (m ≫= f) w = (Raise e, w').
Proof. unfold mbind, M_bind. now intros ->. Qed.

Ltac run_world :=
  unfold mbind, M_bind, mret, M_ret, lift, raise, log, send, file_exists,
    write_file, read_file, try_except; simpl.

(** ** The token fixtures *)

Section fixtures_facts.
Context (AUTH_GENERATE_ENDPOINT : string) (AUTH_TIMEOUT : Q)
        (SSL_VERIFY : bool) (json_loads : string -> result json).

Local Abbreviation auth_token :=
  (conftest.auth_token AUTH_GENERATE_ENDPOINT AUTH_TIMEOUT SSL_VERIFY json_loads).
Local Abbreviation fresh_auth_token :=
  (conftest.fresh_auth_token AUTH_GENERATE_ENDPOINT AUTH_TIMEOUT json_loads).
Local Abbreviation token_request := (conftest.token_request AUTH_TIMEOUT).

Lemma auth_token_sent base_url token w :
  sent (snd (auth_token base_url token w))
  = sent w ++ [token_request (base_url ++ AUTH_GENERATE_ENDPOINT) token SSL_VERIFY].
Proof.
  unfold conftest.auth_token. run_world.
  destruct (server w _) as [resp|e]; simpl; [|reflexivity].
  destruct (status_code resp =? constants.HTTP_OK)%Z; simpl;
    destruct (json_loads (text resp)) as [body|e]; simpl; try reflexivity;
    destruct (pyjson.getitem body "access_token"); reflexivity.
Qed.

Lemma fresh_auth_token_sent base_url token w :
  sent (snd (fresh_auth_token base_url token w))
  = sent w ++ [token_request (base_url ++ AUTH_GENERATE_ENDPOINT) token false].
Proof.
  unfold conftest.fresh_auth_token. run_world.
  destruct (server w _) as [resp|e]; simpl; [|reflexivity].
  destruct (status_code resp =? constants.HTTP_OK)%Z; simpl; [|reflexivity].
  destruct (json_loads (text resp)) as [body|e]; simpl; [|reflexivity].
  destruct (pyjson.getitem body "access_token"); reflexivity.
Qed.
End fixtures_facts.

(** C10: on a response whose status is not 200, [auth_token] logs an error
    and its result is whatever [response.json()["access_token"]] evaluates
    to, the status raising nothing; [fresh_auth_token] raises an
    [Exception] whatever the body is.  [fresh_auth_token] always sends its
    request with verification off, [auth_token] with the configured
    [SSL_VERIFY]. *)
Theorem C10_token_fixtures_on_error_status
    (AUTH_GENERATE_ENDPOINT : string) (AUTH_TIMEOUT : Q) (SSL_VERIFY : bool)
    (json_loads : string -> result json)
    (base_url token : string) (w : world) (resp : response) :
  let url := (base_url ++ AUTH_GENERATE_ENDPOINT)%string in
  let session := conftest.auth_token AUTH_GENERATE_ENDPOINT AUTH_TIMEOUT
                   SSL_VERIFY json_loads base_url token w in
  let fresh := conftest.fresh_auth_token AUTH_GENERATE_ENDPOINT AUTH_TIMEOUT
                 json_loads base_url token w in
  server w (conftest.token_request AUTH_TIMEOUT url token SSL_VERIFY) = Ok resp ->
  server w (conftest.token_request AUTH_TIMEOUT url token false) = Ok resp ->
  status_code resp <> 200 ->
  fst session
    = match json_loads (text resp) with
      | Ok body => pyjson.getitem body "access_token"
      | Raise e => Raise e
      end
  /\ In (ERROR, "Failed to generate token: " +:+ py.str_of_int (status_code resp))
        (logged (snd session))
  /\ fst fresh
     = Raise (Exception ("Failed to generate token: "
                         +:+ py.str_of_int (status_code resp)))
  /\ sent (snd session)
     = sent w ++ [conftest.token_request AUTH_TIMEOUT url token SSL_VERIFY]
  /\ sent (snd fresh)
     = sent w ++ [conftest.token_request AUTH_TIMEOUT url token false]
  /\ req_verify (conftest.token_request AUTH_TIMEOUT url token SSL_VERIFY) = SSL_VERIFY
  /\ req_verify (conftest.token_request AUTH_TIMEOUT url token false) = false.
Proof.
  intros url session fresh Hs Hf Hstatus.
  assert (Hne : (status_code resp =? constants.HTTP_OK)%Z = false)
    by (apply Z.eqb_neq; exact Hstatus).
  split; [|split; [|split; [|split; [|split; [|split]]]]].
  - subst session url. unfold conftest.auth_token. run_world.
    rewrite Hs. simpl. rewrite Hne. simpl.
    destruct (json_loads (text resp)) as [body|e]; simpl; [|reflexivity].
    destruct (pyjson.getitem body "access_token"); reflexivity.
  - subst session url. unfold conftest.auth_token. run_world.
    rewrite Hs. simpl. rewrite Hne. simpl.
    destruct (json_loads (text resp)) as [body|e]; simpl.
    + destruct (pyjson.getitem body "access_token"); simpl;
        apply in_or_app; right; left; reflexivity.
    + apply in_or_app; right; left; reflexivity.
  - subst fresh url. unfold conftest.fresh_auth_token. run_world.
    rewrite Hf. simpl. rewrite Hne. reflexivity.
  - apply auth_token_sent.
  - apply fresh_auth_token_sent.
  - reflexivity.
  - reflexivity.
Qed.

(** On a 503 answer that carries a token, the session fixture returns the
    token and the per-test fixture raises. *)
Lemma C10_witness :
  fst (conftest.auth_token "/api/auth/generate" 10 true example.json_loads
         "https://qa.example" "refresh" example.unavailable)
    = Ok (JStr "abc")
  /\ fst (conftest.fresh_auth_token "/api/auth/generate" 10 example.json_loads
            "https://qa.example" "refresh" example.unavailable)
    = Raise (Exception "Failed to generate token: 503").
Proof.
  pose proof (C10_token_fixtures_on_error_status "/api/auth/generate" 10 true
                example.json_loads "https://qa.example" "refresh"
                example.unavailable
                {| status_code := 503; text := "token-body"; elapsed := 1 # 10 |}
                eq_refl eq_refl ltac:(discriminate)) as H.
  cbv zeta in H. destruct H as (Hsession & _ & Hfresh & _).
  split; [rewrite Hsession | rewrite Hfresh]; vm_compute; reflexivity.
Defined.

(** ** [sorted] *)

Section sorted_facts.
Context {A : Type} (le : A -> A -> bool).
Implicit Types (x : A) (l : list A).

Lemma insert_sorted_perm x l : Permutation (py.insert_sorted le x l) (x :: l).
Proof.
  induction l as [|y l IH]; simpl; [reflexivity|].
  destruct (le x y); [reflexivity|].
  rewrite IH. apply perm_swap.
Qed.

Lemma sorted_perm l : Permutation (py.sorted le l) l.
Proof.
  induction l as [|x l IH]; simpl; [reflexivity|].
  unfold py.sorted in IH. now rewrite insert_sorted_perm, IH.
Qed.

Lemma sorted_In x l : In x (py.sorted le l) <-> In x l.
Proof.
  split; apply Permutation_in; [|symmetry]; apply sorted_perm.
Qed.

Hypothesis le_total : forall x y, le x y = false -> le y x = true.

Lemma insert_sorted_Sorted x l :
  Sorted (fun a b => le a b = true) l ->
  Sorted (fun a b => le a b = true) (py.insert_sorted le x l).
Proof.
  induction 1 as [|y l Hl IH Hhd]; simpl.
  - repeat constructor.
  - destruct (le x y) eqn:Exy.
    + constructor; [constructor; assumption | constructor; exact Exy].
    + constructor; [exact IH|].
      destruct l as [|z l]; simpl.
      * constructor. now apply le_total.
      * inversion Hhd; subst.
        destruct (le x z); constructor; [now apply le_total | assumption].
Qed.

Lemma sorted_Sorted l : Sorted (fun a b => le a b = true) (py.sorted le l).
Proof.
  induction l as [|x l IH]; simpl; [constructor|].
  now apply insert_sorted_Sorted.
Qed.
End sorted_facts.

Lemma ascii_compare_trans_Lt a b c :
  Ascii.compare a b = Lt -> Ascii.compare b c = Lt -> Ascii.compare a c = Lt.
Proof.
  unfold Ascii.compare. rewrite !N.compare_lt_iff. lia.
Qed.

Lemma string_compare_trans_Lt s1 : forall s2 s3,
  String.compare s1 s2 = Lt -> String.compare s2 s3 = Lt -> String.compare s1 s3 = Lt.
Proof.
  induction s1 as [|a s1 IH]; intros [|b s2] [|c s3]; simpl; try congruence.
  destruct (Ascii.compare a b) eqn:Eab; try discriminate;
    destruct (Ascii.compare b c) eqn:Ebc; try discriminate; intros H12 H23.
  - apply Ascii.compare_eq_iff in Eab, Ebc. subst.
    assert (Ascii.compare c c = Eq) as ->
        by (unfold Ascii.compare; apply N.compare_refl).
    eapply IH; eassumption.
  - apply Ascii.compare_eq_iff in Eab. subst. now rewrite Ebc.
  - apply Ascii.compare_eq_iff in Ebc. subst. now rewrite Eab.
  - now rewrite (ascii_compare_trans_Lt a b c).
Qed.

Lemma string_compare_refl s : String.compare s s = Eq.
Proof.
  induction s as [|a s IH]; simpl; [reflexivity|].
  assert (Ascii.compare a a = Eq) as ->
      by (unfold Ascii.compare; apply N.compare_refl).
  exact IH.
Qed.

Lemma string_leb_trans s1 s2 s3 :
  String.leb s1 s2 = true -> String.leb s2 s3 = true -> String.leb s1 s3 = true.
Proof.
  unfold String.leb.
  destruct (String.compare s1 s2) eqn:E12; try discriminate;
    destruct (String.compare s2 s3) eqn:E23; try discriminate; intros _ _.
  - apply String.compare_eq_iff in E12, E23. subst. now rewrite string_compare_refl.
  - apply String.compare_eq_iff in E12. subst. now rewrite E23.
  - apply String.compare_eq_iff in E23. subst. now rewrite E12.
  - now rewrite (string_compare_trans_Lt s1 s2 s3).
Qed.

Lemma string_leb_total s1 s2 : String.leb s1 s2 = false -> String.leb s2 s1 = true.
Proof.
  intros H. destruct (String.leb_total s1 s2); congruence.
Qed.

(** A sorted list of strings is sorted throughout, not only pairwise. *)
Lemma sorted_strings_StronglySorted (l : list string) :
  StronglySorted (fun a b => String.leb a b = true) (py.sorted String.leb l).
Proof.
  apply Sorted_StronglySorted.
  - intros a b c. apply string_leb_trans.
  - apply sorted_Sorted. exact string_leb_total.
Qed.

(** ** [SchemaManager] *)

Section schema_facts.
Import schema_manager.
Context (OPENAPI_YAML_ENDPOINT : string) (SCHEMA_DOWNLOAD_TIMEOUT : Q)
        (SSL_VERIFY : bool).
Context {pyobj : Type}
        (yaml_safe_load : string -> result pyobj)
        (json_dump : pyobj -> string * option exn)
        (json_load : string -> result json).
Implicit Types (self : SchemaManager) (w : world).

Local Abbreviation schema_request :=
  (schema_manager.schema_request OPENAPI_YAML_ENDPOINT SCHEMA_DOWNLOAD_TIMEOUT SSL_VERIFY).
Local Abbreviation download_schema :=
  (schema_manager.download_schema OPENAPI_YAML_ENDPOINT SCHEMA_DOWNLOAD_TIMEOUT
     SSL_VERIFY yaml_safe_load json_dump).
Local Abbreviation get_schema :=
  (schema_manager.get_schema OPENAPI_YAML_ENDPOINT SCHEMA_DOWNLOAD_TIMEOUT
     SSL_VERIFY yaml_safe_load json_dump json_load).

Lemma cached_true w path content :
  files w !! path = Some content -> bool_decide (is_Some (files w !! path)) = true.
Proof. intros H. apply bool_decide_eq_true. rewrite H. eauto. Qed.

Lemma cached_false w path :
  files w !! path = None -> bool_decide (is_Some (files w !! path)) = false.
Proof. intros H. apply bool_decide_eq_false. rewrite H. now intros [? ?]. Qed.

(** The cached branch: nothing but a log line. *)
Lemma download_schema_cached self w content :
  files w !! schema_file self = Some content ->
  download_schema self false w
  = (Ok (schema_file self),
     {| server := server w; files := files w; sent := sent w;
        logged := logged w
                  ++ [(INFO, " OpenAPI schema already exists: " +:+ schema_file self)] |}).
Proof.
  intros Hc. unfold schema_manager.download_schema. run_world.
  now rewrite (cached_true _ _ _ Hc).
Qed.

(** The other branch always starts with the GET. *)
Lemma download_schema_sends self force w :
  files w !! schema_file self = None \/ force = true ->
  sent (snd (download_schema self force w)) = sent w ++ [schema_request self].
Proof.
  intros Hc. unfold schema_manager.download_schema, dump_to_file, raise_for_status.
  run_world.
  assert (bool_decide (is_Some (files w !! schema_file self)) && negb force = false)
    as -> by (destruct Hc as [Hc| ->];
              [now rewrite (cached_false _ _ Hc) | apply andb_false_r]).
  simpl. destruct (server w _) as [resp|e]; simpl.
  - destruct ((400 <=? status_code resp)%Z && (status_code resp <? 600)%Z); simpl;
      [reflexivity|].
    destruct (yaml_safe_load (text resp)) as [schema|e]; simpl.
    + destruct (json_dump schema) as [written [e|]]; simpl;
        [destruct (is_RequestException e)|]; reflexivity.
    + destruct (is_RequestException e); reflexivity.
  - destruct (is_RequestException e); reflexivity.
Qed.

Lemma download_schema_success self force w resp schema written :
  files w !! schema_file self = None \/ force = true ->
  server w (schema_request self) = Ok resp ->
  is_error_status (status_code resp) = false ->
  yaml_safe_load (text resp) = Ok schema ->
  json_dump schema = (written, None) ->
  fst (download_schema self force w) = Ok (schema_file self)
  /\ files (snd (download_schema self force w))
     = <[schema_file self := written]> (files w).
Proof.
  intros Hc Hs Hst Hy Hd.
  unfold schema_manager.download_schema, dump_to_file, raise_for_status.
  run_world.
  assert (bool_decide (is_Some (files w !! schema_file self)) && negb force = false)
    as -> by (destruct Hc as [Hc| ->];
              [now rewrite (cached_false _ _ Hc) | apply andb_false_r]).
  simpl. rewrite Hs. simpl. unfold is_error_status in Hst. rewrite Hst. simpl.
  rewrite Hy. simpl. rewrite Hd. simpl. split; reflexivity.
Qed.

Lemma download_schema_request_raises self force w e :
  files w !! schema_file self = None \/ force = true ->
  server w (schema_request self) = Raise e ->
  fst (download_schema self force w) = Raise e
  /\ files (snd (download_schema self force w)) = files w.
Proof.
  intros Hc Hs.
  unfold schema_manager.download_schema. run_world.
  assert (bool_decide (is_Some (files w !! schema_file self)) && negb force = false)
    as -> by (destruct Hc as [Hc| ->];
              [now rewrite (cached_false _ _ Hc) | apply andb_false_r]).
  simpl. rewrite Hs. simpl. destruct (is_RequestException e); split; reflexivity.
Qed.

Lemma download_schema_status_raises self force w resp :
  files w !! schema_file self = None \/ force = true ->
  server w (schema_request self) = Ok resp ->
  is_error_status (status_code resp) = true ->
  fst (download_schema self force w) = Raise (HTTPError (status_code resp))
  /\ files (snd (download_schema self force w)) = files w.
Proof.
  intros Hc Hs Hst.
  unfold schema_manager.download_schema, raise_for_status. run_world.
  assert (bool_decide (is_Some (files w !! schema_file self)) && negb force = false)
    as -> by (destruct Hc as [Hc| ->];
              [now rewrite (cached_false _ _ Hc) | apply andb_false_r]).
  simpl. rewrite Hs. simpl. unfold is_error_status in Hst. rewrite Hst. simpl.
  split; reflexivity.
Qed.

(** With a cached file, [get_schema] is a pure read. *)
Lemma get_schema_cached self w content :
  files w !! schema_file self = Some content ->
  get_schema self w = (json_load content, w).
Proof.
  intros Hc. unfold schema_manager.get_schema. run_world.
  rewrite (cached_true _ _ _ Hc). simpl. rewrite Hc.
  now destruct (json_load content).
Qed.
End schema_facts.

(** C3: when the cached schema file exists and [force] is false,
    [download_schema] returns the path of that file, whatever the file
    holds, without any request and without touching the files.  In every
    other state it sends an HTTP GET to the YAML endpoint; when the
    answer passes the status check, its text is parsed as YAML, the parsed
    object is dumped as JSON into the schema file and the path of that
    file is returned. *)
Theorem C3_download_schema_cache_or_get
    (OPENAPI_YAML_ENDPOINT : string) (SCHEMA_DOWNLOAD_TIMEOUT : Q) (SSL_VERIFY : bool)
    {pyobj : Type} (yaml_safe_load : string -> result pyobj)
    (json_dump : pyobj -> string * option exn)
    (self : schema_manager.SchemaManager) (force : bool) (w : world) :
  let out := schema_manager.download_schema OPENAPI_YAML_ENDPOINT
               SCHEMA_DOWNLOAD_TIMEOUT SSL_VERIFY yaml_safe_load json_dump
               self force w in
  let get := schema_manager.schema_request OPENAPI_YAML_ENDPOINT
               SCHEMA_DOWNLOAD_TIMEOUT SSL_VERIFY self in
  (is_Some (files w !! schema_manager.schema_file self) -> force = false ->
     fst out = Ok (schema_manager.schema_file self)
     /\ files (snd out) = files w
     /\ sent (snd out) = sent w)
  /\ (files w !! schema_manager.schema_file self = None \/ force = true ->
      sent (snd out) = sent w ++ [get]
      /\ req_method get = "GET"
      /\ req_url get = schema_manager.base_url self +:+ OPENAPI_YAML_ENDPOINT
      /\ forall resp schema written,
           server w get = Ok resp ->
           is_error_status (status_code resp) = false ->
           yaml_safe_load (text resp) = Ok schema ->
           json_dump schema = (written, None) ->
           fst out = Ok (schema_manager.schema_file self)
           /\ files (snd out)
              = <[schema_manager.schema_file self := written]> (files w)).
Proof.
  intros out get. split.
  - intros [content Hc] ->. subst out.
    rewrite (download_schema_cached _ _ _ _ _ _ _ content Hc). simpl. auto.
  - intros Hc. split; [|split; [|split]]; try reflexivity.
    + apply download_schema_sends. exact Hc.
    + intros resp schema written. apply download_schema_success. exact Hc.
Qed.

(** With a cached file the unreachable service is never asked; without
    one the served document ends up in the cache file. *)
Lemma C3_witness :
  (fst (schema_manager.download_schema "/openapi.yaml" 30 true
          example.yaml_safe_load example.json_dump example.manager false
          example.offline)
   = Ok "data/schemas/openapi_schema.json"
   /\ files (snd (schema_manager.download_schema "/openapi.yaml" 30 true
                    example.yaml_safe_load example.json_dump example.manager false
                    example.offline))
      = files example.offline)
  /\ files (snd (schema_manager.download_schema "/openapi.yaml" 30 true
                   example.yaml_safe_load example.json_dump example.manager false
                   example.serving))
     = {[ "data/schemas/openapi_schema.json" := "{ paths: {} }" ]}.
Proof.
  split.
  - destruct (C3_download_schema_cache_or_get "/openapi.yaml" 30 true
                example.yaml_safe_load example.json_dump example.manager false
                example.offline) as [Hcached _].
    cbv zeta in Hcached.
    destruct Hcached as (Hr & Hf & _); [vm_compute; eauto | reflexivity |].
    split; [exact Hr | exact Hf].
  - destruct (C3_download_schema_cache_or_get "/openapi.yaml" 30 true
                example.yaml_safe_load example.json_dump example.manager false
                example.serving) as [_ Hget].
    cbv zeta in Hget.
    destruct Hget as (_ & _ & _ & Hok); [left; reflexivity|].
    destruct (Hok {| status_code := 200; text := "paths: {}"; elapsed := 1 # 10 |}
                (JObj {[ "paths" := JObj ∅ ]}) "{ paths: {} }"
                eq_refl eq_refl eq_refl eq_refl) as [_ Hfiles].
    rewrite Hfiles. reflexivity.
Defined.

(** C4: when the download fails, because [requests.get] raises or because
    the status check of the answer fails, [download_schema] raises that
    same exception and the files, the cached schema among them, are what
    they were before the call. *)
Theorem C4_failed_download_keeps_cache
    (OPENAPI_YAML_ENDPOINT : string) (SCHEMA_DOWNLOAD_TIMEOUT : Q) (SSL_VERIFY : bool)
    {pyobj : Type} (yaml_safe_load : string -> result pyobj)
    (json_dump : pyobj -> string * option exn)
    (self : schema_manager.SchemaManager) (force : bool) (w : world) :
  let out := schema_manager.download_schema OPENAPI_YAML_ENDPOINT
               SCHEMA_DOWNLOAD_TIMEOUT SSL_VERIFY yaml_safe_load json_dump
               self force w in
  let get := schema_manager.schema_request OPENAPI_YAML_ENDPOINT
               SCHEMA_DOWNLOAD_TIMEOUT SSL_VERIFY self in
  files w !! schema_manager.schema_file self = None \/ force = true ->
  (forall e, server w get = Raise e ->
     fst out = Raise e /\ files (snd out) = files w)
  /\ (forall resp, server w get = Ok resp ->
        is_error_status (status_code resp) = true ->
        fst out = Raise (HTTPError (status_code resp))
        /\ files (snd out) = files w).
Proof.
  intros out get Hc. split.
  - intros e. apply download_schema_request_raises. exact Hc.
  - intros resp. apply download_schema_status_raises. exact Hc.
Qed.

(** A forced download from an unreachable or failing service raises and
    keeps the old cache file. *)
Lemma C4_witness :
  (fst (schema_manager.download_schema "/openapi.yaml" 30 true
          example.yaml_safe_load example.json_dump example.manager true
          example.offline)
   = Raise (RequestException "connection refused")
   /\ files (snd (schema_manager.download_schema "/openapi.yaml" 30 true
                    example.yaml_safe_load example.json_dump example.manager true
                    example.offline))
        !! "data/schemas/openapi_schema.json" = Some "old schema")
  /\ (fst (schema_manager.download_schema "/openapi.yaml" 30 true
             example.yaml_safe_load example.json_dump example.manager true
             example.failing)
      = Raise (HTTPError 503)
      /\ files (snd (schema_manager.download_schema "/openapi.yaml" 30 true
                       example.yaml_safe_load example.json_dump example.manager true
                       example.failing))
           !! "data/schemas/openapi_schema.json" = Some "old schema").
Proof.
  split.
  - destruct (C4_failed_download_keeps_cache "/openapi.yaml" 30 true
                example.yaml_safe_load example.json_dump example.manager true
                example.offline (or_intror eq_refl)) as [Hraise _].
    destruct (Hraise (RequestException "connection refused") eq_refl) as [Hr Hf].
    split; [exact Hr | rewrite Hf; reflexivity].
  - destruct (C4_failed_download_keeps_cache "/openapi.yaml" 30 true
                example.yaml_safe_load example.json_dump example.manager true
                example.failing (or_intror eq_refl)) as [_ Hstatus].
    destruct (Hstatus {| status_code := 503; text := "Service Unavailable";
                         elapsed := 1 # 10 |} eq_refl eq_refl) as [Hr Hf].
    split; [exact Hr | rewrite Hf; reflexivity].
Defined.

Section lookup_facts.
Import schema_manager.
Context (python : interpreter).
Context (OPENAPI_YAML_ENDPOINT : string) (SCHEMA_DOWNLOAD_TIMEOUT : Q)
        (SSL_VERIFY : bool).
Context {pyobj : Type}
        (yaml_safe_load : string -> result pyobj)
        (json_dump : pyobj -> string * option exn)
        (json_load : string -> result json).
Implicit Types (self : SchemaManager) (w : world).

Local Abbreviation get_endpoint_schema :=
  (schema_manager.get_endpoint_schema python OPENAPI_YAML_ENDPOINT SCHEMA_DOWNLOAD_TIMEOUT
     SSL_VERIFY yaml_safe_load json_dump json_load).
Local Abbreviation get_all_test_endpoints :=
  (schema_manager.get_all_test_endpoints OPENAPI_YAML_ENDPOINT SCHEMA_DOWNLOAD_TIMEOUT
     SSL_VERIFY yaml_safe_load json_dump json_load).

Lemma paths_of_get schema paths :
  paths_of schema = Some paths ->
  pyjson.get schema "paths" (JObj ∅) = Ok (JObj paths).
Proof.
  destruct schema as [| | | | | |doc]; try discriminate. simpl.
  destruct (doc !! "paths") as [[| | | | | |pm]|]; try discriminate;
    now intros [= ->].
Qed.

Lemma paths_of_getitem schema paths path v :
  paths_of schema = Some paths -> paths !! path = Some v ->
  pyjson.getitem schema "paths" = Ok (JObj paths).
Proof.
  destruct schema as [| | | | | |doc]; try discriminate. simpl.
  destruct (doc !! "paths") as [[| | | | | |pm]|]; try discriminate.
  - now intros [= ->].
  - intros [= <-]. now rewrite lookup_empty.
Qed.

Lemma get_endpoint_schema_cached self path method w content schema paths :
  files w !! schema_file self = Some content ->
  json_load content = Ok schema ->
  paths_of schema = Some paths ->
  get_endpoint_schema self path method w
  = (match paths !! path with
     | None => Raise (ValueError ("Endpoint " +:+ path +:+ " not found in schema"))
     | Some endpoint =>
         match pyjson.contains endpoint (py.lower python method) with
         | Raise e => Raise e
         | Ok false =>
             Raise (ValueError ("Method " +:+ method +:+ " not supported for " +:+ path))
         | Ok true => pyjson.getitem endpoint (py.lower python method)
         end
     end, w).
Proof.
  intros Hc Hl Hp. unfold schema_manager.get_endpoint_schema.
  erewrite bind_Ok by (erewrite get_schema_cached by exact Hc; now rewrite Hl).
  run_world. rewrite (paths_of_get _ _ Hp). simpl.
  destruct (paths !! path) as [endpoint|] eqn:Ep.
  - rewrite bool_decide_eq_true_2 by eauto. simpl.
    rewrite (paths_of_getitem _ _ _ _ Hp Ep). simpl. rewrite Ep.
    destruct (pyjson.contains endpoint (py.lower python method)) as [[|]|e]; reflexivity.
  - rewrite bool_decide_eq_false_2 by (now intros [? ?]). reflexivity.
Qed.

Lemma test_paths_fold keys acc :
  fold_left
    (fun test_endpoints path =>
       if py.startswith path "/api/test/" then test_endpoints ++ [path]
       else test_endpoints)
    keys acc
  = acc ++ List.filter (fun path => py.startswith path "/api/test/") keys.
Proof.
  revert acc. induction keys as [|k keys IH]; intros acc; simpl.
  - now rewrite app_nil_r.
  - rewrite IH. destruct (py.startswith k "/api/test/"); [|reflexivity].
    now rewrite <- app_assoc.
Qed.

Lemma test_paths_filter keys :
  test_paths keys = List.filter (fun path => py.startswith path "/api/test/") keys.
Proof. unfold test_paths. now rewrite test_paths_fold. Qed.

Lemma get_all_test_endpoints_cached self w content schema paths :
  files w !! schema_file self = Some content ->
  json_load content = Ok schema ->
  paths_of schema = Some paths ->
  get_all_test_endpoints self w
  = (Ok (py.sorted String.leb (test_paths (map fst (map_to_list paths)))), w).
Proof.
  intros Hc Hl Hp. unfold schema_manager.get_all_test_endpoints.
  erewrite bind_Ok by (erewrite get_schema_cached by exact Hc; now rewrite Hl).
  run_world. now rewrite (paths_of_get _ _ Hp).
Qed.
End lookup_facts.

(** C2 (as stated, refuted): the method key that decides is not [method]
    but [method.lower()].  With the method "GET", a path that documents
    "get" and has no key "GET" is answered without an error, and a path
    whose only key is "GET" raises. *)
Lemma C2_method_key_is_lowercased :
  exists paths,
    paths_of example.schema_doc = Some paths
    /\ (exists methods,
          paths !! "/api/test/1" = Some (JObj methods)
          /\ methods !! "GET" = None
          /\ fst (schema_manager.get_endpoint_schema example.python "/openapi.yaml" 30 true
                    example.yaml_safe_load example.json_dump example.json_load
                    example.manager "/api/test/1" "GET" example.with_schema)
             = Ok (JObj ∅))
    /\ (exists methods,
          paths !! "/api/test/2" = Some (JObj methods)
          /\ methods !! "GET" = Some (JObj ∅)
          /\ fst (schema_manager.get_endpoint_schema example.python "/openapi.yaml" 30 true
                    example.yaml_safe_load example.json_dump example.json_load
                    example.manager "/api/test/2" "GET" example.with_schema)
             = Raise (ValueError "Method GET not supported for /api/test/2")).
Proof.
  eexists. split; [reflexivity|]. split.
  - eexists. split; [vm_compute; reflexivity|]. split; vm_compute; reflexivity.
  - eexists. split; [vm_compute; reflexivity|]. split; vm_compute; reflexivity.
Qed.

(** C2 (amended): for a cached schema document, [get_endpoint_schema(path,
    method)] returns the value stored at [paths[path][method.lower()]]
    when the path is a key of ['paths'] and the lower-cased method is a
    key under that path; it raises a [ValueError] that names the path
    when the path is not a key of ['paths'], and one that names the method
    (as given) and the path when the lower-cased method is not a key under
    the path; it raises if and only if one of these two keys is absent.
    The call changes nothing. *)
Theorem C2_get_endpoint_schema_lookup
    (python : interpreter)
    (OPENAPI_YAML_ENDPOINT : string) (SCHEMA_DOWNLOAD_TIMEOUT : Q) (SSL_VERIFY : bool)
    {pyobj : Type} (yaml_safe_load : string -> result pyobj)
    (json_dump : pyobj -> string * option exn)
    (json_load : string -> result json)
    (self : schema_manager.SchemaManager) (path method : string) (w : world)
    (content : string) (schema : json) (paths : gmap string json) :
  files w !! schema_manager.schema_file self = Some content ->
  json_load content = Ok schema ->
  paths_of schema = Some paths ->
  (forall endpoint, paths !! path = Some endpoint ->
     exists methods, endpoint = JObj methods) ->
  let out := schema_manager.get_endpoint_schema python OPENAPI_YAML_ENDPOINT
               SCHEMA_DOWNLOAD_TIMEOUT SSL_VERIFY yaml_safe_load json_dump json_load
               self path method w in
  snd out = w
  /\ (paths !! path = None ->
      fst out = Raise (ValueError ("Endpoint " +:+ path +:+ " not found in schema")))
  /\ (forall methods, paths !! path = Some (JObj methods) ->
        (methods !! py.lower python method = None ->
         fst out = Raise (ValueError ("Method " +:+ method
                                      +:+ " not supported for " +:+ path)))
        /\ (forall v, methods !! py.lower python method = Some v -> fst out = Ok v))
  /\ (is_Ok (fst out) = false <->
      paths !! path = None
      \/ exists methods, paths !! path = Some (JObj methods)
                         /\ methods !! py.lower python method = None).
Proof.
  intros Hc Hl Hp Hobj out. subst out.
  erewrite get_endpoint_schema_cached by eassumption. simpl.
  split; [reflexivity|].
  destruct (paths !! path) as [endpoint|] eqn:Ep.
  - destruct (Hobj endpoint eq_refl) as [methods ->]. simpl.
    split; [discriminate|].
    destruct (methods !! py.lower python method) as [v|] eqn:Em.
    + rewrite bool_decide_eq_true_2 by eauto.
      split.
      * intros ms [= <-]. rewrite Em. split; [discriminate|]. now intros v' [= ->].
      * simpl. split; [discriminate|].
        intros [|(ms & [= <-] & Hm)]; congruence.
    + rewrite bool_decide_eq_false_2 by (now intros [? ?]).
      split.
      * intros ms [= <-]. rewrite Em. split; [reflexivity | discriminate].
      * simpl. split; [|reflexivity]. intros _. right. eauto.
  - split; [reflexivity|]. split; [discriminate|].
    simpl. split; [auto | reflexivity].
Qed.

(** The method "GET" finds what the path documents under "get". *)
Lemma C2_witness :
  fst (schema_manager.get_endpoint_schema example.python "/openapi.yaml" 30 true
         example.yaml_safe_load example.json_dump example.json_load
         example.manager "/api/test/1" "GET" example.with_schema)
  = Ok (JObj ∅).
Proof.
  destruct (C2_get_endpoint_schema_lookup example.python "/openapi.yaml" 30 true
              example.yaml_safe_load example.json_dump example.json_load
              example.manager "/api/test/1" "GET" example.with_schema
              "cached schema" example.schema_doc
              {[ "/api/test/1" := JObj {[ "get" := JObj ∅ ]};
                 "/api/test/2" := JObj {[ "GET" := JObj ∅ ]};
                 "/health" := JObj {[ "get" := JObj ∅ ]} ]}
              eq_refl eq_refl eq_refl) as (_ & _ & Hfound & _).
  - intros endpoint H. vm_compute in H. injection H as <-. eauto.
  - destruct (Hfound {[ "get" := JObj ∅ ]} eq_refl) as [_ Hok].
    apply Hok. reflexivity.
Defined.

(** C5: for a cached schema document, [get_all_test_endpoints] returns the
    keys of ['paths'] that start with "/api/test/", each exactly once and
    nothing else, in sorted order; for a document without ['paths'] it
    returns the empty list. *)
Theorem C5_get_all_test_endpoints_filtered_sorted
    (OPENAPI_YAML_ENDPOINT : string) (SCHEMA_DOWNLOAD_TIMEOUT : Q) (SSL_VERIFY : bool)
    {pyobj : Type} (yaml_safe_load : string -> result pyobj)
    (json_dump : pyobj -> string * option exn)
    (json_load : string -> result json)
    (self : schema_manager.SchemaManager) (w : world)
    (content : string) (schema : json) (paths : gmap string json) :
  files w !! schema_manager.schema_file self = Some content ->
  json_load content = Ok schema ->
  paths_of schema = Some paths ->
  exists l,
    schema_manager.get_all_test_endpoints OPENAPI_YAML_ENDPOINT
      SCHEMA_DOWNLOAD_TIMEOUT SSL_VERIFY yaml_safe_load json_dump json_load self w
    = (Ok l, w)
    /\ (forall p, In p l <->
                  is_Some (paths !! p) /\ py.startswith p "/api/test/" = true)
    /\ List.NoDup l
    /\ StronglySorted (fun a b => String.leb a b = true) l
    /\ (forall doc, schema = JObj doc -> doc !! "paths" = None -> l = []).
Proof.
  intros Hc Hl Hp. eexists. split.
  { eapply get_all_test_endpoints_cached; eassumption. }
  rewrite test_paths_filter. split; [|split; [|split]].
  - intros p. rewrite sorted_In, List.filter_In.
    rewrite <- list_elem_of_In, list_elem_of_fmap.
    split.
    + intros [[[k v] [-> Hkv]] Hs]. split; [|exact Hs].
      apply elem_of_map_to_list in Hkv. simpl. eauto.
    + intros [[v Hv] Hs]. split; [|exact Hs].
      exists (p, v). split; [reflexivity|]. now apply elem_of_map_to_list.
  - eapply Permutation_NoDup.
    + symmetry. apply sorted_perm.
    + apply List.NoDup_filter. apply NoDup_ListNoDup. apply NoDup_fst_map_to_list.
  - apply sorted_strings_StronglySorted.
  - intros doc -> Hnone. simpl in Hp. rewrite Hnone in Hp.
    injection Hp as <-. now rewrite map_to_list_empty.
Qed.

(** Of the cached paths, the test endpoints are listed and the
    health-check path is not. *)
Lemma C5_witness :
  exists l,
    schema_manager.get_all_test_endpoints "/openapi.yaml" 30 true
      example.yaml_safe_load example.json_dump example.json_load
      example.manager example.with_schema
    = (Ok l, example.with_schema)
    /\ In "/api/test/1" l /\ ~ In "/health" l.
Proof.
  destruct (C5_get_all_test_endpoints_filtered_sorted "/openapi.yaml" 30 true
              example.yaml_safe_load example.json_dump example.json_load
              example.manager example.with_schema
              "cached schema" example.schema_doc
              {[ "/api/test/1" := JObj {[ "get" := JObj ∅ ]};
                 "/api/test/2" := JObj {[ "GET" := JObj ∅ ]};
                 "/health" := JObj {[ "get" := JObj ∅ ]} ]}
              eq_refl eq_refl eq_refl) as (l & Heq & Hin & _).
  exists l. split; [exact Heq|]. split.
  - apply Hin. split; [vm_compute; eauto | reflexivity].
  - intros H. apply Hin in H. destruct H as [_ H]. vm_compute in H. discriminate.
Defined.

(** ** The summary *)

Section key_facts.
Context {A K : Type} (key : A -> result K).

Lemma eval_keys_Ok (l : list A) kl :
  py.eval_keys key l = Ok kl ->
  map snd kl = l /\ Forall (fun x => is_Ok (key x) = true) l.
Proof.
  revert kl. induction l as [|x l IH]; simpl; intros kl.
  - intros [= <-]. split; [reflexivity | constructor].
  - destruct (key x) as [k|e] eqn:Ek; [|discriminate].
    destruct (py.eval_keys key l) as [kl'|e]; [|discriminate].
    intros [= <-]. destruct (IH kl' eq_refl) as [Hm Hf]. simpl. split.
    + now rewrite Hm.
    + constructor; [now rewrite Ek | exact Hf].
Qed.

Lemma eval_keys_total (l : list A) :
  Forall (fun x => is_Ok (key x) = true) l -> exists kl, py.eval_keys key l = Ok kl.
Proof.
  induction 1 as [|x l Hx _ [kl IH]]; simpl.
  - eauto.
  - destruct (key x); [|discriminate]. rewrite IH. eauto.
Qed.

Lemma eval_keys_Raise (l : list A) x :
  In x l -> is_Ok (key x) = false ->
  exists y e, In y l /\ key y = Raise e /\ py.eval_keys key l = Raise e.
Proof.
  induction l as [|z l IH]; simpl; [tauto|].
  intros Hin Hx. destruct (key z) as [k|e] eqn:Ez.
  - destruct Hin as [->|Hin]; [rewrite Ez in Hx; discriminate|].
    destruct (IH Hin Hx) as (y & e & Hy & Hk & ->). eauto 6.
  - exists z, e. auto.
Qed.

Lemma sorted_by_key_perm (le : K -> K -> bool) (l l' : list A) :
  py.sorted_by_key le key l = Ok l' -> Permutation l' l.
Proof.
  unfold py.sorted_by_key.
  destruct (py.eval_keys key l) as [kl|e] eqn:E; [|discriminate].
  intros [= <-]. destruct (eval_keys_Ok _ _ E) as [<- _].
  apply Permutation_map, sorted_perm.
Qed.
End key_facts.

Section summary_facts.
Import conftest.
Context (python : interpreter).
Implicit Types (s : endpoint_results) (e endpoint : string).

Local Abbreviation summary := (_print_endpoint_discovery_summary python).
Local Abbreviation block := (endpoint_block python).
Local Abbreviation body := (loop_body python).

Lemma sort_key_error k :
  is_Ok (sort_key python k) = false ->
  exists msg, sort_key python k = Raise (ValueError msg).
Proof.
  unfold sort_key, py.int_of_str.
  destruct (if py.ascii_only _ then _ else _); [discriminate | eauto].
Qed.

Lemma loop_lines eps : forall st,
  (forall e, In e eps -> In e (odict.keys (results st))) ->
  results (fold_left body eps st) = results st
  /\ lines (fold_left body eps st)
     = lines st ++ flat_map (fun e => block e (view e (results st))) eps.
Proof.
  induction eps as [|e eps IH]; intros st Hin; simpl.
  - now rewrite app_nil_r.
  - destruct (odict_get_In e (results st)) as [d Hd]; [apply Hin; now left|].
    assert (Hbody : results (body st e) = results st
                    /\ lines (body st e) = lines st ++ block e d).
    { unfold loop_body. rewrite (getitem_present _ _ _ Hd).
      destruct (verdict _ _) as [[? ?] ?]. simpl. auto. }
    destruct Hbody as [Hr Hl].
    destruct (IH (body st e)) as [Hr' Hl'].
    { intros e' He'. rewrite Hr. apply Hin. now right. }
    rewrite Hr', Hl', Hr, Hl. split; [reflexivity|].
    rewrite <- app_assoc. f_equal. f_equal.
    unfold view. now rewrite (getitem_present _ _ _ Hd).
Qed.

Lemma summary_Raise s err :
  s <> [] ->
  py.sorted_by_key Z.leb (sort_key python) (odict.keys s) = Raise err ->
  summary s = (s, header, Raise err).
Proof.
  intros Hs He. unfold _print_endpoint_discovery_summary.
  destruct s as [|kv s]; [congruence|]. now rewrite He.
Qed.

Lemma summary_Ok s eps :
  s <> [] ->
  py.sorted_by_key Z.leb (sort_key python) (odict.keys s) = Ok eps ->
  exists s' tail,
    summary s
    = (s', header ++ flat_map (fun e => block e (view e s)) eps ++ tail, Ok tt).
Proof.
  intros Hs He. unfold _print_endpoint_discovery_summary.
  destruct s as [|kv s]; [congruence|]. rewrite He.
  set (s0 := kv :: s) in *.
  set (st0 := {| results := s0; successful_endpoints := [];
                 failed_endpoints := []; lines := _ |}).
  destruct (loop_lines eps st0) as [_ Hl].
  { intros e Hin. change (In e (odict.keys s0)).
    eapply Permutation_in; [apply (sorted_by_key_perm _ _ _ _ He) | exact Hin]. }
  destruct (count_failed true _ _) as [n1 s1].
  destruct (count_failed false _ _) as [n2 s2].
  eexists _, _. rewrite Hl. simpl lines. simpl results.
  rewrite <- !app_assoc. reflexivity.
Qed.
End summary_facts.

Section odict_items.
Context {K V : Type} `{EqDecision K}.
Implicit Types (k : K) (v : V) (d : list (K * V)).

Lemma odict_keys_set k v d k' :
  In k' (odict.keys (odict.set k v d)) <-> k' = k \/ In k' (odict.keys d).
Proof.
  induction d as [|[k0 v0] d IH]; simpl.
  - intuition.
  - destruct (decide (k = k0)) as [->|Hne]; simpl.
    + intuition.
    + rewrite IH. intuition.
Qed.

Lemma odict_set_NoDup k v d :
  List.NoDup (odict.keys d) -> List.NoDup (odict.keys (odict.set k v d)).
Proof.
  induction d as [|[k0 v0] d IH]; simpl; intros Hd.
  - constructor; [tauto | constructor].
  - inversion Hd as [|? ? Hnotin Hd']; subst.
    destruct (decide (k = k0)) as [->|Hne]; simpl.
    + now constructor.
    + constructor; [|now apply IH].
      change (~ In k0 (odict.keys (odict.set k v d))).
      rewrite odict_keys_set. intros [->|Hin]; [congruence | contradiction].
Qed.

Lemma odict_get_In_item k v d : odict.get k d = Some v -> In (k, v) d.
Proof.
  induction d as [|[k0 v0] d IH]; simpl; [discriminate|].
  destruct (decide (k = k0)) as [->|Hne].
  - intros [= ->]. now left.
  - intros Hd. right. now apply IH.
Qed.

Lemma odict_In_item_get k v d :
  List.NoDup (odict.keys d) -> In (k, v) d -> odict.get k d = Some v.
Proof.
  induction d as [|[k0 v0] d IH]; simpl; [tauto|].
  intros Hd Hin. inversion Hd as [|? ? Hnotin Hd']; subst.
  destruct (decide (k = k0)) as [->|Hne].
  - destruct Hin as [[= ->]|Hin]; [reflexivity|].
    exfalso. apply Hnotin. change (In k0 (map fst d)).
    apply in_map_iff. now exists (k0, v).
  - destruct Hin as [[= -> ->]|Hin]; [congruence|]. now apply IH.
Qed.
End odict_items.

Section verdict_facts.
Import conftest.
Implicit Types (codes : list Z) (c code : Z).

Lemma has_200_In codes : has_200 codes = true <-> In 200 codes.
Proof.
  unfold has_200. rewrite existsb_exists. split.
  - intros (x & Hin & Hx). apply Z.eqb_eq in Hx. now subst.
  - intros Hin. exists 200. split; [exact Hin | apply Z.eqb_refl].
Qed.

Lemma occurrences_In c codes : occurrences c codes <> 0 <-> In c codes.
Proof.
  unfold occurrences. rewrite (count_occ_In Z.eq_dec). lia.
Qed.

Lemma mem_count_codes c codes :
  odict.mem c (count_codes codes) = true <-> In c codes.
Proof.
  unfold odict.mem. rewrite get_count_codes, <- occurrences_In.
  destruct (decide (occurrences c codes = 0)); split; congruence.
Qed.

Lemma count_codes_NoDup codes : List.NoDup (odict.keys (count_codes codes)).
Proof.
  rewrite count_codes_fold.
  assert (H : forall dist, List.NoDup (odict.keys dist) ->
                List.NoDup (odict.keys (fold_left bump codes dist))).
  { induction codes as [|c codes IH]; intros dist Hd; simpl; [exact Hd|].
    apply IH. unfold bump. now apply odict_set_NoDup. }
  apply H. constructor.
Qed.

Lemma count_codes_item c n codes :
  In (c, n) (count_codes codes) <-> In c codes /\ n = occurrences c codes.
Proof.
  split.
  - intros Hin. apply (odict_In_item_get _ _ _ (count_codes_NoDup codes)) in Hin.
    rewrite get_count_codes in Hin.
    destruct (decide (occurrences c codes = 0)); [discriminate|].
    injection Hin as <-. split; [now apply occurrences_In | reflexivity].
  - intros [Hin ->]. apply odict_get_In_item. rewrite get_count_codes.
    destruct (decide (occurrences c codes = 0)) as [H0|]; [|reflexivity].
    now apply occurrences_In in Hin.
Qed.

Lemma fold_bump_same x codes : forall n,
  (forall c, In c codes -> c = x) ->
  fold_left bump codes [(x, n)] = [(x, n + Z.of_nat (length codes))].
Proof.
  induction codes as [|c codes IH]; intros n Hall; simpl fold_left.
  - simpl. now rewrite Z.add_0_r.
  - assert (c = x) as -> by (apply Hall; now left).
    unfold bump at 2. simpl. destruct (decide (x = x)); [|congruence].
    rewrite IH by (intros c Hc; apply Hall; now right).
    change (default 0 (Some n)) with n. rewrite Nat2Z.inj_succ.
    do 2 f_equal. lia.
Qed.

Lemma count_codes_same x codes :
  codes <> [] -> (forall c, In c codes -> c = x) ->
  count_codes codes = [(x, Z.of_nat (length codes))].
Proof.
  intros Hne Hall. destruct codes as [|c codes]; [congruence|].
  assert (c = x) as -> by (apply Hall; now left).
  rewrite count_codes_fold. simpl fold_left. unfold bump at 2. simpl odict.set.
  rewrite fold_bump_same by (intros c Hc; apply Hall; now right).
  change (length (x :: codes)) with (S (length codes)). rewrite Nat2Z.inj_succ.
  do 2 f_equal. lia.
Qed.

Lemma count_codes_single codes :
  length (count_codes codes) = 1%nat ->
  odict.mem 200 (count_codes codes) = true ->
  forall c, In c codes -> c = 200.
Proof.
  intros Hlen Hmem c Hc.
  apply mem_count_codes in Hc. unfold odict.mem in *.
  destruct (count_codes codes) as [|[k v] [|? ?]]; try discriminate.
  simpl in *.
  destruct (decide (200 = k)); [|discriminate].
  destruct (decide (c = k)); [congruence | discriminate].
Qed.

Lemma all_200_or_other codes :
  (forall c, In c codes -> c = 200) \/ exists c, In c codes /\ c <> 200.
Proof.
  induction codes as [|x codes [IH|(c & Hc & Hne)]].
  - left. intros c [].
  - destruct (Z.eq_dec x 200) as [->|Hx].
    + left. intros c [<-|Hc]; auto.
    + right. exists x. split; [now left | exact Hx].
  - right. exists c. split; [now right | exact Hne].
Qed.

(** The three verdicts, in terms of the recorded status codes. *)
Lemma verdict_spec codes :
  let text := snd (fst (verdict (has_200 codes) (count_codes codes))) in
  (text = "OK" \/ text = "UNSTABLE" \/ text = "FAILED")
  /\ (text = "OK" <-> In 200 codes /\ forall c, In c codes -> c = 200)
  /\ (text = "UNSTABLE" <-> In 200 codes /\ exists c, In c codes /\ c <> 200)
  /\ (text = "FAILED" <-> ~ In 200 codes).
Proof.
  unfold verdict.
  destruct (has_200 codes) eqn:H200.
  - apply has_200_In in H200.
    destruct ((length (count_codes codes) =? 1)%nat) eqn:Hlen; simpl andb.
    + apply Nat.eqb_eq in Hlen.
      destruct (odict.mem 200 (count_codes codes)) eqn:Hmem; simpl.
      * pose proof (count_codes_single codes Hlen Hmem) as Hall.
        split; [now left|]. split; [|split].
        -- split; [auto | reflexivity].
        -- split; [discriminate|].
           intros (_ & c & Hc & Hne). exfalso. apply Hne, Hall, Hc.
        -- split; [discriminate | contradiction].
      * apply mem_count_codes in H200. congruence.
    + simpl. apply Nat.eqb_neq in Hlen.
      assert (Hsome : exists c, In c codes /\ c <> 200).
      { destruct (all_200_or_other codes) as [Hall|Hsome]; [|exact Hsome].
        exfalso. apply Hlen.
        rewrite (count_codes_same 200 codes); [reflexivity | | exact Hall].
        intros ->. contradiction. }
      split; [right; now left|]. split; [|split].
      -- split; [discriminate|].
         intros [_ Hall]. destruct Hsome as (c & Hc & Hne). exfalso. auto.
      -- split; [auto | reflexivity].
      -- split; [discriminate | contradiction].
  - simpl. assert (Hno : ~ In 200 codes).
    { intros Hin. apply has_200_In in Hin. congruence. }
    split; [right; now right|]. split; [|split].
    + split; [discriminate | intros [Hin _]; contradiction].
    + split; [discriminate | intros [Hin _]; contradiction].
    + split; [auto | reflexivity].
Qed.
End verdict_facts.

Section report_facts.
Import conftest.
Context (python : interpreter).
Implicit Types (codes : list Z) (times : list Q).

Lemma status_summary_In codes code name n :
  In (code, name, n) (status_summary python (count_codes codes))
  <-> name = status_name python code
      /\ In code codes /\ n = occurrences code codes.
Proof.
  unfold status_summary. rewrite in_map_iff. split.
  - intros ([c m] & [= <- <- <-] & Hin). simpl.
    apply sorted_In, count_codes_item in Hin. tauto.
  - intros (-> & Hin & ->). exists (code, occurrences code codes). split.
    + reflexivity.
    + apply sorted_In, count_codes_item. auto.
Qed.

Lemma status_summary_NoDup codes :
  List.NoDup (map (fun line => fst (fst line))
                (status_summary python (count_codes codes))).
Proof.
  unfold status_summary. rewrite map_map. simpl.
  eapply Permutation_NoDup; [|apply (count_codes_NoDup codes)].
  symmetry. apply Permutation_map, sorted_perm.
Qed.

Lemma fold_Qplus times : forall a, (fold_left Qplus times a == a + Qsum times)%Q.
Proof.
  induction times as [|x times IH]; intros a; simpl.
  - ring.
  - rewrite IH. ring.
Qed.

Lemma avg_time_spec times :
  (times = [] -> avg_time times = 0%Q)
  /\ (times <> [] ->
      (avg_time times == Qsum times / inject_Z (Z.of_nat (length times)))%Q).
Proof.
  split.
  - now intros ->.
  - intros Hne. destruct times as [|x times]; [congruence|].
    unfold avg_time. rewrite fold_Qplus. now rewrite Qplus_0_l.
Qed.
End report_facts.

(** C1: when the teardown summary runs to its end, the lines written for
    a recorded endpoint give its counters, a histogram and an average, and
    one of three verdicts: "OK" exactly when a 200 was observed and every
    observed status code is 200, "UNSTABLE" exactly when a 200 and a
    status code other than 200 were observed, "FAILED" exactly when no 200
    was observed.  The histogram lists each observed status code once,
    with the number of times it occurs in the recorded list.  The average
    is the sum of the recorded response times divided by their number, and
    0 when none was recorded. *)
Theorem C1_summary_verdict_histogram_average
    (python : interpreter)
    (s : conftest.endpoint_results) (endpoint : string)
    (data : conftest.EndpointResult) :
  let out := conftest._print_endpoint_discovery_summary python s in
  let codes := conftest.status_codes data in
  let times := conftest.response_times data in
  snd out = Ok tt ->
  odict.get endpoint s = Some data ->
  exists before after status_icon status_text status_summary avg_time,
    snd (fst out)
    = before
      ++ [ conftest.EndpointLine status_icon endpoint;
           conftest.StatusLine status_text;
           conftest.CountsLine (conftest.test_count data) (conftest.passed data)
             (conftest.failed data);
           conftest.CodesLine status_summary;
           conftest.AvgLine avg_time ]
      ++ after
    /\ (status_text = "OK" \/ status_text = "UNSTABLE" \/ status_text = "FAILED")
    /\ (status_text = "OK" <-> In 200 codes /\ forall c, In c codes -> c = 200)
    /\ (status_text = "UNSTABLE" <->
        In 200 codes /\ exists c, In c codes /\ c <> 200)
    /\ (status_text = "FAILED" <-> ~ In 200 codes)
    /\ (forall code name n,
          In (code, name, n) status_summary <->
          name = conftest.status_name python code
          /\ In code codes /\ n = occurrences code codes)
    /\ List.NoDup (map (fun line => fst (fst line)) status_summary)
    /\ (times = [] -> avg_time = 0%Q)
    /\ (times <> [] ->
        (avg_time == Qsum times / inject_Z (Z.of_nat (length times)))%Q).
Proof.
  intros out codes times Hok Hget.
  assert (Hs : s <> []) by (intros ->; discriminate).
  destruct (py.sorted_by_key Z.leb (conftest.sort_key python) (odict.keys s))
    as [eps|err] eqn:Hsort.
  2:{ subst out. rewrite (summary_Raise python _ _ Hs Hsort) in Hok.
      discriminate. }
  destruct (summary_Ok python _ _ Hs Hsort) as (s' & tail & Hout).
  assert (Hin : In endpoint eps).
  { eapply Permutation_in; [symmetry; apply (sorted_by_key_perm _ _ _ _ Hsort)|].
    eapply odict_get_Some_In, Hget. }
  apply in_split in Hin. destruct Hin as (l1 & l2 & ->).
  assert (Hview : conftest.view endpoint s = data).
  { unfold conftest.view. now rewrite (getitem_present _ _ _ Hget). }
  subst out. rewrite Hout. simpl fst. simpl snd.
  rewrite flat_map_app. simpl flat_map. rewrite Hview.
  pose proof (verdict_spec codes) as Hv.
  pose proof (status_summary_In python codes) as Hh.
  pose proof (status_summary_NoDup python codes) as Hn.
  pose proof (avg_time_spec times) as [Ha0 Ha].
  unfold conftest.endpoint_block. fold codes. fold times.
  destruct (conftest.verdict (conftest.has_200 codes) (conftest.count_codes codes))
    as [[status_icon status_text] stable].
  simpl in Hv. destruct Hv as (Hv1 & Hv2 & Hv3 & Hv4).
  eexists (header ++ flat_map _ l1), (flat_map _ l2 ++ tail), status_icon,
    status_text, _, _.
  split; [rewrite <- !app_assoc; reflexivity|].
  repeat (split; [assumption|]). assumption.
Qed.

(** In the example session, the endpoint that answered 200, 503, 200 is
    reported unstable, with 200 counted twice. *)
Lemma C1_witness :
  exists before after status_icon status_summary avg_time,
    snd (fst (conftest._print_endpoint_discovery_summary example.python
                example.store))
    = before
      ++ [ conftest.EndpointLine status_icon "/api/test/3";
           conftest.StatusLine "UNSTABLE";
           conftest.CountsLine 0 0 0;
           conftest.CodesLine status_summary;
           conftest.AvgLine avg_time ]
      ++ after
    /\ In (200, "OK", 2) status_summary.
Proof.
  destruct (C1_summary_verdict_histogram_average example.python
              example.store "/api/test/3"
              {| conftest.status_codes := [200; 503; 200];
                 conftest.response_times := [];
                 conftest.test_count := 0; conftest.passed := 0;
                 conftest.failed := 0 |}
              eq_refl eq_refl)
    as (before & after & status_icon & status_text & status_summary & avg_time
        & Hlines & _ & _ & Hunstable & _ & Hcodes & _).
  assert (Htext : status_text = "UNSTABLE").
  { apply Hunstable. simpl. split; [now left|].
    exists 503. split; [right; now left | discriminate]. }
  subst status_text.
  exists before, after, status_icon, status_summary, avg_time.
  split; [exact Hlines|].
  apply Hcodes. split; [reflexivity|]. split; [now left | reflexivity].
Defined.

(** * Further properties *)

(** ** The summary as a whole *)

Section summary_whole.
Import conftest.
Context (python : interpreter).
Implicit Types (s : endpoint_results) (e endpoint : string).

(** Whether the loop files an endpoint under [successful_endpoints]. *)
Local Abbreviation stable_in s :=
  (fun e => snd (verdict (has_200 (status_codes (view e s)))
                   (count_codes (status_codes (view e s))))).

Lemma loop_state_after eps : forall st,
  (forall e, In e eps -> In e (odict.keys (results st))) ->
  let st' := fold_left (loop_body python) eps st in
  results st' = results st
  /\ successful_endpoints st'
     = successful_endpoints st ++ List.filter (stable_in (results st)) eps
  /\ failed_endpoints st'
     = failed_endpoints st
       ++ List.filter (fun e => negb (stable_in (results st) e)) eps.
Proof.
  induction eps as [|e eps IH]; intros st Hin; simpl.
  - now rewrite !app_nil_r.
  - destruct (odict_get_In e (results st)) as [d Hd]; [apply Hin; now left|].
    assert (Hview : view e (results st) = d).
    { unfold view. now rewrite (getitem_present _ _ _ Hd). }
    assert (Hbody :
      results (loop_body python st e) = results st
      /\ successful_endpoints (loop_body python st e)
         = successful_endpoints st
           ++ (if stable_in (results st) e then [e] else [])
      /\ failed_endpoints (loop_body python st e)
         = failed_endpoints st
           ++ (if negb (stable_in (results st) e) then [e] else [])).
    { unfold loop_body. rewrite (getitem_present _ _ _ Hd), Hview.
      destruct (verdict _ _) as [[ic tx] [|]]; simpl;
        rewrite ?app_nil_r; auto. }
    destruct Hbody as (Hr & Hs & Hf).
    destruct (IH (loop_body python st e)) as (Hr' & Hs' & Hf').
    { intros e' He'. rewrite Hr. apply Hin. now right. }
    rewrite Hr', Hs', Hf', Hr, Hs, Hf. split; [reflexivity|].
    destruct (snd (verdict _ _)); simpl; rewrite <- ?app_assoc, ?app_nil_r; auto.
Qed.

Lemma count_failed_spec want l : forall s,
  (forall e, In e l -> In e (odict.keys s)) ->
  count_failed want l s
  = (length (List.filter
               (fun e => match status_codes (view e s) with
                         | [] => false
                         | _ => Bool.eqb (has_200 (status_codes (view e s))) want
                         end) l), s).
Proof.
  induction l as [|e l IH]; intros s Hin; [reflexivity|].
  destruct (odict_get_In e s) as [d Hd]; [apply Hin; now left|].
  assert (Hview : view e s = d).
  { unfold view. now rewrite (getitem_present _ _ _ Hd). }
  cbn [count_failed List.filter]. rewrite (getitem_present _ _ _ Hd), Hview.
  destruct (status_codes d) as [|c cs] eqn:Ec.
  - cbn [snd fst]. rewrite IH by (intros e' He'; apply Hin; now right).
    reflexivity.
  - rewrite (getitem_present _ _ _ Hd), Ec. cbn [snd fst].
    rewrite IH by (intros e' He'; apply Hin; now right).
    destruct (Bool.eqb (has_200 (c :: cs)) want); reflexivity.
Qed.

(** The whole output of a summary that runs to its end. *)
Lemma summary_completed s eps :
  s <> [] ->
  py.sorted_by_key Z.leb (sort_key python) (odict.keys s) = Ok eps ->
  let failed_eps := List.filter (fun e => negb (stable_in s e)) eps in
  let counted want :=
    length (List.filter
              (fun e => match status_codes (view e s) with
                        | [] => false
                        | _ => Bool.eqb (has_200 (status_codes (view e s))) want
                        end) failed_eps) in
  _print_endpoint_discovery_summary python s
  = (s,
     (header ++ flat_map (fun e => endpoint_block python e (view e s)) eps)
     ++ [ RuleLine; TitleLine "OVERALL RESULTS"; RuleLine;
          StableLine (length (List.filter (stable_in s) eps));
          UnstableLine (counted true);
          FailedLine (counted false);
          TotalsLine (sum_Z (map test_count (odict.values s)))
            (sum_Z (map passed (odict.values s)))
            (success_rate (sum_Z (map passed (odict.values s)))
               (sum_Z (map test_count (odict.values s))));
          RuleLine ],
     Ok tt).
Proof.
  intros Hs He failed_eps counted. unfold _print_endpoint_discovery_summary.
  destruct s as [|kv s]; [congruence|]. rewrite He.
  set (s0 := kv :: s) in *.
  set (st0 := {| results := s0; successful_endpoints := [];
                 failed_endpoints := []; lines := _ |}).
  assert (Hkeys : forall e, In e eps -> In e (odict.keys s0)).
  { intros e Hin.
    eapply Permutation_in; [apply (sorted_by_key_perm _ _ _ _ He) | exact Hin]. }
  destruct (loop_lines python eps st0 Hkeys) as [_ Hl].
  destruct (loop_state_after eps st0 Hkeys) as (Hr & Hsucc & Hfail).
  simpl in Hr, Hsucc, Hfail. rewrite Hr, Hsucc, Hfail, Hl.
  assert (Hfkeys : forall e, In e failed_eps -> In e (odict.keys s0)).
  { intros e Hin. apply Hkeys. apply List.filter_In in Hin. tauto. }
  fold failed_eps. rewrite !(count_failed_spec _ _ _ Hfkeys).
  reflexivity.
Qed.
End summary_whole.

Section list_facts.
Context {A : Type}.
Implicit Types (l : list A) (p q : A -> bool).

Lemma filter_filter_and p q l :
  List.filter p (List.filter q l) = List.filter (fun x => q x && p x) l.
Proof.
  induction l as [|x l IH]; simpl; [reflexivity|].
  destruct (q x); simpl; [destruct (p x)|]; now rewrite IH.
Qed.

Lemma filter_length_perm p l l' :
  Permutation l l' -> length (List.filter p l) = length (List.filter p l').
Proof.
  induction 1 as [|x l l' _ IH|x y l|l l' l'' _ IH1 _ IH2]; simpl.
  - reflexivity.
  - destruct (p x); simpl; now rewrite IH.
  - destruct (p x), (p y); reflexivity.
  - now rewrite IH1.
Qed.

Lemma filter_length_split3 (p q r a : A -> bool) l :
  (forall x, a x = p x || q x || r x) ->
  (forall x, p x && q x = false) -> (forall x, p x && r x = false) ->
  (forall x, q x && r x = false) ->
  (length (List.filter p l) + length (List.filter q l) + length (List.filter r l)
   = length (List.filter a l))%nat.
Proof.
  intros Ha Hpq Hpr Hqr. induction l as [|x l IH]; simpl; [reflexivity|].
  specialize (Ha x). specialize (Hpq x). specialize (Hpr x). specialize (Hqr x).
  destruct (p x), (q x), (r x), (a x); simpl in *; try discriminate; lia.
Qed.

Lemma Sorted_weaken (R R' : A -> A -> Prop) l :
  (forall a b, R a b -> R' a b) -> Sorted R l -> Sorted R' l.
Proof.
  intros Himp. induction 1 as [|x l Hl IH Hhd]; constructor; [exact IH|].
  destruct Hhd; constructor. now apply Himp.
Qed.

Lemma Sorted_map {B : Type} (f : A -> B) (R : B -> B -> Prop) l :
  Sorted (fun a b => R (f a) (f b)) l -> Sorted R (map f l).
Proof.
  induction 1 as [|x l Hl IH Hhd]; simpl; constructor; [exact IH|].
  destruct Hhd; simpl; constructor. assumption.
Qed.
End list_facts.

Section summary_order.
Import conftest.
Context (python : interpreter).
Implicit Types (s : endpoint_results) (e endpoint : string).

Lemma reported_app l1 l2 : reported (l1 ++ l2) = reported l1 ++ reported l2.
Proof.
  induction l1 as [|x l1 IH]; simpl; [reflexivity|].
  destruct x; simpl; now rewrite IH.
Qed.

Lemma reported_block e d : reported (endpoint_block python e d) = [e].
Proof.
  unfold endpoint_block. now destruct (verdict _ _) as [[ic tx] st].
Qed.

Lemma reported_blocks s eps :
  reported (flat_map (fun e => endpoint_block python e (view e s)) eps) = eps.
Proof.
  induction eps as [|e eps IH]; simpl; [reflexivity|].
  now rewrite reported_app, reported_block, IH.
Qed.

Lemma eval_keys_pairs {A K} (key : A -> result K) (l : list A) kl :
  py.eval_keys key l = Ok kl ->
  Forall (fun p => key (snd p) = Ok (fst p)) kl.
Proof.
  revert kl. induction l as [|x l IH]; simpl; intros kl.
  - intros [= <-]. constructor.
  - destruct (key x) as [k|err] eqn:Ek; [|discriminate].
    destruct (py.eval_keys key l) as [kl'|err]; [|discriminate].
    intros [= <-]. constructor; [exact Ek | now apply IH].
Qed.

Lemma sorted_by_key_ascending (l eps : list string) :
  py.sorted_by_key Z.leb (sort_key python) l = Ok eps ->
  exists ks, map (sort_key python) eps = map Ok ks /\ StronglySorted Z.le ks.
Proof.
  unfold py.sorted_by_key.
  destruct (py.eval_keys (sort_key python) l) as [kl|err] eqn:E; [|discriminate].
  intros [= <-].
  set (sp := py.sorted (fun a b : Z * string => (fst a <=? fst b)%Z) kl).
  exists (map fst sp). split.
  - assert (Hall : Forall (fun p => sort_key python (snd p) = Ok (fst p)) sp).
    { apply List.Forall_forall. intros p Hp.
      pose proof (eval_keys_pairs _ _ _ E) as Hkl.
      rewrite List.Forall_forall in Hkl. apply Hkl.
      eapply Permutation_in; [apply sorted_perm | exact Hp]. }
    rewrite !map_map. induction Hall as [|p sp' Hp _ IH]; simpl; [reflexivity|].
    now rewrite Hp, IH.
  - apply Sorted_StronglySorted; [intros a b c; apply Z.le_trans|].
    apply Sorted_map.
    apply (Sorted_weaken (fun a b : Z * string => (fst a <=? fst b)%Z = true)).
    + intros a b Hab. now apply Z.leb_le.
    + apply (sorted_Sorted (fun a b : Z * string => (fst a <=? fst b)%Z)).
      intros x y Hxy. apply Z.leb_le. apply Z.leb_gt in Hxy. lia.
Qed.

Lemma verdict_stable codes :
  snd (verdict (has_200 codes) (count_codes codes)) = all_200 codes.
Proof.
  unfold verdict, all_200.
  destruct (has_200 codes) eqn:H200; [|reflexivity]. simpl andb.
  destruct (forallb (Z.eqb 200) codes) eqn:Hall.
  - rewrite forallb_forall in Hall.
    assert (Hsame : forall c, In c codes -> c = 200).
    { intros c Hc. symmetry. apply Z.eqb_eq. now apply Hall. }
    rewrite (count_codes_same 200 codes); [| |exact Hsame].
    + simpl. unfold odict.mem. simpl.
      destruct (decide (200 = 200)); [reflexivity | congruence].
    + intros ->. discriminate.
  - destruct ((length (count_codes codes) =? 1)%nat
              && odict.mem 200 (count_codes codes)) eqn:Hone; [|reflexivity].
    apply andb_true_iff in Hone. destruct Hone as [Hlen Hmem].
    apply Nat.eqb_eq in Hlen.
    pose proof (count_codes_single codes Hlen Hmem) as Hsame.
    assert (forallb (Z.eqb 200) codes = true); [|congruence].
    apply forallb_forall. intros c Hc. apply Z.eqb_eq.
    symmetry. now apply Hsame.
Qed.
End summary_order.

(** ** [int] and the texts that read as an integer *)

Section int_grammar.
Import integer_text.
Implicit Types (c : ascii) (l text : list ascii) (p : phase).

Lemma blank_is_space c : blank c = py.is_space c.
Proof. destruct c as [[] [] [] [] [] [] [] []]; reflexivity. Qed.

Lemma digit_is_digit_val c : digit c = py.digit_val c.
Proof. destruct c as [[] [] [] [] [] [] [] []]; reflexivity. Qed.

Lemma space_char c :
  py.is_space c = true ->
  py.digit_val c = None /\ Ascii.eqb c "-" = false /\ Ascii.eqb c "+" = false
  /\ Ascii.eqb c "_" = false /\ Ascii.eqb "-" c = false.
Proof.
  destruct c as [[] [] [] [] [] [] [] []]; vm_compute; intros H;
    try discriminate H; auto.
Qed.

Lemma digit_char c d :
  py.digit_val c = Some d ->
  py.is_space c = false /\ Ascii.eqb c "-" = false /\ Ascii.eqb c "+" = false
  /\ Ascii.eqb c "_" = false /\ Ascii.eqb "-" c = false.
Proof.
  destruct c as [[] [] [] [] [] [] [] []]; vm_compute; intros H;
    try discriminate H; auto.
Qed.

(** The step of the reading, in the character classes of the parser. *)
Lemma step_eq p c :
  step p c
  = match p with
    | Leading =>
        if py.is_space c then Leading
        else if Ascii.eqb c "+" || Ascii.eqb c "-" then Signed
        else match py.digit_val c with Some _ => Digits | None => Refused end
    | Signed | Underscore =>
        match py.digit_val c with Some _ => Digits | None => Refused end
    | Digits =>
        match py.digit_val c with
        | Some _ => Digits
        | None =>
            if Ascii.eqb c "_" then Underscore
            else if py.is_space c then Trailing else Refused
        end
    | Trailing => if py.is_space c then Trailing else Refused
    | Refused => Refused
    end.
Proof. unfold step. now rewrite blank_is_space, digit_is_digit_val. Qed.

Lemma run_Refused l : fold_left step l Refused = Refused.
Proof. induction l as [|c l IH]; cbn [fold_left]; [reflexivity | exact IH]. Qed.

Lemma run_Trailing l : fold_left step l Trailing <> Digits.
Proof.
  induction l as [|c l IH]; cbn [fold_left]; [discriminate|].
  rewrite step_eq. destruct (py.is_space c); [exact IH|].
  rewrite run_Refused. discriminate.
Qed.

Lemma run_leading_blanks ws l :
  Forall (fun c => py.is_space c = true) ws ->
  fold_left step (ws ++ l) Leading = fold_left step l Leading.
Proof.
  induction 1 as [|c ws Hc _ IH]; cbn [app fold_left]; [reflexivity|].
  rewrite step_eq, Hc. exact IH.
Qed.

Lemma run_trailing_blanks ws : forall p,
  Forall (fun c => py.is_space c = true) ws ->
  accepting (fold_left step ws p) = accepting p.
Proof.
  induction ws as [|c ws IH]; intros p Hws; cbn [fold_left]; [reflexivity|].
  inversion Hws as [|c' ws' Hc Hws']; subst.
  rewrite (IH _ Hws'), step_eq.
  destruct (space_char c Hc) as (Hd & _ & _ & Hu & _).
  destruct p; rewrite ?Hc, ?Hd, ?Hu; reflexivity.
Qed.

(** After a last character that is not white space the reading is not in
    the trailing white space. *)
Lemma run_last_not_blank l c p :
  py.is_space c = false ->
  accepting (fold_left step (l ++ [c]) p)
  = match fold_left step (l ++ [c]) p with Digits => true | _ => false end.
Proof.
  intros Hc. rewrite fold_left_app. cbn [fold_left]. rewrite step_eq.
  destruct (fold_left step l p); rewrite ?Hc;
    repeat match goal with
           | |- context [match ?x with _ => _ end] => destruct x
           end; reflexivity.
Qed.

(** The parser of the digits and the reading agree on which texts they
    take; [after_underscore] is the phase after a sign or an underscore. *)
Lemma parse_digits_run l : forall acc n,
  (forall p, p = Signed \/ p = Underscore ->
     match py.parse_digits acc n true l with Some _ => true | None => false end
     = match fold_left step l p with Digits => true | _ => false end)
  /\ match py.parse_digits acc n false l with Some _ => true | None => false end
     = match fold_left step l Digits with Digits => true | _ => false end.
Proof.
  induction l as [|c l IH]; intros acc n.
  - split; [intros p [-> | ->]|]; reflexivity.
  - cbn [py.parse_digits fold_left]. rewrite !step_eq.
    destruct (py.digit_val c) as [d|] eqn:Hd.
    + destruct (IH (10 * acc + d) (S n)) as [_ IHf].
      split; [intros p [-> | ->]|]; rewrite ?step_eq, ?Hd; exact IHf.
    + destruct (Ascii.eqb c "_") eqn:Hu.
      * split.
        -- intros p [-> | ->]; rewrite step_eq, Hd, run_Refused; reflexivity.
        -- destruct (IH acc n) as [IHt _]. apply IHt. now right.
      * split.
        -- intros p [-> | ->]; rewrite step_eq, Hd, run_Refused; reflexivity.
        -- destruct (py.is_space c).
           ++ pose proof (run_Trailing l) as Ht.
              destruct (fold_left step l Trailing); try reflexivity. congruence.
           ++ rewrite run_Refused. reflexivity.
Qed.

(** What the parser of the digits returns: the number that the digits
    write, and how many they are. *)
Lemma parse_digits_value l : forall acc n b v m,
  py.parse_digits acc n b l = Some (v, m) ->
  v = fold_left (fun acc d => 10 * acc + d) (omap py.digit_val l) acc
  /\ m = (n + length (omap py.digit_val l))%nat
  /\ existsb (Ascii.eqb "-") l = false.
Proof.
  induction l as [|c l IH]; intros acc n b v m; cbn [py.parse_digits].
  - destruct b; [discriminate|]. intros [= <- <-]. simpl. auto with lia.
  - cbn [omap list_omap existsb]. destruct (py.digit_val c) as [d|] eqn:Hd.
    + intros H. destruct (IH _ _ _ _ _ H) as (Hv & Hm & Hneg).
      destruct (digit_char c d Hd) as (_ & _ & _ & _ & Hminus).
      rewrite Hminus. cbn [fold_left length]. split; [exact Hv|].
      split; [lia | exact Hneg].
    + destruct (Ascii.eqb c "_") eqn:Hu; [|discriminate].
      destruct b; [discriminate|].
      intros H. destruct (IH _ _ _ _ _ H) as (Hv & Hm & Hneg).
      apply Ascii.eqb_eq in Hu. subst c. simpl. auto.
Qed.

Lemma digits_eq l : digits l = omap py.digit_val l.
Proof.
  unfold digits. induction l as [|c l IH]; [reflexivity|].
  cbn [omap list_omap]. now rewrite digit_is_digit_val, IH.
Qed.

Lemma limit_eq limit (m : nat) :
  negb ((0 <? limit)%nat && (limit <? m)%nat)
  = ((limit =? 0)%nat || (m <=? limit)%nat).
Proof.
  destruct (Nat.ltb_spec 0 limit), (Nat.ltb_spec limit m),
    (Nat.eqb_spec limit 0), (Nat.leb_spec m limit); simpl; try reflexivity; lia.
Qed.

(** The parser of an unsigned number, on a text read after a sign. *)
Lemma parse_unsigned_spec limit l :
  py.parse_unsigned limit l
  = if match fold_left step l Signed with Digits => true | _ => false end
       && within_limit limit l
    then Some (magnitude l) else None.
Proof.
  unfold py.parse_unsigned, within_limit, magnitude.
  destruct (parse_digits_run l 0 0%nat) as [Hrun _].
  specialize (Hrun Signed (or_introl eq_refl)).
  destruct (py.parse_digits 0 0 true l) as [[v m]|] eqn:Hp.
  - rewrite <- Hrun. cbn [andb].
    destruct (parse_digits_value l _ _ _ _ _ Hp) as (Hv & Hm & _).
    rewrite digits_eq, <- Hv. simpl in Hm. rewrite <- Hm, <- limit_eq.
    destruct ((0 <? limit)%nat && (limit <? m)%nat); reflexivity.
  - rewrite <- Hrun. reflexivity.
Qed.

Lemma parse_unsigned_not_negative limit l v :
  py.parse_unsigned limit l = Some v -> negative l = false.
Proof.
  unfold py.parse_unsigned, negative.
  destruct (py.parse_digits 0 0 true l) as [[v' m]|] eqn:Hp; [|discriminate].
  intros _. now destruct (parse_digits_value l _ _ _ _ _ Hp) as (_ & _ & Hneg).
Qed.

(** White space around a text: what [strip] takes away. *)
Lemma lstrip_spec l :
  exists ws,
    Forall (fun c => py.is_space c = true) ws
    /\ l = ws ++ py.lstrip l
    /\ match py.lstrip l with [] => True | c :: _ => py.is_space c = false end.
Proof.
  induction l as [|c l (ws & Hws & Hl & Hhead)]; simpl.
  - exists []. auto.
  - destruct (py.is_space c) eqn:Hc.
    + exists (c :: ws). split; [now constructor|]. split; [|exact Hhead].
      simpl. now f_equal.
    + exists []. rewrite Hc. auto.
Qed.

Lemma strip_spec l :
  exists before after,
    Forall (fun c => py.is_space c = true) before
    /\ Forall (fun c => py.is_space c = true) after
    /\ l = before ++ py.strip l ++ after
    /\ (py.strip l = []
        \/ (exists c rest, py.strip l = c :: rest /\ py.is_space c = false)
           /\ (exists front c, py.strip l = front ++ [c] /\ py.is_space c = false)).
Proof.
  destruct (lstrip_spec l) as (before & Hbefore & Hl & Hhead).
  destruct (lstrip_spec (rev (py.lstrip l))) as (ws & Hws & Hrev & Hlast).
  unfold py.strip. set (core := py.lstrip (rev (py.lstrip l))) in *.
  assert (Hm : py.lstrip l = rev core ++ rev ws).
  { rewrite <- rev_app_distr, <- Hrev. now rewrite rev_involutive. }
  exists before, (rev ws).
  split; [exact Hbefore|]. split; [now apply Forall_rev|].
  split; [now rewrite <- Hm|].
  destruct core as [|c core']; [now left|]. right. split.
  - rewrite Hm in Hhead. simpl in *.
    destruct (rev core' ++ [c]) as [|c0 rest] eqn:E.
    + now destruct (rev core').
    + simpl in Hhead. eauto.
  - simpl. eauto.
Qed.

Lemma digits_blanks ws :
  Forall (fun c => py.is_space c = true) ws -> digits ws = [].
Proof.
  rewrite digits_eq. induction 1 as [|c ws Hc _ IH]; [reflexivity|].
  cbn [omap list_omap]. destruct (space_char c Hc) as (-> & _). exact IH.
Qed.

Lemma negative_blanks ws :
  Forall (fun c => py.is_space c = true) ws -> negative ws = false.
Proof.
  unfold negative. induction 1 as [|c ws Hc _ IH]; [reflexivity|].
  cbn [existsb]. destruct (space_char c Hc) as (_ & _ & _ & _ & ->). exact IH.
Qed.

Lemma digits_app l l' : digits (l ++ l') = digits l ++ digits l'.
Proof. unfold digits. apply omap_app. Qed.

Lemma negative_app l l' : negative (l ++ l') = negative l || negative l'.
Proof. unfold negative. apply existsb_app. Qed.

(** The white space around a text does not count. *)
Lemma value_strip limit l : value limit l = value limit (py.strip l).
Proof.
  destruct (strip_spec l) as (before & after & Hb & Ha & Hl & _).
  set (core := py.strip l) in *.
  assert (Hwf : well_formed l = well_formed core).
  { unfold well_formed. rewrite Hl at 1.
    rewrite (run_leading_blanks _ _ Hb), fold_left_app.
    apply (run_trailing_blanks _ _ Ha). }
  assert (Hd : digits l = digits core).
  { rewrite Hl at 1.
    now rewrite !digits_app, (digits_blanks _ Hb), (digits_blanks _ Ha), app_nil_r. }
  assert (Hn : negative l = negative core).
  { rewrite Hl at 1.
    rewrite !negative_app, (negative_blanks _ Hb), (negative_blanks _ Ha).
    now rewrite orb_false_r. }
  unfold value, within_limit, magnitude. now rewrite Hwf, Hd, Hn.
Qed.

Lemma value_unfold limit l :
  value limit l
  = if accepting (fold_left step l Leading)
       && ((limit =? 0)%nat || (length (omap py.digit_val l) <=? limit)%nat)
    then Some (if existsb (Ascii.eqb "-") l
               then - fold_left (fun acc d => 10 * acc + d) (omap py.digit_val l) 0
               else fold_left (fun acc d => 10 * acc + d) (omap py.digit_val l) 0)
    else None.
Proof.
  unfold value, well_formed, within_limit, magnitude, negative.
  now rewrite digits_eq.
Qed.

Lemma parse_unsigned_unfold limit l :
  py.parse_unsigned limit l
  = if match fold_left step l Signed with Digits => true | _ => false end
       && ((limit =? 0)%nat || (length (omap py.digit_val l) <=? limit)%nat)
    then Some (fold_left (fun acc d => 10 * acc + d) (omap py.digit_val l) 0)
    else None.
Proof.
  rewrite parse_unsigned_spec. unfold within_limit, magnitude.
  now rewrite digits_eq.
Qed.

Lemma parse_unsigned_no_minus limit l v :
  py.parse_unsigned limit l = Some v -> existsb (Ascii.eqb "-") l = false.
Proof. apply parse_unsigned_not_negative. Qed.

(** A text without white space around it: the sign, then the digits. *)
Lemma value_core limit c rest front z :
  py.is_space c = false ->
  c :: rest = front ++ [z] -> py.is_space z = false ->
  value limit (c :: rest)
  = if Ascii.eqb c "-" then Z.opp <$> py.parse_unsigned limit rest
    else if Ascii.eqb c "+" then py.parse_unsigned limit rest
    else py.parse_unsigned limit (c :: rest).
Proof.
  intros Hfirst Hz Hlast. rewrite value_unfold.
  rewrite Hz at 1. rewrite (run_last_not_blank front z Leading Hlast), <- Hz.
  cbn [fold_left existsb omap list_omap].
  destruct (Ascii.eqb c "-") eqn:Hminus; [|destruct (Ascii.eqb c "+") eqn:Hplus].
  - apply Ascii.eqb_eq in Hminus. subst c.
    change (step Leading "-") with Signed.
    change (py.digit_val "-") with (@None Z).
    change (Ascii.eqb "-" "-") with true. cbn [orb]. cbn iota.
    rewrite parse_unsigned_unfold.
    destruct (match fold_left step rest Signed with Digits => true | _ => false end
              && ((limit =? 0)%nat
                  || (length (omap py.digit_val rest) <=? limit)%nat));
      reflexivity.
  - apply Ascii.eqb_eq in Hplus. subst c.
    change (step Leading "+") with Signed.
    change (py.digit_val "+") with (@None Z).
    change (Ascii.eqb "-" "+") with false. cbn [orb]. cbn iota.
    destruct (py.parse_unsigned limit rest) as [v|] eqn:Hp.
    + rewrite (parse_unsigned_no_minus _ _ _ Hp).
      rewrite parse_unsigned_unfold in Hp. exact Hp.
    + rewrite parse_unsigned_unfold in Hp.
      destruct (match fold_left step rest Signed with Digits => true | _ => false end
                && ((limit =? 0)%nat
                    || (length (omap py.digit_val rest) <=? limit)%nat));
        [discriminate | reflexivity].
  - assert (Hstep : step Leading c = step Signed c).
    { rewrite !step_eq, Hfirst, Hplus, Hminus. reflexivity. }
    rewrite Hstep.
    change (fold_left step rest (step Signed c))
      with (fold_left step (c :: rest) Signed).
    assert (Hmc : Ascii.eqb "-" c = false)
      by (rewrite Ascii.eqb_sym; exact Hminus).
    rewrite Hmc. cbn [orb].
    change (match py.digit_val c with
            | Some y => y :: omap py.digit_val rest
            | None => omap py.digit_val rest
            end) with (omap py.digit_val (c :: rest)).
    destruct (py.parse_unsigned limit (c :: rest)) as [v|] eqn:Hp.
    + pose proof (parse_unsigned_no_minus _ _ _ Hp) as Hneg.
      cbn [existsb] in Hneg. rewrite Hmc in Hneg. cbn [orb] in Hneg.
      rewrite Hneg. rewrite parse_unsigned_unfold in Hp. exact Hp.
    + rewrite parse_unsigned_unfold in Hp.
      destruct (match fold_left step (c :: rest) Signed with
                | Digits => true | _ => false end
                && ((limit =? 0)%nat
                    || (length (omap py.digit_val (c :: rest)) <=? limit)%nat));
        [discriminate | reflexivity].
Qed.

(** [int] on an ASCII text, by the text. *)
Lemma int_of_ascii_value limit (s : string) :
  py.int_of_ascii limit s = value limit (list_ascii_of_string s).
Proof.
  unfold py.int_of_ascii. rewrite value_strip.
  destruct (strip_spec (list_ascii_of_string s)) as (_ & _ & _ & _ & _ & Hcore).
  destruct Hcore as [-> | [(c & rest & Hc & Hfirst) (front & z & Hz & Hlast)]];
    [reflexivity|].
  rewrite Hc in *. cbn zeta.
  now rewrite (value_core limit c rest front z Hfirst Hz Hlast).
Qed.

End int_grammar.

Section summary_needs_integers.
Import conftest.
Context (python : interpreter).
Implicit Types (s : endpoint_results) (k : string).

(** The key of the summary's sort is the integer that ends the key. *)
Lemma sort_key_key_number k :
  sort_key python k
  = match key_number python k with
    | Some v => Ok v
    | None =>
        Raise (ValueError ("invalid literal for int() with base 10: "
                           +:+ py.last_item (py.split "/" k)))
    end.
Proof.
  unfold sort_key, py.int_of_str, key_number, segment, py.ascii_only.
  rewrite string_of_list_ascii_of_string, int_of_ascii_value.
  now destruct (forallb py.is_ascii _).
Qed.

Lemma sort_key_Ok_iff k v :
  sort_key python k = Ok v <-> key_number python k = Some v.
Proof.
  rewrite sort_key_key_number.
  destruct (key_number python k) as [v'|]; split; congruence.
Qed.

Lemma sort_key_is_Ok k :
  is_Ok (sort_key python k) = true <-> key_number python k <> None.
Proof.
  rewrite sort_key_key_number.
  destruct (key_number python k); simpl; split; congruence.
Qed.

Lemma key_numbers_ascending (eps : list string) ks :
  map (sort_key python) eps = map Ok ks ->
  map (key_number python) eps = map Some ks.
Proof.
  revert ks. induction eps as [|e eps IH]; intros [|n ks]; simpl;
    try discriminate; [reflexivity|].
  intros [= He Hrest]. apply sort_key_Ok_iff in He. now rewrite He, (IH ks).
Qed.

(** [split] cuts at every separator, so its last item is what follows the
    last separator. *)
Lemma split_nonempty sep (text : string) : py.split sep text <> [].
Proof.
  induction text as [|c text IH]; simpl; [discriminate|].
  destruct (Ascii.eqb c sep); [discriminate|].
  destruct (py.split sep text); discriminate.
Qed.

Lemma concat_two (sep x y : string) (rest : list string) :
  String.concat sep (x :: y :: rest)
  = x +:+ sep +:+ String.concat sep (y :: rest).
Proof. reflexivity. Qed.

Lemma split_concat sep (text : string) :
  String.concat (String sep EmptyString) (py.split sep text) = text.
Proof.
  induction text as [|c text IH]; [reflexivity|].
  cbn [py.split]. pose proof (split_nonempty sep text) as Hparts.
  destruct (py.split sep text) as [|h t]; [congruence|].
  destruct (Ascii.eqb_spec c sep) as [->|Hne].
  - rewrite concat_two, IH. reflexivity.
  - destruct t as [|h' t].
    + simpl in *. now rewrite IH.
    + rewrite concat_two in *. rewrite <- IH. reflexivity.
Qed.

Lemma split_parts sep (text : string) :
  Forall (fun part => ~ In sep (list_ascii_of_string part)) (py.split sep text).
Proof.
  induction text as [|c text IH]; cbn [py.split].
  - repeat constructor. simpl. tauto.
  - destruct (Ascii.eqb_spec c sep) as [->|Hne].
    + constructor; [simpl; tauto | exact IH].
    + destruct (py.split sep text) as [|h t].
      * repeat constructor. simpl. intros [Hc|[]]. congruence.
      * inversion IH as [|h0 t0 Hh Ht]; subst. constructor; [|exact Ht].
        cbn [list_ascii_of_string]. intros [Hc | Hin]; [congruence | tauto].
Qed.

Lemma concat_last sep (parts : list string) :
  parts <> [] ->
  String.concat (String sep EmptyString) parts = List.last parts EmptyString
  \/ exists front,
       String.concat (String sep EmptyString) parts
       = front +:+ String sep (List.last parts EmptyString).
Proof.
  induction parts as [|h t IH]; [congruence|]. intros _.
  destruct t as [|h' t]; [now left|]. right.
  change (List.last (h :: h' :: t) EmptyString)
    with (List.last (h' :: t) EmptyString).
  rewrite concat_two.
  destruct (IH ltac:(discriminate)) as [-> | [front ->]].
  - now exists h.
  - exists (h +:+ String sep front).
    generalize (List.last (h' :: t) EmptyString). intros last. clear.
    induction h as [|c h IHh]; [reflexivity|].
    change (String c h +:+ String sep EmptyString +:+ front +:+ String sep last)
      with (String c (h +:+ String sep EmptyString +:+ front +:+ String sep last)).
    rewrite IHh. reflexivity.
Qed.

(** The segment of a key is the text after its last '/', the whole key when
    it has none. *)
Lemma segment_after_last_slash k :
  let last := py.last_item (py.split "/" k) in
  ~ In "/"%char (segment k)
  /\ (k = last \/ exists front, k = front +:+ String "/" last).
Proof.
  cbn zeta. unfold segment, py.last_item. split.
  - pose proof (split_parts "/" k) as Hparts.
    pose proof (split_nonempty "/" k) as Hne.
    rewrite List.Forall_forall in Hparts. apply Hparts.
    destruct (py.split "/" k) as [|h t]; [congruence|].
    clear. revert h. induction t as [|h' t IH]; intros h; [now left|].
    right. apply IH.
  - pose proof (concat_last "/" (py.split "/" k) (split_nonempty "/" k)) as Hlast.
    now rewrite split_concat in Hlast.
Qed.
End summary_needs_integers.

(** C9 (as stated, refuted): a recorded key whose last segment is not a
    decimal integer does not always make the summary raise.  The segment
    "1_0" has an underscore and the segment " 7 " is wrapped in spaces:
    neither is a sequence of decimal digits, yet [int] reads them as 10
    and as 7, and the summary runs to its end, writing the blocks of both
    keys, that of 7 first. *)
Lemma C9_segment_that_is_no_decimal_integer_is_accepted :
  let s := conftest.run [("/api/test/1_0", conftest.IncTestCount);
                         ("/api/test/ 7 ", conftest.IncTestCount)]
             conftest.initial_results in
  let out := conftest._print_endpoint_discovery_summary example.python s in
  odict.keys s = ["/api/test/1_0"; "/api/test/ 7 "]
  /\ segment "/api/test/1_0" = ["1"; "_"; "0"]%char
  /\ segment "/api/test/ 7 " = [" "; "7"; " "]%char
  /\ integer_text.digit "_" = None
  /\ integer_text.digit " " = None
  /\ snd out = Ok tt
  /\ reported (snd (fst out)) = ["/api/test/ 7 "; "/api/test/1_0"].
Proof. vm_compute. repeat split; reflexivity. Qed.

(** C9 (amended): the teardown summary orders the recorded keys by the
    integer that [int] reads in the text after the last '/' of each key:
    optional white space, an optional sign, decimal digits in which single
    underscores may separate digits, optional white space, with no more
    digits than the interpreter's limit.  On a non-empty aggregator the
    summary runs to its end exactly when every recorded key ends in such
    a text, and then it writes one block per key, in ascending order of
    these integers.  As soon as one recorded key ends in another text
    (such as that of a health-check path) the summary raises a
    [ValueError], having written the three opening lines only, no
    endpoint, and with the aggregator unchanged. *)
Theorem C9_summary_orders_by_integer_segment
    (python : interpreter) (s : conftest.endpoint_results) :
  let out := conftest._print_endpoint_discovery_summary python s in
  s <> [] ->
  (forall k,
     ~ In "/"%char (segment k)
     /\ (k = string_of_list_ascii (segment k)
         \/ exists front, k = front +:+ String "/" (string_of_list_ascii (segment k))))
  /\ (forall k v, conftest.sort_key python k = Ok v <-> key_number python k = Some v)
  /\ (snd out = Ok tt
      <-> Forall (fun k => key_number python k <> None) (odict.keys s))
  /\ (snd out = Ok tt ->
      Permutation (reported (snd (fst out))) (odict.keys s)
      /\ exists numbers,
           map (key_number python) (reported (snd (fst out))) = map Some numbers
           /\ StronglySorted Z.le numbers)
  /\ (forall k, In k (odict.keys s) -> key_number python k = None ->
        (exists msg, snd out = Raise (ValueError msg))
        /\ snd (fst out) = header
        /\ fst (fst out) = s).
Proof.
  intros out Hs.
  assert (Hraise : forall k, In k (odict.keys s) -> key_number python k = None ->
            (exists msg, snd out = Raise (ValueError msg))
            /\ snd (fst out) = header /\ fst (fst out) = s).
  { intros k Hin Hk.
    assert (Hbad : is_Ok (conftest.sort_key python k) = false).
    { rewrite sort_key_key_number, Hk. reflexivity. }
    destruct (eval_keys_Raise _ _ _ Hin Hbad) as (y & err & _ & Hy & Herr).
    assert (Hmsg : exists msg, err = ValueError msg).
    { destruct (sort_key_error python y) as [msg Hm].
      - now rewrite Hy.
      - exists msg. congruence. }
    destruct Hmsg as [msg ->].
    subst out. rewrite (summary_Raise python s (ValueError msg) Hs).
    - cbn [fst snd]. eauto.
    - unfold py.sorted_by_key. now rewrite Herr. }
  split; [|split; [|split; [|split]]].
  - intros k. unfold segment at 1 2 3.
    rewrite string_of_list_ascii_of_string.
    exact (segment_after_last_slash k).
  - intros k v. apply sort_key_Ok_iff.
  - split.
    + intros Hok. apply List.Forall_forall. intros k Hin Hk.
      destruct (Hraise k Hin Hk) as ([msg Hmsg] & _). congruence.
    + intros Hall.
      assert (Hall' : Forall (fun k => is_Ok (conftest.sort_key python k) = true)
                        (odict.keys s)).
      { eapply List.Forall_impl; [|exact Hall].
        intros k Hk. now apply sort_key_is_Ok. }
      destruct (eval_keys_total _ _ Hall') as [kl Hkl].
      destruct (summary_Ok python s
                  (map snd (py.sorted (fun a b => Z.leb (fst a) (fst b)) kl)) Hs)
        as (s' & tail & Hout).
      { unfold py.sorted_by_key. now rewrite Hkl. }
      subst out. now rewrite Hout.
  - intros Hok. subst out.
    destruct (py.sorted_by_key Z.leb (conftest.sort_key python) (odict.keys s))
      as [eps|err] eqn:Hsort.
    + rewrite (summary_completed python s eps Hs Hsort). cbn [fst snd].
      rewrite !reported_app, reported_blocks.
      cbn [reported header app]. rewrite app_nil_r. split.
      * apply (sorted_by_key_perm _ _ _ _ Hsort).
      * destruct (sorted_by_key_ascending python _ _ Hsort) as (ks & Hks & Hsorted).
        exists ks. split; [now apply key_numbers_ascending | exact Hsorted].
    + rewrite (summary_Raise python s err Hs Hsort) in Hok. discriminate.
  - exact Hraise.
Qed.

(** Once a health-check path is recorded the summary raises; without it
    the blocks of the example session come in the order of their
    numbers. *)
Lemma C9_witness :
  (exists msg,
     snd (conftest._print_endpoint_discovery_summary example.python
            example.store_with_health)
     = Raise (ValueError msg))
  /\ exists numbers,
       map (key_number example.python)
         (reported (snd (fst (conftest._print_endpoint_discovery_summary
                                example.python example.store))))
       = map Some numbers
       /\ StronglySorted Z.le numbers.
Proof.
  assert (Hhealth : example.store_with_health <> [])
    by (vm_compute; discriminate).
  assert (Hstore : example.store <> []) by (vm_compute; discriminate).
  split.
  - refine (proj1 (proj2 (proj2 (proj2 (proj2
              (C9_summary_orders_by_integer_segment example.python
                 example.store_with_health Hhealth)))) "/health" _ _)).
    + vm_compute. auto.
    + reflexivity.
  - apply (proj2 (proj1 (proj2 (proj2 (proj2
             (C9_summary_orders_by_integer_segment example.python
                example.store Hstore)))) eq_refl)).
Defined.

(** X1: the teardown summary reads the aggregator and never changes it,
    whether it runs to its end or raises: although every read goes
    through the [defaultdict], only recorded keys are read, so no entry is
    created. *)
Theorem X1_summary_keeps_aggregator
    (python : interpreter) (s : conftest.endpoint_results) :
  fst (fst (conftest._print_endpoint_discovery_summary python s)) = s.
Proof.
  destruct s as [|kv s]; [reflexivity|].
  destruct (py.sorted_by_key Z.leb (conftest.sort_key python)
              (odict.keys (kv :: s))) as [eps|err] eqn:Hsort.
  - rewrite (summary_completed python (kv :: s) eps); [reflexivity| |exact Hsort].
    discriminate.
  - rewrite (summary_Raise python (kv :: s) err); [reflexivity| |exact Hsort].
    discriminate.
Qed.

(** X2: a summary that runs to its end writes one block per recorded key,
    and the blocks come in ascending order of the integer that ends the
    key. *)
Theorem X2_summary_blocks_in_key_order
    (python : interpreter) (s : conftest.endpoint_results) :
  let out := conftest._print_endpoint_discovery_summary python s in
  snd out = Ok tt ->
  Permutation (reported (snd (fst out))) (odict.keys s)
  /\ exists ks,
       map (conftest.sort_key python) (reported (snd (fst out))) = map Ok ks
       /\ StronglySorted Z.le ks.
Proof.
  intros out Hok. subst out.
  destruct s as [|kv s].
  - simpl. split; [constructor|]. exists []. split; [reflexivity | constructor].
  - destruct (py.sorted_by_key Z.leb (conftest.sort_key python)
                (odict.keys (kv :: s))) as [eps|err] eqn:Hsort.
    + rewrite (summary_completed python (kv :: s) eps) in *;
        [| discriminate | exact Hsort | discriminate | exact Hsort].
      cbn [fst snd]. rewrite !reported_app, reported_blocks.
      cbn [reported header app]. rewrite app_nil_r. split.
      * apply (sorted_by_key_perm _ _ _ _ Hsort).
      * apply (sorted_by_key_ascending python _ _ Hsort).
    + rewrite (summary_Raise python (kv :: s) err) in Hok;
        [discriminate | discriminate | exact Hsort].
Qed.

(** In the example session the blocks come in the order 1, 2, 3 although
    endpoint 2 was recorded first. *)
Lemma X2_witness :
  Permutation
    (reported (snd (fst (conftest._print_endpoint_discovery_summary
                           example.python example.store))))
    ["/api/test/2"; "/api/test/1"; "/api/test/3"].
Proof.
  destruct (X2_summary_blocks_in_key_order example.python example.store eq_refl)
    as [Hperm _].
  exact Hperm.
Defined.

(** X3: the closing totals of a completed summary count the recorded keys
    whose status codes are all 200 (stable), those with a 200 and another
    code (unstable) and those with status codes but no 200 (failed).  A
    key without any recorded status code, although its own block says
    FAILED, is counted in none of the three: the three totals add up to
    the number of keys that have a status code.  The last line carries the
    sums of the test counts and of the passed counts. *)
Theorem X3_summary_totals
    (python : interpreter) (s : conftest.endpoint_results) :
  let out := conftest._print_endpoint_discovery_summary python s in
  s <> [] ->
  snd out = Ok tt ->
  (exists front,
     snd (fst out)
     = front
       ++ [ conftest.RuleLine; conftest.TitleLine "OVERALL RESULTS";
            conftest.RuleLine;
            conftest.StableLine (count_keys all_200 s);
            conftest.UnstableLine (count_keys mixed_200 s);
            conftest.FailedLine (count_keys answered_never_200 s);
            conftest.TotalsLine
              (conftest.sum_Z (map conftest.test_count (odict.values s)))
              (conftest.sum_Z (map conftest.passed (odict.values s)))
              (conftest.success_rate
                 (conftest.sum_Z (map conftest.passed (odict.values s)))
                 (conftest.sum_Z (map conftest.test_count (odict.values s))));
            conftest.RuleLine ])
  /\ (count_keys all_200 s + count_keys mixed_200 s
      + count_keys answered_never_200 s = count_keys answered s)%nat.
Proof.
  intros out Hs Hok. subst out. split.
  - destruct (py.sorted_by_key Z.leb (conftest.sort_key python) (odict.keys s))
      as [eps|err] eqn:Hsort.
    2:{ rewrite (summary_Raise python s err Hs Hsort) in Hok. discriminate. }
    rewrite (summary_completed python s eps Hs Hsort). cbn [fst snd].
    pose proof (sorted_by_key_perm _ _ _ _ Hsort) as Hperm.
    eexists. f_equal. unfold count_keys.
    rewrite !filter_filter_and.
    rewrite <- !(filter_length_perm _ _ _ Hperm).
    assert (Hstable :
      List.filter
        (fun e => snd (conftest.verdict
                         (conftest.has_200 (conftest.status_codes (conftest.view e s)))
                         (conftest.count_codes
                            (conftest.status_codes (conftest.view e s))))) eps
      = List.filter
          (fun k => all_200 (conftest.status_codes (conftest.view k s))) eps).
    { apply List.filter_ext. intros e. apply verdict_stable. }
    assert (Hmixed :
      List.filter
        (fun e =>
           negb (snd (conftest.verdict
                        (conftest.has_200 (conftest.status_codes (conftest.view e s)))
                        (conftest.count_codes
                           (conftest.status_codes (conftest.view e s)))))
           && match conftest.status_codes (conftest.view e s) with
              | [] => false
              | _ => Bool.eqb
                       (conftest.has_200 (conftest.status_codes (conftest.view e s)))
                       true
              end) eps
      = List.filter
          (fun k => mixed_200 (conftest.status_codes (conftest.view k s))) eps).
    { apply List.filter_ext. intros e. rewrite verdict_stable.
      unfold all_200, mixed_200.
      destruct (conftest.status_codes (conftest.view e s)) as [|c cs];
        [reflexivity|].
      destruct (conftest.has_200 (c :: cs)), (forallb (Z.eqb 200) (c :: cs));
        reflexivity. }
    assert (Hnever :
      List.filter
        (fun e =>
           negb (snd (conftest.verdict
                        (conftest.has_200 (conftest.status_codes (conftest.view e s)))
                        (conftest.count_codes
                           (conftest.status_codes (conftest.view e s)))))
           && match conftest.status_codes (conftest.view e s) with
              | [] => false
              | _ => Bool.eqb
                       (conftest.has_200 (conftest.status_codes (conftest.view e s)))
                       false
              end) eps
      = List.filter
          (fun k => answered_never_200 (conftest.status_codes (conftest.view k s)))
          eps).
    { apply List.filter_ext. intros e. rewrite verdict_stable.
      unfold all_200, answered_never_200.
      destruct (conftest.status_codes (conftest.view e s)) as [|c cs];
        [reflexivity|].
      destruct (conftest.has_200 (c :: cs)), (forallb (Z.eqb 200) (c :: cs));
        reflexivity. }
    rewrite Hstable, Hmixed, Hnever. reflexivity.
  - unfold count_keys. apply filter_length_split3; intros k;
      unfold all_200, mixed_200, answered_never_200, answered;
      destruct (conftest.status_codes (conftest.view k s)) as [|c cs];
      try reflexivity;
      destruct (conftest.has_200 (c :: cs)), (forallb (Z.eqb 200) (c :: cs));
      reflexivity.
Qed.

(** An endpoint whose only test ended in an exception is reported FAILED
    in its block and is missing from the three totals. *)
Lemma X3_witness :
  (exists front,
     snd (fst (conftest._print_endpoint_discovery_summary example.python
                 scenario.silent_endpoint))
     = front
       ++ [ conftest.RuleLine; conftest.TitleLine "OVERALL RESULTS";
            conftest.RuleLine;
            conftest.StableLine 1; conftest.UnstableLine 0; conftest.FailedLine 0;
            conftest.TotalsLine 2 1 (100 # 2);
            conftest.RuleLine ])
  /\ length (odict.keys scenario.silent_endpoint) = 2%nat.
Proof.
  destruct (X3_summary_totals example.python scenario.silent_endpoint
              ltac:(discriminate) eq_refl) as [[front Hfront] _].
  split; [|reflexivity]. exists front. exact Hfront.
Defined.

(** ** Recording, one request at a time *)

Section mutate_facts.
Import conftest.
Implicit Types (k e : string) (s : endpoint_results) (d : EndpointResult).

Lemma odict_set_set {K V : Type} `{EqDecision K} (k : K) (v v' : V) m :
  odict.set k v (odict.set k v' m) = odict.set k v m.
Proof.
  induction m as [|[k0 v0] m IH]; simpl.
  - destruct (decide (k = k)); [reflexivity | congruence].
  - destruct (decide (k = k0)) as [->|Hne]; simpl.
    + destruct (decide (k0 = k0)); [reflexivity | congruence].
    + destruct (decide (k = k0)); [congruence | now rewrite IH].
Qed.

Lemma mutate_set k f s :
  mutate k f s = odict.set k (f (view k s)) s.
Proof.
  unfold mutate, view, getitem. destruct (odict.get k s) as [d|]; simpl.
  - reflexivity.
  - apply odict_set_set.
Qed.

Lemma view_mutate k f s e :
  view e (mutate k f s) = if decide (e = k) then f (view k s) else view e s.
Proof.
  rewrite (view_get e). destruct (decide (e = k)) as [->|Hne].
  - now rewrite get_mutate_eq.
  - rewrite get_mutate_ne by congruence. now rewrite view_get.
Qed.

Lemma mutate_mutate k f g s :
  mutate k f (mutate k g s) = mutate k (fun d => f (g d)) s.
Proof.
  rewrite (mutate_set k f), view_mutate.
  destruct (decide (k = k)); [|congruence].
  rewrite !mutate_set. apply odict_set_set.
Qed.

Lemma mutate_ext k f g s :
  (forall d, f d = g d) -> mutate k f s = mutate k g s.
Proof.
  intros Hfg. unfold mutate. destruct (getitem k s) as [d s']. now rewrite Hfg.
Qed.

Lemma Forall_set (P : EndpointResult -> Prop) k d s :
  Forall (fun entry => P (snd entry)) s -> P d ->
  Forall (fun entry => P (snd entry)) (odict.set k d s).
Proof.
  induction 1 as [|[k0 d0] s Hd0 Hs IH]; intros Hd; simpl.
  - repeat constructor. exact Hd.
  - destruct (decide (k = k0)); constructor; auto.
Qed.

Lemma Forall_view (P : EndpointResult -> Prop) k s :
  Forall (fun entry => P (snd entry)) s -> P (default_factory tt) -> P (view k s).
Proof.
  intros Hs Hdef. rewrite view_get.
  destruct (odict.get k s) as [d|] eqn:E; [|exact Hdef].
  apply odict_get_In_item in E. rewrite List.Forall_forall in Hs.
  apply (Hs (k, d) E).
Qed.

Lemma Forall_mutate (P : EndpointResult -> Prop) k f s :
  Forall (fun entry => P (snd entry)) s -> P (default_factory tt) ->
  (forall d, P d -> P (f d)) ->
  Forall (fun entry => P (snd entry)) (mutate k f s).
Proof.
  intros Hs Hdef Hf. rewrite mutate_set. apply Forall_set; [exact Hs|].
  apply Hf. now apply Forall_view.
Qed.

Lemma grown_grown d c1 t1 p1 f1 c2 t2 p2 f2 :
  grown (grown d c1 t1 p1 f1) c2 t2 p2 f2
  = grown d (c1 ++ c2) (t1 ++ t2) (p1 + p2) (f1 + f2).
Proof.
  unfold grown; simpl. rewrite <- !app_assoc. f_equal; lia.
Qed.

Lemma grown_nothing d : grown d [] [] 0 0 = d.
Proof.
  destruct d. unfold grown; simpl. rewrite !app_nil_r. f_equal; lia.
Qed.

Lemma record_response_mutate k passes status time s :
  discovery_tests.record_response k passes status time s
  = mutate k (fun d => grown d [status] [time]
                         (if passes status then 1 else 0)
                         (if passes status then 0 else 1)) s.
Proof.
  unfold discovery_tests.record_response, record.
  destruct (passes status); rewrite !mutate_mutate; apply mutate_ext;
    intros [codes times tc pa fa]; unfold grown; simpl; f_equal; lia.
Qed.

Lemma record_error_mutate k s :
  discovery_tests.record_error k s = mutate k (fun d => grown d [] [] 0 1) s.
Proof.
  unfold discovery_tests.record_error, record. rewrite mutate_mutate.
  apply mutate_ext. intros [codes times tc pa fa]. unfold grown; simpl.
  rewrite !app_nil_r. f_equal; lia.
Qed.

Lemma balanced_default : balanced (default_factory tt).
Proof. unfold balanced; simpl. lia. Qed.

Lemma balanced_grown_response d status time (b : bool) :
  balanced d ->
  balanced (grown d [status] [time] (if b then 1 else 0) (if b then 0 else 1)).
Proof.
  unfold balanced, grown; simpl. rewrite !length_app; simpl.
  destruct b; lia.
Qed.

Lemma balanced_grown_error d : balanced d -> balanced (grown d [] [] 0 1).
Proof.
  unfold balanced, grown; simpl. rewrite !app_nil_r. lia.
Qed.

Lemma balanced_record_response k passes status time s :
  balanced_results s ->
  balanced_results (discovery_tests.record_response k passes status time s).
Proof.
  intros Hs. rewrite record_response_mutate.
  apply Forall_mutate; [exact Hs | apply balanced_default|].
  intros d. apply balanced_grown_response.
Qed.

Lemma balanced_record_error k s :
  balanced_results s -> balanced_results (discovery_tests.record_error k s).
Proof.
  intros Hs. rewrite record_error_mutate.
  apply Forall_mutate; [exact Hs | apply balanced_default|].
  intros d. apply balanced_grown_error.
Qed.
End mutate_facts.

(** ** The request loops *)

Section loops.
Import conftest.
Implicit Types (k e : string) (s : endpoint_results) (d : EndpointResult).

Lemma view_record_response k passes status time s e :
  view e (discovery_tests.record_response k passes status time s)
  = if decide (e = k)
    then grown (view k s) [status] [time]
           (if passes status then 1 else 0) (if passes status then 0 else 1)
    else view e s.
Proof. rewrite record_response_mutate. apply view_mutate. Qed.

Lemma view_record_error k s e :
  view e (discovery_tests.record_error k s)
  = if decide (e = k) then grown (view k s) [] [] 0 1 else view e s.
Proof. rewrite record_error_mutate. apply view_mutate. Qed.

Lemma for_range_invariant {St : Type} (P : St -> Prop)
    (body : nat -> St -> result discovery_tests.flow * St) n :
  (forall i st, P st -> P (snd (body i st))) ->
  forall i st, P st -> P (snd (discovery_tests.for_range n i body st)).
Proof.
  intros Hbody. induction n as [|n IH]; intros i st Hst; simpl; [exact Hst|].
  specialize (Hbody i st Hst).
  destruct (body i st) as [[[|]|err] st']; simpl in *; auto.
Qed.

Lemma request_body_balanced k passes stop guarded time_of get i s :
  balanced_results s ->
  balanced_results (snd (request_body k passes stop guarded time_of get i s)).
Proof.
  intros Hs. unfold request_body. destruct (get i) as [r|err].
  - destruct (stop (status_code r)); simpl; now apply balanced_record_response.
  - destruct guarded; simpl; [now apply balanced_record_error | exact Hs].
Qed.

Lemma request_loop_balanced k passes stop guarded time_of get n i s :
  balanced_results s ->
  balanced_results
    (snd (discovery_tests.for_range n i
            (request_body k passes stop guarded time_of get) s)).
Proof.
  apply for_range_invariant. intros j st. apply request_body_balanced.
Qed.

Lemma loop_step_response k passes stop guarded time_of get n i s r :
  get i = Ok r ->
  discovery_tests.for_range (S n) i
    (request_body k passes stop guarded time_of get) s
  = if stop (status_code r)
    then (Ok tt, discovery_tests.record_response k passes (status_code r)
                   (time_of i r) s)
    else discovery_tests.for_range n (S i)
           (request_body k passes stop guarded time_of get)
           (discovery_tests.record_response k passes (status_code r)
              (time_of i r) s).
Proof.
  intros Hg. cbn [discovery_tests.for_range]. unfold request_body at 1.
  rewrite Hg. now destruct (stop (status_code r)).
Qed.

Lemma loop_step_exception k passes stop guarded time_of get n i s err :
  get i = Raise err ->
  discovery_tests.for_range (S n) i
    (request_body k passes stop guarded time_of get) s
  = if guarded
    then discovery_tests.for_range n (S i)
           (request_body k passes stop guarded time_of get)
           (discovery_tests.record_error k s)
    else (Raise err, s).
Proof.
  intros Hg. cbn [discovery_tests.for_range]. unfold request_body at 1.
  rewrite Hg. now destruct guarded.
Qed.

Lemma plain_loop k passes time_of get n : forall i s,
  let out := discovery_tests.for_range n i
               (request_body k passes (fun _ => false) false time_of get) s in
  exists m rs,
    (m <= n)%nat /\ length rs = m
    /\ (forall j r, nth_error rs j = Some r -> get (i + j)%nat = Ok r)
    /\ (m = n -> fst out = Ok tt)
    /\ ((m < n)%nat -> exists err, get (i + m)%nat = Raise err /\ fst out = Raise err)
    /\ view k (snd out)
       = grown (view k s)
           (map status_code rs)
           (imap (fun j => time_of (i + j)%nat) rs)
           (Z.of_nat (length (List.filter (fun r => passes (status_code r)) rs)))
           (Z.of_nat (length (List.filter
                                (fun r => negb (passes (status_code r))) rs)))
    /\ (forall other, other <> k -> view other (snd out) = view other s).
Proof.
  induction n as [|n IH]; intros i s out.
  - exists 0%nat, []. subst out. simpl.
    repeat split; try lia; try reflexivity.
    + intros j r Hj. destruct j; discriminate.
    + now rewrite grown_nothing.
  - subst out. destruct (get i) as [r|err] eqn:Eg.
    + rewrite (loop_step_response _ _ _ _ _ _ _ _ _ _ Eg). cbn iota.
      set (s1 := discovery_tests.record_response k passes (status_code r)
                   (time_of i r) s).
      destruct (IH (S i) s1) as (m & rs & Hm & Hlen & Hget & Hall & Hexc & Hview & Hother).
      exists (S m), (r :: rs). split; [lia|]. split; [simpl; lia|].
      split; [|split; [|split; [|split]]].
      * intros j r' Hj. destruct j as [|j]; simpl in Hj.
        -- injection Hj as <-. now rewrite Nat.add_0_r.
        -- rewrite <- Nat.add_succ_comm. now apply Hget.
      * intros Hmn. apply Hall. lia.
      * intros Hmn. destruct Hexc as (err & He & Hfst); [lia|].
        exists err. split; [|exact Hfst]. now rewrite <- Nat.add_succ_comm.
      * rewrite Hview. subst s1. rewrite view_record_response.
        destruct (decide (k = k)); [|congruence].
        rewrite grown_grown. cbn [map imap List.filter].
        rewrite Nat.add_0_r. unfold grown. f_equal.
        -- do 2 f_equal. apply imap_ext. intros j x _. simpl.
           f_equal. lia.
        -- destruct (passes (status_code r)); simpl negb; cbn [length]; lia.
        -- destruct (passes (status_code r)); simpl negb; cbn [length]; lia.
        -- destruct (passes (status_code r)); simpl negb; cbn [length]; lia.
      * intros other Hne. rewrite Hother by exact Hne. subst s1.
        rewrite view_record_response. destruct (decide (other = k)); congruence.
    + rewrite (loop_step_exception _ _ _ _ _ _ _ _ _ _ Eg). cbn iota.
      exists 0%nat, []. simpl.
      repeat split; try lia; try reflexivity.
      * intros j r Hj. destruct j; discriminate.
      * intros _. exists err. now rewrite Nat.add_0_r.
      * now rewrite grown_nothing.
Qed.

Lemma plain_loop_records n passes time_of k get s :
  records_until_exception n passes time_of k get s
    (discovery_tests.for_range n 0
       (request_body k passes (fun _ => false) false time_of get) s).
Proof.
  destruct (plain_loop k passes time_of get n 0%nat s)
    as (m & rs & Hm & Hlen & Hget & Hall & Hexc & Hview & Hother).
  exists m, rs. repeat split; auto.
  - rewrite Hview. unfold grown; simpl.
    assert (Hsplit :
      (length (List.filter (fun r => passes (status_code r)) rs)
       + length (List.filter (fun r => negb (passes (status_code r))) rs))%nat
      = m).
    { rewrite <- Hlen. clear. induction rs as [|r rs IH]; simpl; [reflexivity|].
      destruct (passes (status_code r)); simpl; lia. }
    lia.
Qed.
End loops.

Section traces.
Import conftest.
Implicit Types (k e : string) (s : endpoint_results) (d : EndpointResult)
               (trace : list (nat * result response)).

Lemma after_trace_nil passes time_of d : after_trace passes time_of [] d = d.
Proof. unfold after_trace. simpl. apply grown_nothing. Qed.

Lemma after_trace_response passes time_of i r trace d :
  after_trace passes time_of ((i, Ok r) :: trace) d
  = after_trace passes time_of trace
      (grown d [status_code r] [time_of i r]
         (if passes (status_code r) then 1 else 0)
         (if passes (status_code r) then 0 else 1)).
Proof.
  unfold after_trace. rewrite grown_grown. cbn [responses errors map fst snd].
  unfold count_status. cbn [List.filter snd]. unfold grown. simpl app.
  destruct (passes (status_code r)); cbn [negb length]; f_equal; lia.
Qed.

Lemma after_trace_exception passes time_of i err trace d :
  after_trace passes time_of ((i, Raise err) :: trace) d
  = after_trace passes time_of trace (grown d [] [] 0 1).
Proof.
  unfold after_trace. rewrite grown_grown. cbn [responses errors].
  unfold grown. simpl app. f_equal; lia.
Qed.

Lemma after_trace_test_count passes time_of trace d :
  test_count (after_trace passes time_of trace d)
  = test_count d + Z.of_nat (length trace).
Proof.
  revert d. induction trace as [|[i [r|err]] trace IH]; intros d.
  - rewrite after_trace_nil. simpl. lia.
  - rewrite after_trace_response, IH. unfold grown; simpl.
    destruct (passes (status_code r)); lia.
  - rewrite after_trace_exception, IH. unfold grown; simpl. lia.
Qed.

(** A loop of requests, by the iterations it goes through. *)
Lemma request_loop_trace k passes stop guarded time_of get n : forall i s,
  let out := discovery_tests.for_range n i
               (request_body k passes stop guarded time_of get) s in
  fst out = match escaping stop guarded n i get with
            | Some err => Raise err
            | None => Ok tt
            end
  /\ view k (snd out)
     = after_trace passes time_of (executed stop guarded n i get) (view k s)
  /\ (forall other, other <> k -> view other (snd out) = view other s).
Proof.
  induction n as [|n IH]; intros i s out; subst out.
  - simpl. rewrite after_trace_nil. auto.
  - cbn [escaping executed]. destruct (get i) as [r|err] eqn:Eg.
    + rewrite (loop_step_response _ _ _ _ _ _ _ _ _ _ Eg).
      rewrite after_trace_response.
      destruct (stop (status_code r)).
      * cbn [fst snd]. rewrite after_trace_nil, view_record_response.
        destruct (decide (k = k)); [|congruence].
        split; [reflexivity|]. split; [reflexivity|].
        intros other Hne. rewrite view_record_response.
        destruct (decide (other = k)); congruence.
      * destruct (IH (S i) (discovery_tests.record_response k passes (status_code r)
                              (time_of i r) s)) as (Hfst & Hview & Hother).
        split; [exact Hfst|]. split.
        -- rewrite Hview, view_record_response.
           destruct (decide (k = k)); [reflexivity | congruence].
        -- intros other Hne. rewrite Hother by exact Hne.
           rewrite view_record_response.
           destruct (decide (other = k)); congruence.
    + rewrite (loop_step_exception _ _ _ _ _ _ _ _ _ _ Eg).
      destruct guarded.
      * rewrite after_trace_exception.
        destruct (IH (S i) (discovery_tests.record_error k s))
          as (Hfst & Hview & Hother).
        split; [exact Hfst|]. split.
        -- rewrite Hview, view_record_error.
           destruct (decide (k = k)); [reflexivity | congruence].
        -- intros other Hne. rewrite Hother by exact Hne.
           rewrite view_record_error.
           destruct (decide (other = k)); congruence.
      * cbn [fst snd]. rewrite after_trace_nil. auto.
Qed.

Lemma executed_guarded stop get n : forall i,
  escaping stop true n i get = None
  /\ (length (executed stop true n i get) = n
      \/ count_status stop (responses (executed stop true n i get)) = 1).
Proof.
  unfold count_status.
  induction n as [|n IH]; intros i; simpl; [auto|].
  destruct (get i) as [r|err].
  - cbn [responses List.filter snd].
    destruct (stop (status_code r)) eqn:Es; simpl.
    + split; [reflexivity | now right].
    + destruct (IH (S i)) as [He [Hl|Hc]]; split; auto.
  - destruct (IH (S i)) as [He [Hl|Hc]]; simpl; split; auto.
Qed.

Lemma executed_all guarded_get n : forall i,
  executed (fun _ => false) true n i guarded_get
  = map (fun j => (j, guarded_get j)) (seq i n).
Proof.
  induction n as [|n IH]; intros i; simpl; [reflexivity|].
  destruct (guarded_get i); now rewrite IH.
Qed.
End traces.

Section loop_shapes.
Import conftest.
Implicit Types (k e : string) (s : endpoint_results) (d : EndpointResult)
               (trace : list (nat * result response)).

(** The iterations of a loop are its first requests; only the last of
    them can have a status that stops the loop; and the loop ends at its
    bound, after a stopping status, or with the exception of the request
    that follows. *)
Lemma executed_shape stop guarded get n : forall i,
  let trace := executed stop guarded n i get in
  let L := length trace in
  trace = map (fun j => (j, get j)) (seq i L)
  /\ (L <= n)%nat
  /\ (forall j r, (i <= j)%nat -> (j + 1 < i + L)%nat -> get j = Ok r ->
        stop (status_code r) = false)
  /\ match escaping stop guarded n i get with
     | Some err => guarded = false /\ (L < n)%nat /\ get (i + L)%nat = Raise err
     | None =>
         L = n
         \/ exists r, (0 < L)%nat /\ get (i + L - 1)%nat = Ok r
                      /\ stop (status_code r) = true
     end
  /\ (guarded = false ->
      forall j, (i <= j)%nat -> (j < i + L)%nat -> exists r, get j = Ok r).
Proof.
  induction n as [|n IH]; intros i.
  - simpl. repeat split; auto; intros; lia.
  - cbn [executed escaping]. destruct (get i) as [r|err] eqn:Eg.
    + destruct (stop (status_code r)) eqn:Es.
      * cbn [length seq map]. rewrite Eg.
        split; [reflexivity|]. split; [lia|]. split; [intros; lia|].
        split.
        -- right. exists r. split; [lia|]. split; [|exact Es].
           replace (i + 1 - 1)%nat with i by lia. exact Eg.
        -- intros _ j Hj1 Hj2. assert (j = i) as -> by lia. eauto.
      * destruct (IH (S i)) as (Htr & Hlen & Hbefore & Hend & Hall).
        set (trace' := executed stop guarded n (S i) get) in *.
        cbn [length seq map]. rewrite Eg.
        split; [f_equal; exact Htr|]. split; [lia|]. split.
        { intros j r' Hj1 Hj2 Hget.
          destruct (decide (j = i)) as [->|Hne].
          - rewrite Eg in Hget. injection Hget as <-. exact Es.
          - apply (Hbefore j r'); [lia | lia | exact Hget]. }
        split.
        { destruct (escaping stop guarded n (S i) get) as [err|].
          - destruct Hend as (Hg & Hlt & Hget). split; [exact Hg|].
            split; [lia|].
            replace (i + S (length trace'))%nat with (S i + length trace')%nat
              by lia. exact Hget.
          - destruct Hend as [Hl | (r' & Hpos & Hget & Hstop)]; [left; lia|].
            right. exists r'. split; [lia|]. split; [|exact Hstop].
            replace (i + S (length trace') - 1)%nat
              with (S i + length trace' - 1)%nat by lia. exact Hget. }
        intros Hg j Hj1 Hj2.
        destruct (decide (j = i)) as [->|Hne]; [eauto|].
        apply (Hall Hg j); lia.
    + destruct guarded.
      * destruct (IH (S i)) as (Htr & Hlen & Hbefore & Hend & Hall).
        set (trace' := executed stop true n (S i) get) in *.
        cbn [length seq map]. rewrite Eg.
        split; [f_equal; exact Htr|]. split; [lia|]. split.
        { intros j r' Hj1 Hj2 Hget.
          destruct (decide (j = i)) as [->|Hne].
          - rewrite Eg in Hget. discriminate.
          - apply (Hbefore j r'); [lia | lia | exact Hget]. }
        split; [|discriminate].
        destruct (escaping stop true n (S i) get) as [err'|].
        -- destruct Hend as (Hg & _). discriminate.
        -- destruct Hend as [Hl | (r' & Hpos & Hget & Hstop)]; [left; lia|].
           right. exists r'. split; [lia|]. split; [|exact Hstop].
           replace (i + S (length trace') - 1)%nat
             with (S i + length trace' - 1)%nat by lia. exact Hget.
      * cbn [length seq map]. split; [reflexivity|]. split; [lia|].
        split; [intros; lia|]. split.
        -- split; [reflexivity|]. split; [lia|].
           now rewrite Nat.add_0_r.
        -- intros; lia.
Qed.

(** A loop whose requests are all guarded and that has no [break]. *)
Lemma guarded_loop_records n passes k get s :
  records_every_request n passes k get s
    (discovery_tests.for_range n 0
       (request_body k passes (fun _ => false) true (fun _ r => elapsed r) get) s).
Proof.
  destruct (request_loop_trace k passes (fun _ => false) true
              (fun _ r => elapsed r) get n 0 s) as (Hfst & Hview & Hother).
  destruct (executed_guarded (fun _ => false) get n 0) as [Hesc _].
  rewrite Hesc in Hfst. rewrite executed_all in Hview.
  split; [exact Hfst|]. split; [exact Hview|]. split; [|exact Hother].
  rewrite Hview, after_trace_test_count. unfold requests_made.
  now rewrite length_map, length_seq.
Qed.
End loop_shapes.

(** X4: Each of the six request loops of [test_endpoint_discovery.py]
    ([test_response_time_consistency], [test_with_different_tokens],
    [test_server_routing], [test_consistency_rapid_fire],
    [test_consistency_with_delays], [test_timing_analysis]) records the
    requests that are answered before the first exception, one status
    code, one time and one counted test each, counting a test as passed
    exactly when its status is 200.  The loop ends normally when all its
    requests are answered; otherwise it ends with the exception of the
    first request that raises, which is not counted at all, and what was
    recorded before stays.  No other entry of the aggregator changes. *)
Theorem X4_common_loops_record_until_exception
    (endpoint_path : string) (get : nat -> result response) (clock : nat -> Q)
    (s : conftest.endpoint_results) :
  records_until_exception 15 discovery_tests.is_ok (fun i _ => clock i)
    endpoint_path get s
    (discovery_tests.test_response_time_consistency endpoint_path get clock s)
  /\ records_until_exception 3 discovery_tests.is_ok (fun _ r => elapsed r)
       endpoint_path get s
       (discovery_tests.test_with_different_tokens endpoint_path get s)
  /\ records_until_exception 10 discovery_tests.is_ok (fun _ r => elapsed r)
       endpoint_path get s
       (discovery_tests.test_server_routing endpoint_path get s)
  /\ records_until_exception 10 discovery_tests.is_ok (fun _ r => elapsed r)
       endpoint_path get s
       (discovery_tests.test_consistency_rapid_fire endpoint_path get s)
  /\ records_until_exception 5 discovery_tests.is_ok (fun _ r => elapsed r)
       endpoint_path get s
       (discovery_tests.test_consistency_with_delays endpoint_path get s)
  /\ records_until_exception 10 discovery_tests.is_ok (fun i _ => clock i)
       endpoint_path get s
       (discovery_tests.test_timing_analysis endpoint_path get clock s).
Proof.
  refine (conj _ (conj _ (conj _ (conj _ (conj _ _))))).
  - exact (plain_loop_records 15 _ (fun i _ => clock i) endpoint_path get s).
  - exact (plain_loop_records 3 _ (fun _ r => elapsed r) endpoint_path get s).
  - exact (plain_loop_records 10 _ (fun _ r => elapsed r) endpoint_path get s).
  - exact (plain_loop_records 10 _ (fun _ r => elapsed r) endpoint_path get s).
  - exact (plain_loop_records 5 _ (fun _ r => elapsed r) endpoint_path get s).
  - exact (plain_loop_records 10 _ (fun i _ => clock i) endpoint_path get s).
Qed.

(** X5: The request loops of [test_endpoint_1_discovery.py] that have no
    [try] ([test_long_running_session], [test_invalid_payloads],
    [test_expired_token], [test_missing_headers],
    [test_statistical_outlier_detection],
    [test_response_content_consistency]) record the requests answered
    before the first exception and end with that exception, which is not
    counted; a test counts as passed by the rule of its loop: status 200,
    status 200 or 400 for the invalid payloads, status 401 for the invalid
    tokens and the missing headers. *)
Theorem X5_endpoint_1_loops_record_until_exception
    (test_endpoint : string) (get : nat -> result response) (clock : nat -> Q)
    (s : conftest.endpoint_results) :
  records_until_exception 60 discovery_tests.is_ok (fun _ r => elapsed r)
    test_endpoint get s
    (discovery_tests.test_long_running_session test_endpoint get s)
  /\ records_until_exception 4
       (fun status => discovery_tests.is_ok status || (status =? 400)%Z)
       (fun _ r => elapsed r) test_endpoint get s
       (discovery_tests.test_invalid_payloads test_endpoint get s)
  /\ records_until_exception 4 (fun status => (status =? 401)%Z)
       (fun _ r => elapsed r) test_endpoint get s
       (discovery_tests.test_expired_token test_endpoint get s)
  /\ records_until_exception 3 (fun status => (status =? 401)%Z)
       (fun _ r => elapsed r) test_endpoint get s
       (discovery_tests.test_missing_headers test_endpoint get s)
  /\ records_until_exception 50 discovery_tests.is_ok (fun i _ => clock i)
       test_endpoint get s
       (discovery_tests.test_statistical_outlier_detection test_endpoint get
          clock s)
  /\ records_until_exception 30 discovery_tests.is_ok (fun _ r => elapsed r)
       test_endpoint get s
       (discovery_tests.test_response_content_consistency test_endpoint get s).
Proof.
  refine (conj _ (conj _ (conj _ (conj _ (conj _ _))))).
  - exact (plain_loop_records 60 _ (fun _ r => elapsed r) test_endpoint get s).
  - exact (plain_loop_records 4 _ (fun _ r => elapsed r) test_endpoint get s).
  - exact (plain_loop_records 4 _ (fun _ r => elapsed r) test_endpoint get s).
  - exact (plain_loop_records 3 _ (fun _ r => elapsed r) test_endpoint get s).
  - exact (plain_loop_records 50 _ (fun i _ => clock i) test_endpoint get s).
  - exact (plain_loop_records 30 _ (fun _ r => elapsed r) test_endpoint get s).
Qed.

(** X6: The loops of [test_endpoint_1_discovery.py] whose requests are in
    [try ... except] and that have no [break] ([test_timeout_scenarios],
    [test_network_interruption_simulation],
    [test_payload_size_boundaries], [test_http_method_variations],
    [test_special_characters_in_headers]) never raise and make all their
    requests: the entry grows by exactly 4, 10, 7, 6 and 5 counted tests,
    a request that raises counts as one failed test without a status code
    or a time, and no other entry changes. *)
Theorem X6_guarded_loops_count_every_request
    (test_endpoint : string) (get : nat -> result response)
    (s : conftest.endpoint_results) :
  records_every_request 4 discovery_tests.is_ok test_endpoint get s
    (discovery_tests.test_timeout_scenarios test_endpoint get s)
  /\ records_every_request 10 discovery_tests.is_ok test_endpoint get s
       (discovery_tests.test_network_interruption_simulation test_endpoint get s)
  /\ records_every_request 7 discovery_tests.is_ok test_endpoint get s
       (discovery_tests.test_payload_size_boundaries test_endpoint get s)
  /\ records_every_request 6
       (fun status => (status =? 405)%Z || discovery_tests.is_ok status)
       test_endpoint get s
       (discovery_tests.test_http_method_variations test_endpoint get s)
  /\ records_every_request 5
       (fun status => discovery_tests.is_ok status || (status =? 401)%Z)
       test_endpoint get s
       (discovery_tests.test_special_characters_in_headers test_endpoint get s).
Proof.
  refine (conj _ (conj _ (conj _ (conj _ _)))).
  - exact (guarded_loop_records 4 _ test_endpoint get s).
  - exact (guarded_loop_records 10 _ test_endpoint get s).
  - exact (guarded_loop_records 7 _ test_endpoint get s).
  - exact (guarded_loop_records 6 _ test_endpoint get s).
  - exact (guarded_loop_records 5 _ test_endpoint get s).
Qed.

Section stopping_loops.
Import conftest.
Implicit Types (k e : string) (s : endpoint_results) (d : EndpointResult).

(** A loop that may stop on a status, guarded or not. *)
Lemma stopping_loop n passes stop guarded k get s :
  let out := discovery_tests.for_range n 0
               (request_body k passes stop guarded (fun _ r => elapsed r) get) s in
  exists m,
    records_until_stop n m passes stop k get s out
    /\ (guarded = false -> forall j, (j < m)%nat -> exists r, get j = Ok r)
    /\ match fst out with
       | Ok _ => stopped_at n m stop get
       | Raise err => guarded = false /\ (m < n)%nat /\ get m = Raise err
       end.
Proof.
  intros out. subst out.
  destruct (request_loop_trace k passes stop guarded (fun _ r => elapsed r)
              get n 0 s) as (Hfst & Hview & Hother).
  destruct (executed_shape stop guarded get n 0)
    as (Htr & Hlen & Hbefore & Hend & Hall).
  set (trace := executed stop guarded n 0 get) in *.
  exists (length trace). split; [|split].
  - split; [exact Hlen|]. split; [|split; [|split]].
    + rewrite Hview. unfold requests_made. now rewrite <- Htr.
    + rewrite Hview. apply after_trace_test_count.
    + intros j r Hj Hget. apply (Hbefore j r); [lia | lia | exact Hget].
    + exact Hother.
  - intros Hg j Hj. apply (Hall Hg j); lia.
  - rewrite Hfst.
    destruct (escaping stop guarded n 0 get) as [err|].
    + exact Hend.
    + exact Hend.
Qed.
End stopping_loops.

(** X7: [test_stress_rapid_fire] never raises.  It makes the first [m] of
    its 100 requests and counts each as one test, a request that raises as
    a failed test without status code; no request before the last one made
    was answered with 429, and the loop went through all 100 requests
    unless the last one made was answered with 429. *)
Theorem X7_stress_test_stops_after_first_429
    (test_endpoint : string) (get : nat -> result response)
    (s : conftest.endpoint_results) :
  let out := discovery_tests.test_stress_rapid_fire test_endpoint get s in
  fst out = Ok tt
  /\ exists m,
       records_until_stop 100 m discovery_tests.is_ok
         (fun status => (status =? 429)%Z) test_endpoint get s out
       /\ stopped_at 100 m (fun status => (status =? 429)%Z) get.
Proof.
  intros out.
  destruct (stopping_loop 100 discovery_tests.is_ok
              (fun status => (status =? 429)%Z) true test_endpoint get s)
    as (m & Hrec & _ & Hend).
  change (discovery_tests.for_range 100 0 _ s) with out in Hrec, Hend.
  destruct (fst out) as [[]|err] eqn:Hfst.
  - split; [reflexivity|]. exists m. split; assumption.
  - destruct Hend as [Hg _]. discriminate.
Qed.

(** X8: [test_rate_limiting_detection] has no [try]: it records the
    requests that are answered, up to 200 of them and none after a 429,
    one counted test with its status code each.  It ends normally after
    200 answers or right after the first 429, and otherwise with the
    exception of the first request that raises, which is not counted. *)
Theorem X8_rate_limit_test_stops_or_raises
    (test_endpoint : string) (get : nat -> result response)
    (s : conftest.endpoint_results) :
  let out := discovery_tests.test_rate_limiting_detection test_endpoint get s in
  exists m,
    records_until_stop 200 m discovery_tests.is_ok
      (fun status => (status =? 429)%Z) test_endpoint get s out
    /\ (forall j, (j < m)%nat -> exists r, get j = Ok r)
    /\ ((fst out = Ok tt
         /\ stopped_at 200 m (fun status => (status =? 429)%Z) get)
        \/ exists err, (m < 200)%nat /\ get m = Raise err
                       /\ fst out = Raise err).
Proof.
  intros out.
  destruct (stopping_loop 200 discovery_tests.is_ok
              (fun status => (status =? 429)%Z) false test_endpoint get s)
    as (m & Hrec & Hall & Hend).
  change (discovery_tests.for_range 200 0 _ s) with out in Hrec, Hend.
  exists m. split; [exact Hrec|]. split; [exact (Hall eq_refl)|].
  destruct (fst out) as [[]|err] eqn:Hfst.
  - left. split; [reflexivity | exact Hend].
  - right. exists err. destruct Hend as (_ & Hlt & Hget). auto.
Qed.

Section size_patterns.
Import conftest.
Implicit Types (k e : string) (s : endpoint_results) (d : EndpointResult).

(** The loop of [test_response_size_patterns] records like a loop
    without [try], and collects the sizes of the responses with status
    200. *)
Lemma size_loop k content_length get n : forall i s sizes,
  discovery_tests.for_range n i
    (fun i (st : endpoint_results * list Z) =>
       match get i with
       | Raise err => (Raise err, st)
       | Ok response =>
           let s := discovery_tests.record_response k discovery_tests.is_ok
                      (status_code response) (elapsed response) (fst st) in
           let sizes :=
             if discovery_tests.is_ok (status_code response)
             then snd st ++ [content_length response] else snd st in
           (Ok discovery_tests.Continue, (s, sizes))
       end) (s, sizes)
  = let plain :=
      discovery_tests.for_range n i
        (request_body k discovery_tests.is_ok (fun _ => false) false
           (fun _ r => elapsed r) get) s in
    (fst plain,
     (snd plain,
      match fst plain with
      | Ok _ => sizes ++ sizes_seen content_length n i get
      | Raise _ =>
          snd (snd (discovery_tests.for_range n i
            (fun i (st : endpoint_results * list Z) =>
               match get i with
               | Raise err => (Raise err, st)
               | Ok response =>
                   let s := discovery_tests.record_response k discovery_tests.is_ok
                              (status_code response) (elapsed response) (fst st) in
                   let sizes :=
                     if discovery_tests.is_ok (status_code response)
                     then snd st ++ [content_length response] else snd st in
                   (Ok discovery_tests.Continue, (s, sizes))
               end) (s, sizes)))
      end)).
Proof.
  induction n as [|n IH]; intros i s sizes.
  - simpl. now rewrite app_nil_r.
  - cbn zeta. destruct (get i) as [r|err] eqn:Eg.
    + rewrite (loop_step_response _ _ _ _ _ _ _ _ _ _ Eg).
      cbn [discovery_tests.for_range sizes_seen]. rewrite Eg. cbn [fst snd].
      rewrite IH. cbn zeta.
      destruct (fst (discovery_tests.for_range n (S i) _ _)) eqn:Hf;
        [|reflexivity].
      do 2 f_equal.
      destruct (discovery_tests.is_ok (status_code r));
        [now rewrite <- app_assoc | reflexivity].
    + rewrite (loop_step_exception _ _ _ _ _ _ _ _ _ _ Eg).
      cbn [discovery_tests.for_range]. rewrite Eg. reflexivity.
Qed.

(** A loop without [try] and [break] ends normally exactly when all its
    requests are answered, and with an exception exactly when that is the
    one of the first request that raises. *)
Lemma plain_escaping get n : forall i,
  match escaping (fun _ => false) false n i get with
  | None => forall j, (i <= j)%nat -> (j < i + n)%nat -> exists r, get j = Ok r
  | Some err =>
      exists m, (m < n)%nat
        /\ (forall j, (i <= j)%nat -> (j < i + m)%nat -> exists r, get j = Ok r)
        /\ get (i + m)%nat = Raise err
  end.
Proof.
  induction n as [|n IH]; intros i; cbn [escaping].
  - intros; lia.
  - destruct (get i) as [r|err] eqn:Eg.
    + specialize (IH (S i)).
      destruct (escaping (fun _ => false) false n (S i) get) as [err|].
      * destruct IH as (m & Hm & Hall & Hget). exists (S m).
        split; [lia|]. split.
        -- intros j Hj1 Hj2. destruct (decide (j = i)) as [->|]; [eauto|].
           apply Hall; lia.
        -- now replace (i + S m)%nat with (S i + m)%nat by lia.
      * intros j Hj1 Hj2. destruct (decide (j = i)) as [->|]; [eauto|].
        apply IH; lia.
    + exists O. split; [lia|]. split; [intros; lia|]. now rewrite Nat.add_0_r.
Qed.

Lemma sizes_seen_nil content_length get n : forall i,
  (forall j, (i <= j)%nat -> (j < i + n)%nat -> exists r, get j = Ok r) ->
  sizes_seen content_length n i get = []
  <-> (forall j r, (i <= j)%nat -> (j < i + n)%nat -> get j = Ok r ->
         status_code r <> 200).
Proof.
  induction n as [|n IH]; intros i Hall; cbn [sizes_seen].
  - split; [intros; lia | reflexivity].
  - destruct (Hall i ltac:(lia) ltac:(lia)) as [r Eg]. rewrite Eg.
    assert (Hall' : forall j, (S i <= j)%nat -> (j < S i + n)%nat ->
                              exists r, get j = Ok r)
      by (intros; apply Hall; lia).
    specialize (IH (S i) Hall').
    unfold discovery_tests.is_ok, constants.HTTP_OK.
    destruct (Z.eqb_spec (status_code r) 200) as [Heq|Hne].
    + split; [discriminate|]. intros Hno. exfalso.
      apply (Hno i r); [lia | lia | exact Eg | exact Heq].
    + cbn [app]. rewrite IH. split.
      * intros Hno j r' Hj1 Hj2 Hget.
        destruct (decide (j = i)) as [->|].
        -- rewrite Eg in Hget. injection Hget as <-. exact Hne.
        -- apply (Hno j r'); [lia | lia | exact Hget].
      * intros Hno j r' Hj1 Hj2 Hget. apply (Hno j r'); [lia | lia | exact Hget].
Qed.
End size_patterns.

(** X9: [test_response_size_patterns] records like a loop without [try]:
    the requests answered before the first exception, and it ends with
    that exception if there is one.  When all 20 requests are answered,
    the test ends with the [IndexError] of [sizes[0]] exactly when none of
    the answers has status 200; the 20 failed tests are recorded all the
    same. *)
Theorem X9_size_test_index_error
    (test_endpoint : string) (content_length : response -> Z)
    (get : nat -> result response) (s : conftest.endpoint_results) :
  let out := discovery_tests.test_response_size_patterns test_endpoint
               content_length get s in
  records_until_exception 20 discovery_tests.is_ok (fun _ r => elapsed r)
    test_endpoint get s
    (match fst out with
     | discovery_tests.RequestRaised err => Raise err
     | _ => Ok tt
     end, snd out)
  /\ (fst out = discovery_tests.SizesIndexError
      <-> forall j, (j < 20)%nat ->
            exists r, get j = Ok r /\ status_code r <> 200)
  /\ (forall err,
        fst out = discovery_tests.RequestRaised err
        <-> exists m, (m < 20)%nat
              /\ (forall j, (j < m)%nat -> exists r, get j = Ok r)
              /\ get m = Raise err).
Proof.
  intros out. subst out. unfold discovery_tests.test_response_size_patterns.
  rewrite size_loop. cbn zeta.
  pose proof (plain_loop_records 20 discovery_tests.is_ok (fun _ r => elapsed r)
                test_endpoint get s) as Hrec.
  destruct (request_loop_trace test_endpoint discovery_tests.is_ok
              (fun _ => false) false (fun _ r => elapsed r) get 20 0 s)
    as (Hfst & _ & _).
  pose proof (plain_escaping get 20 0) as Hesc.
  set (plain := discovery_tests.for_range 20 0 _ s) in *.
  destruct plain as [res s']. cbn [fst snd] in *.
  destruct (escaping (fun _ => false) false 20 0 get) as [err|]; subst res.
  - (* a request raises *)
    cbn [fst snd]. split; [exact Hrec|].
    destruct Hesc as (m & Hm & Hall & Hget). cbn [Nat.add] in *.
    split.
    + split; [discriminate|]. intros Hno.
      destruct (Hno m Hm) as (r & Hr & _). congruence.
    + intros err'. split.
      * intros [= <-]. exists m. split; [exact Hm|]. split; [|exact Hget].
        intros j Hj. apply Hall; lia.
      * intros (m' & Hm' & Hall' & Hget').
        destruct (Nat.lt_trichotomy m m') as [Hlt|[->|Hgt]].
        -- destruct (Hall' m Hlt) as [r Hr]. congruence.
        -- congruence.
        -- destruct (Hall m' ltac:(lia) Hgt) as [r Hr]. congruence.
  - (* all requests are answered *)
    cbn [app].
    assert (Hall : forall j, (0 <= j)%nat -> (j < 0 + 20)%nat ->
                             exists r, get j = Ok r) by exact Hesc.
    pose proof (sizes_seen_nil content_length get 20 0 Hall) as Hnil.
    set (sizes := sizes_seen content_length 20 0 get) in *.
    assert (Hend :
      fst (if (1 <? length (remove_dups sizes))%nat
           then (discovery_tests.SizesReported, s')
           else match sizes with
                | [] => (discovery_tests.SizesIndexError, s')
                | _ :: _ => (discovery_tests.SizesReported, s')
                end) = discovery_tests.SizesIndexError
      <-> sizes = []).
    { destruct sizes as [|x l].
      - simpl. tauto.
      - destruct (1 <? length (remove_dups (x :: l)))%nat;
          split; discriminate. }
    assert (Hsnd : forall b : bool,
      snd (if b then (discovery_tests.SizesReported, s')
           else match sizes with
                | [] => (discovery_tests.SizesIndexError, s')
                | _ :: _ => (discovery_tests.SizesReported, s')
                end) = s')
      by (intros []; [reflexivity | destruct sizes; reflexivity]).
    assert (Hnot : forall (b : bool) err,
      fst (if b then (discovery_tests.SizesReported, s')
           else match sizes with
                | [] => (discovery_tests.SizesIndexError, s')
                | _ :: _ => (discovery_tests.SizesReported, s')
                end) <> discovery_tests.RequestRaised err)
      by (intros [] err; [discriminate | destruct sizes; discriminate]).
    split; [|split].
    + rewrite Hsnd.
      destruct (fst _) eqn:Hf; [exact Hrec | exact Hrec |].
      exfalso. exact (Hnot _ _ Hf).
    + rewrite Hend, Hnil. split.
      * intros Hno j Hj. destruct (Hall j ltac:(lia) ltac:(lia)) as [r Hr].
        exists r. split; [exact Hr|]. apply (Hno j r); [lia | lia | exact Hr].
      * intros Hno j r Hj1 Hj2 Hget.
        destruct (Hno j ltac:(lia)) as (r' & Hr' & Hne). congruence.
    + intros err. split.
      * intros Hf. exfalso. exact (Hnot _ _ Hf).
      * intros (m & Hm & _ & Hget).
        destruct (Hall m ltac:(lia) ltac:(lia)) as [r Hr]. congruence.
Qed.

Section balance.
Import conftest.
Implicit Types (k e : string) (s : endpoint_results) (d : EndpointResult).

Lemma record_result_mutate k r s :
  test_endpoint_1_discovery.record_result k r s
  = mutate k
      (fun d =>
         match r with
         | test_endpoint_1_discovery.Status status time =>
             if (status =? constants.HTTP_OK)%Z
             then grown d [status] [time] 1 0
             else grown d [status] [] 0 1
         | test_endpoint_1_discovery.Error _ => grown d [] [] 0 1
         end) s.
Proof.
  unfold test_endpoint_1_discovery.record_result, record.
  destruct r as [status time|msg]; [destruct (status =? _)%Z|];
    rewrite !mutate_mutate; apply mutate_ext;
    intros [codes times tc pa fa]; unfold grown; simpl;
    rewrite ?app_nil_r; f_equal; lia.
Qed.

Lemma balanced_record_result k r s :
  balanced_results s ->
  balanced_results (test_endpoint_1_discovery.record_result k r s).
Proof.
  intros Hs. rewrite record_result_mutate.
  apply Forall_mutate; [exact Hs | apply balanced_default|].
  intros d Hd. destruct r as [status time|msg]; [destruct (status =? _)%Z|].
  - apply (balanced_grown_response d status time true Hd).
  - revert Hd. unfold balanced, grown; simpl.
    rewrite ?length_app, ?app_nil_r; simpl. lia.
  - now apply balanced_grown_error.
Qed.

Lemma balanced_concurrent k completed : forall s,
  balanced_results s ->
  balanced_results
    (test_endpoint_1_discovery.test_concurrent_requests k completed s).
Proof.
  unfold test_endpoint_1_discovery.test_concurrent_requests.
  induction completed as [|o completed IH]; intros s Hs; simpl; [exact Hs|].
  apply IH. now apply balanced_record_result.
Qed.

Lemma balanced_do_request k i outcome t s :
  balanced_results s ->
  balanced_results (snd (test_concurrent_requests.do_request k i outcome t s)).
Proof.
  intros Hs. unfold test_concurrent_requests.do_request.
  destruct outcome as [resp|err].
  - exact (balanced_record_response k (fun status => (status =? 200)%Z)
             (status_code resp) t s Hs).
  - destruct (is_RequestException err); [|exact Hs].
    exact (balanced_record_error k s Hs).
Qed.

Lemma balanced_run_workers k completed : forall s,
  balanced_results s ->
  balanced_results (snd (performance_tests.run_workers k completed s)).
Proof.
  induction completed as [|[[i outcome] t] completed IH]; intros s Hs;
    cbn [performance_tests.run_workers]; [exact Hs|].
  pose proof (balanced_do_request k i outcome t s Hs) as Hstep.
  destruct (test_concurrent_requests.do_request k i outcome t s) as [r s1].
  specialize (IH s1 Hstep).
  destruct (performance_tests.run_workers k completed s1) as [rs s2].
  exact IH.
Qed.

Lemma balanced_size_patterns k content_length get s :
  balanced_results s ->
  balanced_results
    (snd (discovery_tests.test_response_size_patterns k content_length get s)).
Proof.
  intros Hs. unfold discovery_tests.test_response_size_patterns.
  rewrite size_loop. cbn zeta.
  pose proof (request_loop_balanced k discovery_tests.is_ok (fun _ => false)
                false (fun _ r => elapsed r) get 20 0 s Hs) as Hloop.
  destruct (discovery_tests.for_range 20 0 _ s) as [[[]|err] s'];
    cbn [fst snd] in *; [|exact Hloop].
  destruct (1 <? _)%nat; [exact Hloop|].
  destruct (_ ++ _); exact Hloop.
Qed.

Lemma sum_Z_pointwise {A} (f g : A -> Z) (l : list A) :
  Forall (fun x => 0 <= f x <= g x) l ->
  0 <= sum_Z (map f l) <= sum_Z (map g l).
Proof.
  induction 1 as [|x l Hx Hl IH]; simpl.
  - unfold sum_Z; simpl. lia.
  - rewrite !sum_Z_cons. lia.
Qed.

Lemma success_rate_bounds total_passed total_tests :
  0 <= total_passed <= total_tests ->
  (0 <= success_rate total_passed total_tests)%Q
  /\ (success_rate total_passed total_tests <= 100)%Q.
Proof.
  intros [H0 Hle]. unfold success_rate.
  destruct (Z.ltb_spec 0 total_tests) as [Hpos|Hnpos].
  - assert (Hq : (0 < inject_Z total_tests)%Q)
      by (change 0%Q with (inject_Z 0); now rewrite <- Zlt_Qlt).
    split.
    + apply Qmult_le_0_compat; [|discriminate].
      apply Qle_shift_div_l; [exact Hq|]. rewrite Qmult_0_l.
      change 0%Q with (inject_Z 0). now rewrite <- Zle_Qle.
    + apply Qle_trans with (1 * 100)%Q; [|discriminate].
      apply Qmult_le_compat_r; [|discriminate].
      apply Qle_shift_div_r; [exact Hq|]. rewrite Qmult_1_l.
      now rewrite <- Zle_Qle.
  - split; [apply Qle_refl | discriminate].
Qed.
Lemma after_discovery_test_balanced k answer get clock content_length
    completed s :
  balanced_results s ->
  Forall balanced_results
    (after_discovery_test k answer get clock content_length completed s).
Proof.
  intros Hs.
  unfold after_discovery_test.
  repeat match goal with
  | |- Forall _ [] => constructor
  | |- Forall _ (_ :: _) => constructor
  end.
  - exact (balanced_record_response k discovery_tests.is_ok _ _ s Hs).
  - exact (request_loop_balanced k discovery_tests.is_ok (fun _ => false) false
             (fun i _ => clock i) get 15 0 s Hs).
  - exact (request_loop_balanced k discovery_tests.is_ok (fun _ => false) false
             (fun _ r => elapsed r) get 3 0 s Hs).
  - exact (request_loop_balanced k discovery_tests.is_ok (fun _ => false) false
             (fun _ r => elapsed r) get 10 0 s Hs).
  - exact (request_loop_balanced k discovery_tests.is_ok (fun _ => false) false
             (fun _ r => elapsed r) get 10 0 s Hs).
  - exact (request_loop_balanced k discovery_tests.is_ok (fun _ => false) false
             (fun _ r => elapsed r) get 5 0 s Hs).
  - exact (request_loop_balanced k discovery_tests.is_ok (fun _ => false) false
             (fun i _ => clock i) get 10 0 s Hs).
  - exact (request_loop_balanced k discovery_tests.is_ok
             (fun status => (status =? 429)%Z) true
             (fun _ r => elapsed r) get 100 0 s Hs).
  - exact (balanced_concurrent k completed s Hs).
  - exact (request_loop_balanced k discovery_tests.is_ok (fun _ => false) false
             (fun _ r => elapsed r) get 60 0 s Hs).
  - exact (request_loop_balanced k
             (fun status => discovery_tests.is_ok status || (status =? 400)%Z)
             (fun _ => false) false (fun _ r => elapsed r) get 4 0 s Hs).
  - exact (request_loop_balanced k (fun status => (status =? 401)%Z)
             (fun _ => false) false (fun _ r => elapsed r) get 4 0 s Hs).
  - exact (request_loop_balanced k (fun status => (status =? 401)%Z)
             (fun _ => false) false (fun _ r => elapsed r) get 3 0 s Hs).
  - exact (request_loop_balanced k discovery_tests.is_ok (fun _ => false) true
             (fun _ r => elapsed r) get 4 0 s Hs).
  - exact (request_loop_balanced k discovery_tests.is_ok (fun _ => false) true
             (fun _ r => elapsed r) get 10 0 s Hs).
  - exact (balanced_size_patterns k content_length get s Hs).
  - exact (request_loop_balanced k discovery_tests.is_ok (fun _ => false) false
             (fun i _ => clock i) get 50 0 s Hs).
  - exact (request_loop_balanced k discovery_tests.is_ok
             (fun status => (status =? 429)%Z) false
             (fun _ r => elapsed r) get 200 0 s Hs).
  - exact (request_loop_balanced k discovery_tests.is_ok (fun _ => false) true
             (fun _ r => elapsed r) get 7 0 s Hs).
  - exact (request_loop_balanced k discovery_tests.is_ok (fun _ => false) false
             (fun _ r => elapsed r) get 30 0 s Hs).
  - exact (request_loop_balanced k
             (fun status => (status =? 405)%Z || discovery_tests.is_ok status)
             (fun _ => false) true (fun _ r => elapsed r) get 6 0 s Hs).
  - exact (request_loop_balanced k
             (fun status => discovery_tests.is_ok status || (status =? 401)%Z)
             (fun _ => false) true (fun _ r => elapsed r) get 5 0 s Hs).
Qed.

Lemma balanced_performance_test k limits p95_index finished s :
  balanced_results s ->
  balanced_results
    (snd (performance_tests.test_concurrent_requests k limits p95_index
            finished s)).
Proof.
  intros Hs.
  unfold performance_tests.test_concurrent_requests.
  pose proof (balanced_run_workers k finished s Hs) as Hrun.
  destruct (performance_tests.run_workers k finished s) as [futures s'].
  cbn [snd] in Hrun.
  destruct (performance_tests.drain futures) as [results|err]; [|exact Hrun].
  destruct (Qeq_bool _ 0); [exact Hrun|].
  destruct (default false _); exact Hrun.
Qed.
End balance.

(** X10: The recording tests keep the counters of the aggregator
    balanced.  If in every entry the counted tests are the passed and the
    failed ones together, with no more status codes than counted tests and
    no more times than status codes, then the same holds after each
    recording test of the two discovery modules, after a call of the
    worker [do_request] and after the performance test
    [test_concurrent_requests], whatever their requests return or raise
    and however the tests end. *)
Theorem X10_tests_keep_counters_balanced
    (k : string) (answer : response) (get : nat -> result response)
    (clock : nat -> Q) (content_length : response -> Z)
    (completed : list (result response))
    (i : Z) (outcome : result response) (t : Q)
    (limits : performance_tests.thresholds) (p95_index : nat -> nat)
    (finished : list performance_tests.completion)
    (s : conftest.endpoint_results) :
  balanced_results s ->
  Forall balanced_results
    (after_discovery_test k answer get clock content_length completed s)
  /\ balanced_results
       (snd (test_concurrent_requests.do_request k i outcome t s))
  /\ balanced_results
       (snd (performance_tests.test_concurrent_requests k limits p95_index
               finished s)).
Proof.
  intros Hs. split; [|split].
  - now apply after_discovery_test_balanced.
  - now apply balanced_do_request.
  - now apply balanced_performance_test.
Qed.

(** X10, on the aggregator [scenario.silent_endpoint] and a stress test
    whose requests all time out. *)
Lemma X10_witness :
  balanced_results scenario.silent_endpoint
  /\ balanced_results
       (snd (discovery_tests.test_stress_rapid_fire "/api/test/9"
               (fun _ => Raise (RequestException "timeout"))
               scenario.silent_endpoint)).
Proof.
  assert (Hs : balanced_results scenario.silent_endpoint)
    by (repeat constructor; simpl; lia).
  split; [exact Hs|].
  destruct (X10_tests_keep_counters_balanced "/api/test/9"
              {| status_code := 200; text := "ok"; elapsed := 1 # 10 |}
              (fun _ => Raise (RequestException "timeout"))
              (fun _ => 0%Q) (fun _ => 0) [] 0
              (Raise (RequestException "timeout")) 0%Q
              {| performance_tests.max_avg_response_time := 1;
                 performance_tests.min_success_rate := 1;
                 performance_tests.max_p95_latency := 1;
                 performance_tests.expected_failure := None;
                 performance_tests.needs_warmup := None;
                 performance_tests.warmup_requests := None |}
              (fun n => n) [] scenario.silent_endpoint Hs) as [Hall _].
  unfold after_discovery_test in Hall.
  rewrite !List.Forall_cons_iff in Hall.
  exact (proj1 (proj2 (proj2 (proj2 (proj2 (proj2 (proj2 (proj2 Hall)))))))).
Defined.

Section consistent_summary.
Import conftest.
Context (python : interpreter).
Implicit Types (k e : string) (s : endpoint_results) (d : EndpointResult).

Lemma consistent_block e d :
  balanced d -> Forall consistent_line (endpoint_block python e d).
Proof.
  intros (Hsum & Hp & Hf & _). unfold endpoint_block.
  destruct (verdict _ _) as [[status_icon status_text] stable].
  repeat constructor; assumption.
Qed.

Lemma consistent_blocks s eps :
  balanced_results s ->
  Forall consistent_line
    (flat_map (fun e => endpoint_block python e (view e s)) eps).
Proof.
  intros Hs. induction eps as [|e eps IH]; simpl; [constructor|].
  apply Forall_app. split; [|exact IH].
  apply consistent_block.
  apply (Forall_view balanced e s Hs balanced_default).
Qed.

Lemma balanced_totals s :
  balanced_results s ->
  0 <= sum_Z (map passed (odict.values s))
    <= sum_Z (map test_count (odict.values s)).
Proof.
  intros Hs. apply sum_Z_pointwise. unfold odict.values.
  apply List.Forall_map. eapply List.Forall_impl; [|exact Hs].
  intros [k d] (Hsum & Hp & Hf & _). simpl in *. lia.
Qed.
End consistent_summary.

(** X11: On an aggregator with balanced counters, every line of the
    summary about counters is consistent, however the summary ends: the
    tests of each endpoint block are its passed and its failed ones
    together, the total of passed tests is between 0 and the total of
    tests, and the success rate is between 0 and 100. *)
Theorem X11_summary_of_balanced_results
    (python : interpreter) (s : conftest.endpoint_results) :
  balanced_results s ->
  Forall consistent_line
    (snd (fst (conftest._print_endpoint_discovery_summary python s))).
Proof.
  intros Hs. destruct s as [|kv s0] eqn:Es.
  - simpl. repeat constructor.
  - rewrite <- Es in *. assert (Hne : s <> []) by (rewrite Es; discriminate).
    clear Es.
    destruct (py.sorted_by_key Z.leb (conftest.sort_key python) (odict.keys s))
      as [eps|err] eqn:Hsort.
    + rewrite (summary_completed python s eps Hne Hsort). cbn [fst snd].
      apply Forall_app. split.
      * apply Forall_app. split; [repeat constructor|].
        now apply consistent_blocks.
      * pose proof (balanced_totals s Hs) as Htot.
        pose proof (success_rate_bounds _ _ Htot) as [Hr0 Hr100].
        repeat constructor; assumption || lia.
    + rewrite (summary_Raise python s err Hne Hsort). cbn [fst snd].
      repeat constructor.
Qed.

(** X11, on the aggregator [scenario.silent_endpoint]. *)
Lemma X11_witness :
  balanced_results scenario.silent_endpoint
  /\ Forall consistent_line
       (snd (fst (conftest._print_endpoint_discovery_summary example.python
                    scenario.silent_endpoint))).
Proof.
  assert (Hs : balanced_results scenario.silent_endpoint)
    by (repeat constructor; simpl; lia).
  split; [exact Hs|].
  exact (X11_summary_of_balanced_results example.python
           scenario.silent_endpoint Hs).
Defined.

Section concurrent_totals.
Import conftest.
Implicit Types (k e : string) (s : endpoint_results) (d : EndpointResult).

Lemma view_record_result k r s e :
  view e (test_endpoint_1_discovery.record_result k r s)
  = if decide (e = k)
    then match r with
         | test_endpoint_1_discovery.Status status time =>
             if (status =? constants.HTTP_OK)%Z
             then grown (view k s) [status] [time] 1 0
             else grown (view k s) [status] [] 0 1
         | test_endpoint_1_discovery.Error _ => grown (view k s) [] [] 0 1
         end
    else view e s.
Proof. rewrite record_result_mutate. apply view_mutate. Qed.

End concurrent_totals.

(** X12: After [test_concurrent_requests] of
    [test_endpoint_1_discovery.py] the entry has one more counted test for
    each of the requests, one more status code for each request that was
    answered, in the order of completion, and one more response time and
    passed test for each answer with status 200 only: answers with another
    status add a status code without a time, and requests that raised add
    a failed test and nothing else.  No other entry changes. *)
Theorem X12_concurrent_test_records_times_of_200_only
    (test_endpoint : string) (completed : list (result response))
    (s : conftest.endpoint_results) :
  let s' := test_endpoint_1_discovery.test_concurrent_requests test_endpoint
              completed s in
  let ok_answers :=
    List.filter (fun r => discovery_tests.is_ok (status_code r))
      (answers completed) in
  conftest.view test_endpoint s'
  = grown (conftest.view test_endpoint s)
      (map status_code (answers completed))
      (map elapsed ok_answers)
      (Z.of_nat (length ok_answers))
      (Z.of_nat (length completed) - Z.of_nat (length ok_answers))
  /\ (forall other, other <> test_endpoint ->
        conftest.view other s' = conftest.view other s).
Proof.
  unfold test_endpoint_1_discovery.test_concurrent_requests. revert s.
  induction completed as [|o completed IH]; intros s.
  - simpl. rewrite grown_nothing. auto.
  - cbn [fold_left].
    destruct (IH (test_endpoint_1_discovery.record_result test_endpoint
                    (test_endpoint_1_discovery.make_request o) s))
      as [Hview Hother].
    split.
    + rewrite Hview, view_record_result.
      destruct (decide (test_endpoint = test_endpoint)); [|congruence].
      destruct o as [r|err]; cbn [test_endpoint_1_discovery.make_request answers].
      * cbn [List.filter length]. rewrite Nat2Z.inj_succ.
        change (discovery_tests.is_ok (status_code r))
          with (status_code r =? constants.HTTP_OK)%Z.
        destruct (status_code r =? constants.HTTP_OK)%Z;
          rewrite grown_grown; cbn [map length app];
          rewrite ?Nat2Z.inj_succ; unfold grown; f_equal; lia.
      * rewrite grown_grown. cbn [length app]. rewrite Nat2Z.inj_succ.
        unfold grown; f_equal; lia.
    + intros other Hne. rewrite (Hother other Hne), view_record_result.
      destruct (decide (other = test_endpoint)); congruence.
Qed.

Section performance.
Import conftest.
Implicit Types (k e : string) (s : endpoint_results) (d : EndpointResult)
               (c : performance_tests.completion)
               (completed : list performance_tests.completion).

(** The report of a worker does not depend on the aggregator. *)
Lemma do_request_report k i outcome t s :
  fst (test_concurrent_requests.do_request k i outcome t s)
  = match outcome with
    | Ok resp =>
        Ok {| test_concurrent_requests.i := i;
              test_concurrent_requests.status := status_code resp;
              test_concurrent_requests.time := t;
              test_concurrent_requests.ok := (status_code resp =? 200)%Z;
              test_concurrent_requests.error := None |}
    | Raise err =>
        if is_RequestException err
        then Ok {| test_concurrent_requests.i := i;
                   test_concurrent_requests.status := 0;
                   test_concurrent_requests.time := t;
                   test_concurrent_requests.ok := false;
                   test_concurrent_requests.error := Some (str_of_exn err) |}
        else Raise err
    end.
Proof.
  unfold test_concurrent_requests.do_request.
  destruct outcome as [resp|err]; [reflexivity|].
  destruct (is_RequestException err); reflexivity.
Qed.

Lemma do_request_store k i outcome t s :
  snd (test_concurrent_requests.do_request k i outcome t s)
  = mutate k
      (fun d =>
         match outcome with
         | Ok resp =>
             grown d [status_code resp] [t]
               (if (status_code resp =? 200)%Z then 1 else 0)
               (if (status_code resp =? 200)%Z then 0 else 1)
         | Raise err =>
             if is_RequestException err then grown d [] [] 0 1 else d
         end) s
    \/ (exists err, outcome = Raise err /\ is_RequestException err = false
        /\ snd (test_concurrent_requests.do_request k i outcome t s) = s).
Proof.
  unfold test_concurrent_requests.do_request.
  destruct outcome as [resp|err].
  - left. exact (record_response_mutate k (fun status => (status =? 200)%Z)
                   (status_code resp) t s).
  - destruct (is_RequestException err) eqn:He.
    + left. exact (record_error_mutate k s).
    + right. exists err. auto.
Qed.

Lemma view_do_request k i outcome t s e :
  view e (snd (test_concurrent_requests.do_request k i outcome t s))
  = if decide (e = k)
    then match outcome with
         | Ok resp =>
             grown (view k s) [status_code resp] [t]
               (if (status_code resp =? 200)%Z then 1 else 0)
               (if (status_code resp =? 200)%Z then 0 else 1)
         | Raise err =>
             if is_RequestException err then grown (view k s) [] [] 0 1
             else view k s
         end
    else view e s.
Proof.
  destruct (do_request_store k i outcome t s) as [-> | (err & -> & He & ->)].
  - rewrite view_mutate. destruct (decide (e = k)); reflexivity.
  - rewrite He. destruct (decide (e = k)) as [->|]; reflexivity.
Qed.

Lemma run_workers_cons k i outcome t completed s :
  performance_tests.run_workers k ((i, outcome, t) :: completed) s
  = (fst (test_concurrent_requests.do_request k i outcome t s)
       :: fst (performance_tests.run_workers k completed
                 (snd (test_concurrent_requests.do_request k i outcome t s))),
     snd (performance_tests.run_workers k completed
            (snd (test_concurrent_requests.do_request k i outcome t s)))).
Proof.
  cbn [performance_tests.run_workers].
  destruct (test_concurrent_requests.do_request k i outcome t s) as [r s1].
  cbn [fst snd].
  destruct (performance_tests.run_workers k completed s1) as [rs s2].
  reflexivity.
Qed.

(** All workers record, whatever the futures hold. *)
Lemma run_workers_view k completed : forall s,
  let s' := snd (performance_tests.run_workers k completed s) in
  let answered := List.filter was_answered completed in
  view k s'
  = grown (view k s)
      (map status_of answered)
      (map measured answered)
      (Z.of_nat (length (List.filter succeeded completed)))
      (Z.of_nat (length (List.filter reported_back completed))
       - Z.of_nat (length (List.filter succeeded completed)))
  /\ (forall other, other <> k -> view other s' = view other s).
Proof.
  induction completed as [|[[i outcome] t] completed IH]; intros s.
  - simpl. rewrite grown_nothing. auto.
  - rewrite run_workers_cons. cbn [snd].
    destruct (IH (snd (test_concurrent_requests.do_request k i outcome t s)))
      as [Hview Hother].
    split.
    + rewrite Hview, view_do_request.
      destruct (decide (k = k)); [|congruence].
      cbn [List.filter was_answered succeeded reported_back].
      destruct outcome as [resp|err].
      * cbn [map status_of measured snd length]. rewrite !Nat2Z.inj_succ.
        destruct (status_code resp =? 200)%Z;
          rewrite grown_grown; cbn [length app];
          rewrite ?Nat2Z.inj_succ; unfold grown; f_equal; lia.
      * destruct (is_RequestException err); [|reflexivity].
        rewrite grown_grown. cbn [length app]. rewrite Nat2Z.inj_succ.
        unfold grown; f_equal; lia.
    + intros other Hne. rewrite (Hother other Hne), view_do_request.
      destruct (decide (other = k)); congruence.
Qed.

(** What the futures hold. *)
Lemma run_workers_futures k completed : forall s,
  fst (performance_tests.run_workers k completed s)
  = map (fun c => fst (test_concurrent_requests.do_request k (fst (fst c))
                         (snd (fst c)) (snd c) s)) completed.
Proof.
  induction completed as [|[[i outcome] t] completed IH]; intros s.
  - reflexivity.
  - rewrite run_workers_cons. cbn [fst snd map]. f_equal.
    rewrite IH. apply map_ext. intros [[i' outcome'] t']. cbn [fst snd].
    now rewrite !do_request_report.
Qed.

(** Draining the futures: the reports of all of them, or the exception
    of the first future that holds one. *)
Lemma drain_futures k completed s :
  match performance_tests.drain (fst (performance_tests.run_workers k completed s)) with
  | Ok results =>
      forallb reported_back completed = true
      /\ map test_concurrent_requests.ok results = map succeeded completed
      /\ map test_concurrent_requests.time results = map measured completed
  | Raise err =>
      exists before after i t,
        completed = before ++ (i, Raise err, t) :: after
        /\ forallb reported_back before = true
        /\ is_RequestException err = false
  end.
Proof.
  rewrite run_workers_futures.
  induction completed as [|[[i outcome] t] completed IH].
  - simpl. auto.
  - cbn [map fst snd performance_tests.drain]. rewrite do_request_report.
    destruct outcome as [resp|err].
    + destruct (performance_tests.drain _) as [results|err'].
      * destruct IH as (Hall & Hok & Htime). cbn [forallb reported_back map].
        split; [exact Hall|]. split; f_equal; assumption.
      * destruct IH as (before & after & i' & t' & -> & Hall & He).
        exists ((i, Ok resp, t) :: before), after, i', t'. auto.
    + destruct (is_RequestException err) eqn:Herr.
      * destruct (performance_tests.drain _) as [results|err'].
        -- destruct IH as (Hall & Hok & Htime).
           cbn [forallb reported_back map]. rewrite Herr.
           split; [exact Hall|]. split; f_equal; assumption.
        -- destruct IH as (before & after & i' & t' & -> & Hall & He).
           exists ((i, Raise err, t) :: before), after, i', t'.
           split; [reflexivity|]. split; [|exact He].
           cbn [forallb reported_back]. now rewrite Herr.
      * exists [], completed, i, t. auto.
Qed.

Lemma filter_length_map {A B} (f : A -> bool) (g : B -> bool)
    (l : list A) : forall l' : list B,
  map f l = map g l' ->
  length (List.filter f l) = length (List.filter g l').
Proof.
  induction l as [|x l IH]; intros [|y l'] Heq; try discriminate;
    [reflexivity|].
  cbn [map] in Heq. injection Heq as Hxy Hrest.
  cbn [List.filter]. rewrite Hxy. destruct (g y); cbn [length];
    rewrite (IH l' Hrest); reflexivity.
Qed.

Lemma filter_map_times {A B} (f : A -> bool) (g : B -> bool)
    (tf : A -> Q) (tg : B -> Q) (l : list A) : forall l' : list B,
  map f l = map g l' -> map tf l = map tg l' ->
  map tf (List.filter f l) = map tg (List.filter g l').
Proof.
  induction l as [|x l IH]; intros [|y l'] Heq Ht; try discriminate;
    [reflexivity|].
  cbn [map] in Heq, Ht. injection Heq as Hxy Hrest. injection Ht as Ht Htrest.
  cbn [List.filter]. rewrite Hxy. destruct (g y); cbn [map];
    rewrite (IH l' Hrest Htrest); congruence.
Qed.

Lemma success_rate_zero (n : nat) :
  Qeq_bool (inject_Z (Z.of_nat n) / inject_Z (Z.of_nat performance_tests.total_requests)) 0
  = true <-> n = O.
Proof.
  rewrite Qeq_bool_iff. unfold Qeq, Qdiv, Qmult, Qinv; simpl. lia.
Qed.

Lemma max_from_spec times : forall best,
  (In (performance_tests.max_from best times) (best :: times))
  /\ (best <= performance_tests.max_from best times)%Q
  /\ (forall t, In t times -> (t <= performance_tests.max_from best times)%Q).
Proof.
  induction times as [|x times IH]; intros best; cbn [performance_tests.max_from].
  - split; [now left|]. split; [apply Qle_refl | intros t []].
  - destruct (Qle_bool x best) eqn:Hle.
    + destruct (IH best) as (Hin & Hbest & Hall).
      split; [destruct Hin as [<-|Hin]; [now left | right; now right]|].
      split; [exact Hbest|].
      intros t [<-|Ht]; [|now apply Hall].
      apply Qle_bool_iff in Hle. eapply Qle_trans; eassumption.
    + destruct (IH x) as (Hin & Hbest & Hall).
      split; [right; exact Hin|].
      assert (Hlt : (best <= x)%Q).
      { destruct (Qlt_le_dec best x) as [Hlt|Hge]; [now apply Qlt_le_weak|].
        apply Qle_bool_iff in Hge. congruence. }
      split; [eapply Qle_trans; eassumption|].
      intros t [<-|Ht]; [exact Hbest | now apply Hall].
Qed.

Lemma fold_Qplus_le (times : list Q) (bound : Q) : forall acc,
  (forall t, In t times -> (t <= bound)%Q) ->
  (fold_left Qplus times acc
   <= acc + inject_Z (Z.of_nat (length times)) * bound)%Q.
Proof.
  induction times as [|x times IH]; intros acc Hall.
  - simpl. rewrite Qmult_0_l, Qplus_0_r. apply Qle_refl.
  - cbn [fold_left length]. rewrite Nat2Z.inj_succ.
    eapply Qle_trans; [apply IH; intros t Ht; apply Hall; now right|].
    unfold Z.succ. rewrite inject_Z_plus.
    assert (Hx : (x <= bound)%Q) by (apply Hall; now left).
    apply Qle_trans
      with (acc + bound + inject_Z (Z.of_nat (length times)) * bound)%Q.
    + apply Qplus_le_compat; [|apply Qle_refl].
      apply Qplus_le_compat; [apply Qle_refl | exact Hx].
    + apply Qle_lteq. right. ring.
Qed.

Lemma mean_le_bound (times : list Q) (bound : Q) :
  times <> [] ->
  (forall t, In t times -> (t <= bound)%Q) ->
  (performance_tests.mean times <= bound)%Q.
Proof.
  intros Hne Hall. unfold performance_tests.mean.
  assert (Hpos : (0 < inject_Z (Z.of_nat (length times)))%Q).
  { change 0%Q with (inject_Z 0). rewrite <- Zlt_Qlt.
    destruct times; [congruence | simpl; lia]. }
  apply Qle_shift_div_r; [exact Hpos|].
  eapply Qle_trans; [apply fold_Qplus_le; exact Hall|].
  rewrite Qplus_0_l, Qmult_comm. apply Qle_refl.
Qed.
End performance.

Section performance_test.
Import conftest.
Implicit Types (k e : string) (s : endpoint_results) (d : EndpointResult)
               (completed : list performance_tests.completion).

(** The test, by what the drained futures give. *)
Lemma performance_test_unfold k limits p95_index completed s :
  performance_tests.test_concurrent_requests k limits p95_index completed s
  = (match performance_tests.drain
             (fst (performance_tests.run_workers k completed s)) with
     | Raise err => performance_tests.Raised err
     | Ok results =>
         let m := performance_tests.compute_metrics p95_index results in
         if Qeq_bool (performance_tests.success_rate m) 0
         then performance_tests.Failed
         else if default false (performance_tests.expected_failure limits)
              then performance_tests.XFailed
              else performance_tests.ReachesAssertions m
     end,
     snd (performance_tests.run_workers k completed s)).
Proof.
  unfold performance_tests.test_concurrent_requests.
  destruct (performance_tests.run_workers k completed s) as [futures s'].
  cbn [fst snd].
  destruct (performance_tests.drain futures) as [results|err]; [|reflexivity].
  cbn zeta. destruct (Qeq_bool _ 0); [reflexivity|].
  destruct (default false _); reflexivity.
Qed.

Lemma metrics_success_rate_zero p95_index results :
  Qeq_bool (performance_tests.success_rate
              (performance_tests.compute_metrics p95_index results)) 0 = true
  <-> List.filter test_concurrent_requests.ok results = [].
Proof.
  unfold performance_tests.compute_metrics. cbn [performance_tests.success_rate].
  change (0 <? performance_tests.total_requests)%nat with true. cbn iota.
  rewrite success_rate_zero. apply length_zero_iff_nil.
Qed.

Lemma filter_nil_map {A B} (f : A -> bool) (g : B -> bool) (l : list A)
    (l' : list B) :
  map f l = map g l' -> List.filter f l = [] <-> List.filter g l' = [].
Proof.
  intros Heq. rewrite <- !length_zero_iff_nil.
  now rewrite (filter_length_map f g l l' Heq).
Qed.

Lemma drain_first_exception k before i err t after s :
  forallb reported_back before = true ->
  is_RequestException err = false ->
  performance_tests.drain
    (fst (performance_tests.run_workers k (before ++ (i, Raise err, t) :: after) s))
  = Raise err.
Proof.
  intros Hall He. rewrite run_workers_futures.
  induction before as [|[[i' outcome'] t'] before IH].
  - cbn [app map fst snd performance_tests.drain]. rewrite do_request_report.
    now rewrite He.
  - cbn [forallb reported_back] in Hall. apply andb_prop in Hall as [Hc Hall].
    cbn [app map fst snd performance_tests.drain]. rewrite do_request_report.
    rewrite (IH Hall).
    destruct outcome' as [resp|err']; [reflexivity|]. now rewrite Hc.
Qed.
End performance_test.

(** X13: How the performance test [test_concurrent_requests] ends when
    every future holds a report.  It is failed exactly when no request
    was answered with status 200, also for an endpoint that is flagged as
    an expected failure; it is marked as an expected failure exactly when
    some request was answered with 200 and the endpoint is flagged; and it
    reaches its threshold assertions exactly when some request was
    answered with 200 and the endpoint is not flagged. *)
Theorem X13_performance_test_verdict
    (endpoint_path : string) (limits : performance_tests.thresholds)
    (p95_index : nat -> nat) (completed : list performance_tests.completion)
    (s : conftest.endpoint_results) :
  forallb reported_back completed = true ->
  let out := performance_tests.test_concurrent_requests endpoint_path limits
               p95_index completed s in
  let successes := List.filter succeeded completed in
  (fst out = performance_tests.Failed <-> successes = [])
  /\ (fst out = performance_tests.XFailed
      <-> successes <> []
          /\ performance_tests.expected_failure limits = Some true)
  /\ ((exists m, fst out = performance_tests.ReachesAssertions m)
      <-> successes <> []
          /\ performance_tests.expected_failure limits <> Some true).
Proof.
  intros Hall out successes. subst out successes.
  rewrite performance_test_unfold. cbn [fst].
  pose proof (drain_futures endpoint_path completed s) as Hdrain.
  destruct (performance_tests.drain _) as [results|err].
  - destruct Hdrain as (_ & Hok & _). cbn zeta.
    pose proof (metrics_success_rate_zero p95_index results) as Hzero.
    rewrite (filter_nil_map _ succeeded results completed Hok) in Hzero.
    destruct (Qeq_bool _ 0) eqn:Hq.
    + assert (Hnil : List.filter succeeded completed = [])
        by (now apply Hzero).
      split; [tauto|]. split.
      * split; [discriminate|]. intros [Hne _]. contradiction.
      * split; [intros [m Hm]; discriminate|]. intros [Hne _]. contradiction.
    + assert (Hne : List.filter succeeded completed <> []).
      { intros Hnil. apply Hzero in Hnil. congruence. }
      destruct (performance_tests.expected_failure limits) as [[|]|];
        cbn [default].
      * split; [split; [discriminate | contradiction]|].
        split; [tauto|].
        split; [intros [m Hm]; discriminate|]. intros [_ Hn]. congruence.
      * split; [split; [discriminate | contradiction]|].
        split; [split; [discriminate | intros [_ Hn]; discriminate]|].
        split; [intros _; split; [exact Hne | discriminate]|].
        intros _. eexists. reflexivity.
      * split; [split; [discriminate | contradiction]|].
        split; [split; [discriminate | intros [_ Hn]; discriminate]|].
        split; [intros _; split; [exact Hne | discriminate]|].
        intros _. eexists. reflexivity.
  - destruct Hdrain as (before & after & i & t & -> & _ & He).
    rewrite forallb_app in Hall. apply andb_prop in Hall as [_ Hall].
    cbn [forallb reported_back] in Hall. rewrite He in Hall. discriminate.
Qed.

(** X13, on ten requests that are all answered with status 503, for an
    endpoint flagged as an expected failure: the test is failed. *)
Lemma X13_witness :
  forallb reported_back scenario.all_unavailable = true
  /\ fst (performance_tests.test_concurrent_requests "/api/test/2"
            scenario.flagged (fun n => n) scenario.all_unavailable
            conftest.initial_results)
     = performance_tests.Failed.
Proof.
  split; [reflexivity|].
  apply (X13_performance_test_verdict "/api/test/2" scenario.flagged
           (fun n => n) scenario.all_unavailable conftest.initial_results
           eq_refl).
  reflexivity.
Defined.

(** X14: The performance test ends with an exception out of
    [fut.result()] exactly when some request raised an exception that is
    not a [RequestException]: it is the exception of the first such future
    in the order of completion. *)
Theorem X14_performance_test_uncaught_exception
    (endpoint_path : string) (limits : performance_tests.thresholds)
    (p95_index : nat -> nat) (completed : list performance_tests.completion)
    (s : conftest.endpoint_results) (err : exn) :
  fst (performance_tests.test_concurrent_requests endpoint_path limits
         p95_index completed s)
  = performance_tests.Raised err
  <-> exists before after i t,
        completed = before ++ (i, Raise err, t) :: after
        /\ forallb reported_back before = true
        /\ is_RequestException err = false.
Proof.
  rewrite performance_test_unfold. cbn [fst]. split.
  - pose proof (drain_futures endpoint_path completed s) as Hdrain.
    destruct (performance_tests.drain _) as [results|err'].
    + cbn zeta. destruct (Qeq_bool _ 0); [discriminate|].
      destruct (default false _); discriminate.
    + intros [= <-]. exact Hdrain.
  - intros (before & after & i & t & -> & Hall & He).
    match goal with
    | |- match ?drained with _ => _ end = _ =>
        replace drained with (@Raise (list test_concurrent_requests.request_report) err)
          by (symmetry; exact (drain_first_exception endpoint_path before i err
                                 t after s Hall He))
    end.
    reflexivity.
Qed.

(** X15: Every worker of the performance test records, however the test
    ends.  The entry gets, at the end of its lists and in some order, the
    status code and the measured time of each request that was answered;
    it gets a passed test for each answer with status 200, a failed test
    for each other answer and each [RequestException], and a request that
    raised another exception is not counted.  When the test reaches its
    assertions, its metrics agree with the aggregator: the successes are
    the new passed tests, successes and errors together are the new
    counted tests, and the response times of the metrics are the measured
    times of the successes, in the order of completion. *)
Theorem X15_performance_test_records_all_workers
    (endpoint_path : string) (limits : performance_tests.thresholds)
    (p95_index : nat -> nat) (completed : list performance_tests.completion)
    (s : conftest.endpoint_results) :
  let out := performance_tests.test_concurrent_requests endpoint_path limits
               p95_index completed s in
  let d := conftest.view endpoint_path s in
  let d' := conftest.view endpoint_path (snd out) in
  let answered := List.filter was_answered completed in
  let successes := Z.of_nat (length (List.filter succeeded completed)) in
  let reports := Z.of_nat (length (List.filter reported_back completed)) in
  (exists codes times,
     conftest.status_codes d' = conftest.status_codes d ++ codes
     /\ Permutation codes (map status_of answered)
     /\ conftest.response_times d' = conftest.response_times d ++ times
     /\ Permutation times (map measured answered))
  /\ conftest.passed d' = conftest.passed d + successes
  /\ conftest.failed d' = conftest.failed d + (reports - successes)
  /\ conftest.test_count d' = conftest.test_count d + reports
  /\ (forall other, other <> endpoint_path ->
        conftest.view other (snd out) = conftest.view other s)
  /\ (forall m, fst out = performance_tests.ReachesAssertions m ->
        conftest.passed d'
        = conftest.passed d + Z.of_nat (performance_tests.success_count m)
        /\ conftest.test_count d'
           = conftest.test_count d
             + Z.of_nat (performance_tests.success_count m
                         + performance_tests.error_count m)
        /\ performance_tests.response_times m
           = map measured (List.filter succeeded completed)).
Proof.
  intros out d d' answered successes reports.
  subst out d d' answered successes reports.
  rewrite performance_test_unfold. cbn [fst snd].
  destruct (run_workers_view endpoint_path completed s) as [Hview Hother].
  split; [|split; [|split; [|split; [|split]]]].
  - exists (map status_of (List.filter was_answered completed)),
           (map measured (List.filter was_answered completed)).
    rewrite Hview. unfold grown. cbn [conftest.status_codes conftest.response_times].
    split; [reflexivity|]. split; [reflexivity|]. split; reflexivity.
  - rewrite Hview. reflexivity.
  - rewrite Hview. reflexivity.
  - rewrite Hview. unfold grown. cbn [conftest.test_count]. lia.
  - exact Hother.
  - intros m Hm.
    pose proof (drain_futures endpoint_path completed s) as Hdrain.
    destruct (performance_tests.drain _) as [results|err]; [|discriminate].
    destruct Hdrain as (Hall & Hok & Htime). cbn zeta in Hm.
    destruct (Qeq_bool _ 0); [discriminate|].
    destruct (default false _); [discriminate|].
    injection Hm as <-.
    unfold performance_tests.compute_metrics.
    cbn [performance_tests.success_count performance_tests.error_count
         performance_tests.response_times].
    rewrite (filter_length_map _ succeeded results completed Hok).
    rewrite (filter_map_times _ succeeded test_concurrent_requests.time measured
               results completed Hok Htime).
    assert (Hlen : length results = length completed).
    { rewrite <- (length_map test_concurrent_requests.ok results), Hok.
      apply length_map. }
    assert (Hle : (length (List.filter succeeded completed) <= length completed)%nat)
      by apply List.filter_length_le.
    assert (Hrep : List.filter reported_back completed = completed).
    { clear -Hall. induction completed as [|c completed IH]; [reflexivity|].
      cbn [forallb] in Hall. apply andb_prop in Hall as [Hc Hall].
      cbn [List.filter]. rewrite Hc. f_equal. now apply IH. }
    rewrite Hview, Hlen. unfold grown; cbn [conftest.passed conftest.test_count].
    rewrite Hrep. split; [reflexivity|]. split; [lia | reflexivity].
Qed.

Section p95.
Import conftest.

Lemma p95_short index times :
  (length times < 20)%nat ->
  performance_tests.p95 index times
  = match times with
    | [] => Some 0%Q
    | t :: rest => Some (performance_tests.max_from t rest)
    end.
Proof.
  intros Hlen. unfold performance_tests.p95.
  destruct (Nat.leb_spec 20 (length times)); [lia | reflexivity].
Qed.

Lemma metrics_index_irrelevant index index' results :
  (length results < 20)%nat ->
  performance_tests.compute_metrics index results
  = performance_tests.compute_metrics index' results.
Proof.
  intros Hlen. unfold performance_tests.compute_metrics.
  assert (Htimes :
    (length (map test_concurrent_requests.time
               (List.filter test_concurrent_requests.ok results)) < 20)%nat).
  { rewrite length_map.
    pose proof (List.filter_length_le test_concurrent_requests.ok results). lia. }
  now rewrite !(p95_short _ _ Htimes).
Qed.

Lemma drained_length k completed s results :
  performance_tests.drain (fst (performance_tests.run_workers k completed s))
  = Ok results ->
  length results = length completed.
Proof.
  intros Hd. pose proof (drain_futures k completed s) as Hdrain.
  rewrite Hd in Hdrain. destruct Hdrain as (_ & Hok & _).
  rewrite <- (length_map test_concurrent_requests.ok results), Hok.
  apply length_map.
Qed.
End p95.

(** X16: With fewer than 20 futures the reported P95 latency of the
    performance test is the largest of the response times of the
    successes: the index [int(len * 0.95)] is never used, no [IndexError]
    can occur, and the P95 latency is not below any response time nor
    below the average response time. *)
Theorem X16_p95_is_the_maximum
    (endpoint_path : string) (limits : performance_tests.thresholds)
    (p95_index : nat -> nat) (completed : list performance_tests.completion)
    (s : conftest.endpoint_results) (m : performance_tests.metrics) :
  (length completed < 20)%nat ->
  fst (performance_tests.test_concurrent_requests endpoint_path limits
         p95_index completed s)
  = performance_tests.ReachesAssertions m ->
  (forall other_index,
     performance_tests.test_concurrent_requests endpoint_path limits
       other_index completed s
     = performance_tests.test_concurrent_requests endpoint_path limits
         p95_index completed s)
  /\ exists p95,
       performance_tests.p95_latency m = Some p95
       /\ In p95 (performance_tests.response_times m)
       /\ (forall t, In t (performance_tests.response_times m) -> (t <= p95)%Q)
       /\ (performance_tests.avg_response_time m <= p95)%Q.
Proof.
  intros Hlen Hm. split.
  - intros other_index. rewrite !performance_test_unfold. f_equal.
    destruct (performance_tests.drain _) as [results|err] eqn:Hd;
      [|reflexivity].
    pose proof (drained_length endpoint_path completed s results Hd) as Hres.
    cbn zeta.
    now rewrite (metrics_index_irrelevant other_index p95_index results)
      by (rewrite Hres; exact Hlen).
  - rewrite performance_test_unfold in Hm. cbn [fst] in Hm.
    destruct (performance_tests.drain _) as [results|err] eqn:Hd;
      [|discriminate].
    pose proof (drained_length endpoint_path completed s results Hd) as Hres.
    cbn zeta in Hm.
    pose proof (metrics_success_rate_zero p95_index results) as Hzero.
    destruct (Qeq_bool _ 0) eqn:Hq; [discriminate|].
    destruct (default false _); [discriminate|].
    injection Hm as <-.
    unfold performance_tests.compute_metrics.
    cbn [performance_tests.p95_latency performance_tests.response_times
         performance_tests.avg_response_time].
    set (times := map test_concurrent_requests.time
                    (List.filter test_concurrent_requests.ok results)).
    assert (Htimes : (length times < 20)%nat).
    { unfold times. rewrite length_map.
      pose proof (List.filter_length_le test_concurrent_requests.ok results).
      lia. }
    rewrite (p95_short p95_index times Htimes).
    destruct times as [|t rest] eqn:Et.
    + exfalso. unfold times in Et. apply map_eq_nil in Et.
      apply Hzero in Et. congruence.
    + destruct (max_from_spec rest t) as (Hin & Hbest & Hall).
      exists (performance_tests.max_from t rest).
      split; [reflexivity|]. split; [exact Hin|].
      assert (Hbound : forall x, In x (t :: rest) ->
                (x <= performance_tests.max_from t rest)%Q)
        by (intros x [<-|Hx]; [exact Hbest | now apply Hall]).
      split; [exact Hbound|].
      apply mean_le_bound; [discriminate | exact Hbound].
Qed.

(** X16, on ten requests answered with status 200, nine after 0.2 s and
    one after 0.5 s: the P95 latency is 0.5 s. *)
Lemma X16_witness :
  (length scenario.mostly_fast < 20)%nat
  /\ exists m,
       fst (performance_tests.test_concurrent_requests "/api/test/1"
              scenario.strict (fun n => n) scenario.mostly_fast
              conftest.initial_results)
       = performance_tests.ReachesAssertions m
       /\ performance_tests.p95_latency m = Some (5 # 10)
       /\ (performance_tests.avg_response_time m <= 5 # 10)%Q.
Proof.
  assert (Hlen : (length scenario.mostly_fast < 20)%nat) by (simpl; lia).
  split; [exact Hlen|].
  eexists. split; [reflexivity|].
  destruct (X16_p95_is_the_maximum "/api/test/1" scenario.strict (fun n => n)
              scenario.mostly_fast conftest.initial_results _ Hlen eq_refl)
    as (_ & p95 & Hp95 & _ & _ & Havg).
  split; [reflexivity|].
  injection Hp95 as <-. exact Havg.
Defined.

(** ** More on [SchemaManager] *)

Section schema_more.
Import schema_manager.
Context (OPENAPI_YAML_ENDPOINT : string) (SCHEMA_DOWNLOAD_TIMEOUT : Q)
        (SSL_VERIFY : bool).
Context {pyobj : Type}
        (yaml_safe_load : string -> result pyobj)
        (json_dump : pyobj -> string * option exn)
        (json_load : string -> result json).
Implicit Types (self : SchemaManager) (w : world).

Local Abbreviation schema_request :=
  (schema_manager.schema_request OPENAPI_YAML_ENDPOINT SCHEMA_DOWNLOAD_TIMEOUT SSL_VERIFY).
Local Abbreviation download_schema :=
  (schema_manager.download_schema OPENAPI_YAML_ENDPOINT SCHEMA_DOWNLOAD_TIMEOUT
     SSL_VERIFY yaml_safe_load json_dump).
Local Abbreviation get_schema :=
  (schema_manager.get_schema OPENAPI_YAML_ENDPOINT SCHEMA_DOWNLOAD_TIMEOUT
     SSL_VERIFY yaml_safe_load json_dump json_load).

Lemma not_cached_or_forced self force w :
  files w !! schema_file self = None \/ force = true ->
  bool_decide (is_Some (files w !! schema_file self)) && negb force = false.
Proof.
  intros [Hc| ->]; [now rewrite (cached_false _ _ Hc) | apply andb_false_r].
Qed.

Lemma download_schema_dump_fails self force w resp schema written e :
  files w !! schema_file self = None \/ force = true ->
  server w (schema_request self) = Ok resp ->
  is_error_status (status_code resp) = false ->
  yaml_safe_load (text resp) = Ok schema ->
  json_dump schema = (written, Some e) ->
  fst (download_schema self force w) = Raise e
  /\ files (snd (download_schema self force w))
     = <[schema_file self := written]> (files w)
  /\ sent (snd (download_schema self force w)) = sent w ++ [schema_request self].
Proof.
  intros Hc Hs Hst Hy Hd.
  unfold schema_manager.download_schema, dump_to_file, raise_for_status.
  run_world. rewrite (not_cached_or_forced _ _ _ Hc).
  simpl. rewrite Hs. simpl. unfold is_error_status in Hst. rewrite Hst. simpl.
  rewrite Hy. simpl. rewrite Hd. simpl.
  destruct (is_RequestException e); auto.
Qed.

(** A download that returns has left a file. *)
Lemma download_schema_Ok_file self force w p :
  fst (download_schema self force w) = Ok p ->
  p = schema_file self
  /\ exists written, files (snd (download_schema self force w)) !! schema_file self
                     = Some written.
Proof.
  unfold schema_manager.download_schema, dump_to_file, raise_for_status.
  run_world.
  destruct (bool_decide (is_Some (files w !! schema_file self))) eqn:Hc;
    [destruct force|]; simpl.
  2: { intros [= <-]. split; [reflexivity|].
       apply bool_decide_eq_true in Hc. destruct Hc as [c Hc]. eauto. }
  all: destruct (server w _) as [resp|e]; simpl;
    [|destruct (is_RequestException e); discriminate].
  all: destruct ((400 <=? status_code resp)%Z && (status_code resp <? 600)%Z);
    simpl; [discriminate|].
  all: destruct (yaml_safe_load (text resp)) as [schema|e]; simpl;
    [|destruct (is_RequestException e); discriminate].
  all: destruct (json_dump schema) as [written [e|]]; simpl;
    [destruct (is_RequestException e); discriminate|].
  all: intros [= <-]; split; [reflexivity|]; exists written;
    apply lookup_insert_eq.
Qed.

(** Without a cached file, [get_schema] is a download and then a read. *)
Lemma get_schema_uncached self w :
  files w !! schema_file self = None ->
  get_schema self w
  = match download_schema self false w with
    | (Raise e, w') => (Raise e, w')
    | (Ok _, w') =>
        match files w' !! schema_file self with
        | Some content => (json_load content, w')
        | None => (Raise FileNotFoundError, w')
        end
    end.
Proof.
  intros Hc. unfold schema_manager.get_schema.
  unfold mbind at 1, M_bind at 1, file_exists at 1.
  rewrite (cached_false _ _ Hc). cbn [negb].
  unfold mbind at 1, M_bind at 1. unfold mbind at 1, M_bind at 1.
  destruct (schema_manager.download_schema _ _ _ _ _ self false w)
    as [[p|e] w']; [|reflexivity].
  unfold mret, M_ret. unfold mbind, M_bind, read_file, lift.
  destruct (files w' !! schema_file self) as [content|]; [|reflexivity].
  now destruct (json_load content).
Qed.
End schema_more.

(** X17: A download that is interrupted while the schema is dumped
    leaves a broken cache behind.  When the answer of the service passes
    the status check and parses as YAML, but [json.dump] raises after
    having written a part of the text (an object that JSON cannot encode),
    [download_schema] raises that exception and the schema file holds the
    part that was written.  From then on [download_schema()] takes this
    file for the cached schema and returns its path without any request,
    and [get_schema] parses the partial text, also without any request. *)
Theorem X17_interrupted_dump_is_taken_for_the_cache
    (OPENAPI_YAML_ENDPOINT : string) (SCHEMA_DOWNLOAD_TIMEOUT : Q) (SSL_VERIFY : bool)
    {pyobj : Type} (yaml_safe_load : string -> result pyobj)
    (json_dump : pyobj -> string * option exn)
    (json_load : string -> result json)
    (self : schema_manager.SchemaManager) (force : bool) (w : world)
    (resp : response) (schema : pyobj) (written : string) (e : exn) :
  let get := schema_manager.schema_request OPENAPI_YAML_ENDPOINT
               SCHEMA_DOWNLOAD_TIMEOUT SSL_VERIFY self in
  let out := schema_manager.download_schema OPENAPI_YAML_ENDPOINT
               SCHEMA_DOWNLOAD_TIMEOUT SSL_VERIFY yaml_safe_load json_dump
               self force w in
  let again := schema_manager.download_schema OPENAPI_YAML_ENDPOINT
                 SCHEMA_DOWNLOAD_TIMEOUT SSL_VERIFY yaml_safe_load json_dump
                 self false (snd out) in
  files w !! schema_manager.schema_file self = None \/ force = true ->
  server w get = Ok resp ->
  is_error_status (status_code resp) = false ->
  yaml_safe_load (text resp) = Ok schema ->
  json_dump schema = (written, Some e) ->
  fst out = Raise e
  /\ files (snd out) = <[schema_manager.schema_file self := written]> (files w)
  /\ fst again = Ok (schema_manager.schema_file self)
  /\ sent (snd again) = sent (snd out)
  /\ files (snd again) = files (snd out)
  /\ schema_manager.get_schema OPENAPI_YAML_ENDPOINT SCHEMA_DOWNLOAD_TIMEOUT
       SSL_VERIFY yaml_safe_load json_dump json_load self (snd out)
     = (json_load written, snd out).
Proof.
  intros get out again Hc Hs Hst Hy Hd. subst get out again.
  destruct (download_schema_dump_fails _ _ _ yaml_safe_load json_dump self force w
              resp schema written e Hc Hs Hst Hy Hd) as (Hfst & Hfiles & _).
  assert (Hcached :
    files (snd (schema_manager.download_schema OPENAPI_YAML_ENDPOINT
                  SCHEMA_DOWNLOAD_TIMEOUT SSL_VERIFY yaml_safe_load json_dump
                  self force w))
      !! schema_manager.schema_file self = Some written)
    by (rewrite Hfiles; apply lookup_insert_eq).
  split; [exact Hfst|]. split; [exact Hfiles|].
  rewrite (download_schema_cached _ _ _ yaml_safe_load json_dump self _ written
             Hcached).
  cbn [fst snd files sent].
  split; [reflexivity|]. split; [reflexivity|]. split; [reflexivity|].
  apply get_schema_cached. exact Hcached.
Qed.

(** X17, on a service whose document has a date that stops the JSON
    encoder. *)
Lemma X17_witness :
  fst (schema_manager.download_schema "/openapi.yaml" 30 true
         scenario.yaml_with_date scenario.json_dump_stops example.manager false
         example.serving)
  = Raise TypeError
  /\ fst (schema_manager.download_schema "/openapi.yaml" 30 true
            scenario.yaml_with_date scenario.json_dump_stops example.manager false
            (snd (schema_manager.download_schema "/openapi.yaml" 30 true
                    scenario.yaml_with_date scenario.json_dump_stops
                    example.manager false example.serving)))
     = Ok "data/schemas/openapi_schema.json".
Proof.
  destruct (X17_interrupted_dump_is_taken_for_the_cache "/openapi.yaml" 30 true
              scenario.yaml_with_date scenario.json_dump_stops example.json_load
              example.manager false example.serving
              {| status_code := 200; text := "paths: {}"; elapsed := 1 # 10 |}
              (JObj {[ "paths" := JObj ∅ ]}) "{ paths: {}, released: " TypeError
              (or_introl eq_refl) eq_refl eq_refl eq_refl eq_refl)
    as (Hfst & _ & Hagain & _).
  split; [exact Hfst | exact Hagain].
Defined.

(** X18: Without a cached schema file, [get_schema] is one download
    followed by a read of the schema file: it sends exactly one request;
    when the download raises, [get_schema] raises the same exception; when
    the download returns, the file exists, [get_schema] returns what
    [json.load] makes of its content, and a second [get_schema] gives the
    same without a request or any other effect. *)
Theorem X18_get_schema_downloads_once
    (OPENAPI_YAML_ENDPOINT : string) (SCHEMA_DOWNLOAD_TIMEOUT : Q) (SSL_VERIFY : bool)
    {pyobj : Type} (yaml_safe_load : string -> result pyobj)
    (json_dump : pyobj -> string * option exn)
    (json_load : string -> result json)
    (self : schema_manager.SchemaManager) (w : world) :
  let download := schema_manager.download_schema OPENAPI_YAML_ENDPOINT
                    SCHEMA_DOWNLOAD_TIMEOUT SSL_VERIFY yaml_safe_load json_dump
                    self false w in
  let get_schema := schema_manager.get_schema OPENAPI_YAML_ENDPOINT
                      SCHEMA_DOWNLOAD_TIMEOUT SSL_VERIFY yaml_safe_load json_dump
                      json_load self in
  files w !! schema_manager.schema_file self = None ->
  snd (get_schema w) = snd download
  /\ sent (snd (get_schema w))
     = sent w ++ [schema_manager.schema_request OPENAPI_YAML_ENDPOINT
                    SCHEMA_DOWNLOAD_TIMEOUT SSL_VERIFY self]
  /\ (forall e, fst download = Raise e -> fst (get_schema w) = Raise e)
  /\ (forall p, fst download = Ok p ->
        exists content,
          files (snd download) !! schema_manager.schema_file self = Some content
          /\ fst (get_schema w) = json_load content
          /\ get_schema (snd (get_schema w))
             = (json_load content, snd (get_schema w))).
Proof.
  intros download get_schema Hc. subst download get_schema.
  rewrite (get_schema_uncached OPENAPI_YAML_ENDPOINT SCHEMA_DOWNLOAD_TIMEOUT SSL_VERIFY yaml_safe_load json_dump json_load self w Hc).
  pose proof (download_schema_sends OPENAPI_YAML_ENDPOINT SCHEMA_DOWNLOAD_TIMEOUT SSL_VERIFY yaml_safe_load json_dump self false w
                (or_introl Hc)) as Hsent.
  pose proof (fun p => download_schema_Ok_file OPENAPI_YAML_ENDPOINT SCHEMA_DOWNLOAD_TIMEOUT SSL_VERIFY yaml_safe_load json_dump
                         self false w p) as Hfile.
  destruct (schema_manager.download_schema _ _ _ _ _ self false w)
    as [[p|e] w'] eqn:Hd; cbn [fst snd] in *.
  - destruct (Hfile p eq_refl) as (_ & content & Hcontent).
    rewrite Hcontent. cbn [fst snd].
    split; [reflexivity|]. split; [exact Hsent|]. split; [discriminate|].
    intros p' _. exists content. split; [reflexivity|].
    split; [reflexivity|].
    apply get_schema_cached. exact Hcontent.
  - split; [reflexivity|]. split; [exact Hsent|].
    split; [intros e' [= <-]; reflexivity | discriminate].
Qed.

(** X18, on a service that serves the document. *)
Lemma X18_witness :
  sent (snd (schema_manager.get_schema "/openapi.yaml" 30 true
               example.yaml_safe_load example.json_dump example.json_load
               example.manager example.serving))
  = [schema_manager.schema_request "/openapi.yaml" 30 true example.manager].
Proof.
  exact (proj1 (proj2 (X18_get_schema_downloads_once "/openapi.yaml" 30 true
                         example.yaml_safe_load example.json_dump
                         example.json_load example.manager example.serving
                         eq_refl))).
Defined.

Section fixture_facts.
Import schema_manager.
Context (python : interpreter).
Context (SCHEMA_DIR OPENAPI_YAML_ENDPOINT : string) (SCHEMA_DOWNLOAD_TIMEOUT : Q)
        (SSL_VERIFY : bool).
Context {pyobj : Type}
        (yaml_safe_load : string -> result pyobj)
        (json_dump : pyobj -> string * option exn)
        (json_load : string -> result json).
Implicit Types (self : SchemaManager) (w : world).

Local Abbreviation download_schema :=
  (schema_manager.download_schema OPENAPI_YAML_ENDPOINT SCHEMA_DOWNLOAD_TIMEOUT
     SSL_VERIFY yaml_safe_load json_dump).
Local Abbreviation fixture :=
  (schema_fixtures.schema_manager OPENAPI_YAML_ENDPOINT
     SCHEMA_DOWNLOAD_TIMEOUT SSL_VERIFY yaml_safe_load json_dump).

(** The service is a parameter of the world: no call changes it. *)
Lemma download_schema_server self force w :
  server (snd (download_schema self force w)) = server w.
Proof.
  unfold schema_manager.download_schema, dump_to_file, raise_for_status.
  run_world.
  destruct (bool_decide (is_Some (files w !! schema_file self)) && negb force);
    simpl; [reflexivity|].
  destruct (server w _) as [resp|e]; simpl;
    [|destruct (is_RequestException e); reflexivity].
  destruct ((400 <=? status_code resp)%Z && (status_code resp <? 600)%Z);
    simpl; [reflexivity|].
  destruct (yaml_safe_load (text resp)) as [schema|e]; simpl;
    [|destruct (is_RequestException e); reflexivity].
  destruct (json_dump schema) as [written [e|]]; simpl;
    [destruct (is_RequestException e); reflexivity | reflexivity].
Qed.

(** The fixture on a constructed manager, by the outcome of its
    download. *)
Lemma schema_manager_fixture str manager w :
  fixture str (Ok manager) w
  = let d := download_schema manager false w in
    (Ok manager,
     {| server := server (snd d); files := files (snd d); sent := sent (snd d);
        logged :=
          logged (snd d)
          ++ [match fst d with
              | Ok _ => (INFO, " OpenAPI schema loaded successfully")
              | Raise e => (WARNING, " Could not load OpenAPI schema: " +:+ str e)
              end] |}).
Proof.
  unfold schema_fixtures.schema_manager. cbn zeta.
  unfold mbind at 1, M_bind at 1, lift at 1.
  unfold mbind at 1, M_bind at 1, try_except.
  unfold mbind at 1, M_bind at 1.
  destruct (schema_manager.download_schema _ _ _ _ _ _ false w) as [[p|e] w'];
    reflexivity.
Qed.
End fixture_facts.

(** X19: The fixture [schema_manager] raises only what the constructor of
    the manager raises: that call stands before the [try], and its
    exception leaves the fixture before any request or log line.  Once the
    manager is constructed the fixture never raises: it returns the
    manager whatever the first download does, with the files and requests
    that the download left, and logs a line of success, or a warning with
    the exception when the download raised.  When there is no cached
    schema and the service cannot be reached, the failure shows only later
    and costs a second request: the fixture [openapi_schema] downloads
    again and, the service still unreachable, raises the exception of the
    request. *)
Theorem X19_schema_fixture_swallows_failed_download
    (OPENAPI_YAML_ENDPOINT : string) (SCHEMA_DOWNLOAD_TIMEOUT : Q)
    (SSL_VERIFY : bool)
    {pyobj : Type} (yaml_safe_load : string -> result pyobj)
    (json_dump : pyobj -> string * option exn)
    (json_load : string -> result json)
    (str : exn -> string)
    (constructed : result schema_manager.SchemaManager) (w : world) :
  let fixture := schema_fixtures.schema_manager OPENAPI_YAML_ENDPOINT
                   SCHEMA_DOWNLOAD_TIMEOUT SSL_VERIFY yaml_safe_load json_dump
                   str constructed w in
  (forall e, constructed = Raise e -> fixture = (Raise e, w))
  /\ (forall manager, constructed = Ok manager ->
        let get := schema_manager.schema_request OPENAPI_YAML_ENDPOINT
                     SCHEMA_DOWNLOAD_TIMEOUT SSL_VERIFY manager in
        let download := schema_manager.download_schema OPENAPI_YAML_ENDPOINT
                          SCHEMA_DOWNLOAD_TIMEOUT SSL_VERIFY yaml_safe_load
                          json_dump manager false w in
        let schema := schema_fixtures.openapi_schema OPENAPI_YAML_ENDPOINT
                        SCHEMA_DOWNLOAD_TIMEOUT SSL_VERIFY yaml_safe_load
                        json_dump json_load manager (snd fixture) in
        fst fixture = Ok manager
        /\ files (snd fixture) = files (snd download)
        /\ sent (snd fixture) = sent (snd download)
        /\ (forall p, fst download = Ok p ->
              logged (snd fixture)
              = logged (snd download)
                ++ [(INFO, " OpenAPI schema loaded successfully")])
        /\ (forall e, fst download = Raise e ->
              logged (snd fixture)
              = logged (snd download)
                ++ [(WARNING, " Could not load OpenAPI schema: " +:+ str e)])
        /\ (forall e,
              files w !! schema_manager.schema_file manager = None ->
              server w get = Raise e ->
              fst schema = Raise e
              /\ sent (snd schema) = sent w ++ [get; get]
              /\ files (snd schema) = files w)).
Proof.
  intros fixture. split.
  - intros e ->. reflexivity.
  - intros manager -> get download schema.
    subst schema fixture. rewrite schema_manager_fixture. cbn zeta.
    fold download. cbn [fst snd files sent logged].
    split; [reflexivity|]. split; [reflexivity|]. split; [reflexivity|].
    split; [intros p Hp; now rewrite Hp|].
    split; [intros e He; now rewrite He|].
    intros e Hc Hs.
    destruct (download_schema_request_raises OPENAPI_YAML_ENDPOINT SCHEMA_DOWNLOAD_TIMEOUT SSL_VERIFY yaml_safe_load json_dump
                manager false w e (or_introl Hc) Hs) as [Hd Hfiles].
    pose proof (download_schema_sends OPENAPI_YAML_ENDPOINT SCHEMA_DOWNLOAD_TIMEOUT SSL_VERIFY yaml_safe_load json_dump manager
                  false w (or_introl Hc)) as Hsent.
    fold get in Hsent. fold download in Hd, Hfiles, Hsent.
    set (w1 := {| server := server (snd download); files := files (snd download);
                  sent := sent (snd download); logged := _ |}).
    assert (Hserver : server (snd download) = server w)
      by apply download_schema_server.
    assert (Hc1 : files w1 !! schema_manager.schema_file manager = None)
      by (subst w1; cbn [files]; now rewrite Hfiles).
    assert (Hs1 : server w1 get = Raise e)
      by (subst w1; cbn [server]; now rewrite Hserver).
    unfold schema_fixtures.openapi_schema.
    destruct (download_schema_request_raises OPENAPI_YAML_ENDPOINT
                SCHEMA_DOWNLOAD_TIMEOUT SSL_VERIFY yaml_safe_load json_dump
                manager false w1 e (or_introl Hc1) Hs1) as [Hd1 Hfiles1].
    pose proof (download_schema_sends OPENAPI_YAML_ENDPOINT
                  SCHEMA_DOWNLOAD_TIMEOUT SSL_VERIFY yaml_safe_load json_dump
                  manager false w1 (or_introl Hc1)) as Hsent1.
    rewrite (get_schema_uncached OPENAPI_YAML_ENDPOINT SCHEMA_DOWNLOAD_TIMEOUT
               SSL_VERIFY yaml_safe_load json_dump json_load manager w1 Hc1).
    destruct (schema_manager.download_schema _ _ _ _ _ manager false w1)
      as [[p|e'] w2]; cbn [fst snd] in *; [discriminate|].
    injection Hd1 as ->.
    split; [reflexivity|]. split.
    + rewrite Hsent1. subst w1. cbn [sent]. rewrite Hsent.
      now rewrite <- app_assoc.
    + rewrite Hfiles1. subst w1. cbn [files]. exact Hfiles.
Qed.

(** X19, on an unreachable service without a cached schema: the manager
    is returned, and the schema fixture then fails after a second
    request; and on a constructor that cannot make its directory. *)
Lemma X19_witness :
  fst (schema_fixtures.schema_manager "/openapi.yaml" 30 true
         example.yaml_safe_load example.json_dump str_of_exn
         (Ok example.manager) scenario.unreachable)
  = Ok example.manager
  /\ fst (schema_fixtures.openapi_schema "/openapi.yaml" 30 true
            example.yaml_safe_load example.json_dump example.json_load
            example.manager
            (snd (schema_fixtures.schema_manager "/openapi.yaml"
                    30 true example.yaml_safe_load example.json_dump
                    str_of_exn (Ok example.manager) scenario.unreachable)))
     = Raise (RequestException "connection refused")
  /\ schema_fixtures.schema_manager "/openapi.yaml" 30 true
       example.yaml_safe_load example.json_dump str_of_exn
       (Raise (Exception "data/schemas: not a directory")) scenario.unreachable
     = (Raise (Exception "data/schemas: not a directory"), scenario.unreachable).
Proof.
  destruct (X19_schema_fixture_swallows_failed_download
              "/openapi.yaml" 30 true example.yaml_safe_load example.json_dump
              example.json_load str_of_exn (Ok example.manager)
              scenario.unreachable) as [_ Hmade].
  destruct (Hmade example.manager eq_refl) as (Hfix & _ & _ & _ & _ & Hlater).
  split; [exact Hfix|]. split.
  - exact (proj1 (Hlater (RequestException "connection refused") eq_refl eq_refl)).
  - exact (proj1 (X19_schema_fixture_swallows_failed_download
                    "/openapi.yaml" 30 true example.yaml_safe_load
                    example.json_dump example.json_load str_of_exn
                    (Raise (Exception "data/schemas: not a directory"))
                    scenario.unreachable) _ eq_refl).
Defined.

Section lookup_more.
Import schema_manager.
Context (python : interpreter).
Context (OPENAPI_YAML_ENDPOINT : string) (SCHEMA_DOWNLOAD_TIMEOUT : Q)
        (SSL_VERIFY : bool).
Context {pyobj : Type}
        (yaml_safe_load : string -> result pyobj)
        (json_dump : pyobj -> string * option exn)
        (json_load : string -> result json).
Implicit Types (self : SchemaManager) (w : world).

Local Abbreviation get_schema :=
  (schema_manager.get_schema OPENAPI_YAML_ENDPOINT SCHEMA_DOWNLOAD_TIMEOUT
     SSL_VERIFY yaml_safe_load json_dump json_load).
Local Abbreviation get_endpoint_schema :=
  (schema_manager.get_endpoint_schema python OPENAPI_YAML_ENDPOINT SCHEMA_DOWNLOAD_TIMEOUT
     SSL_VERIFY yaml_safe_load json_dump json_load).
Local Abbreviation get_all_test_endpoints :=
  (schema_manager.get_all_test_endpoints OPENAPI_YAML_ENDPOINT SCHEMA_DOWNLOAD_TIMEOUT
     SSL_VERIFY yaml_safe_load json_dump json_load).

(** Both lookups, from what [get_schema] gives. *)
Lemma get_endpoint_schema_from self path method w schema :
  get_schema self w = (Ok schema, w) ->
  get_endpoint_schema self path method w
  = (match pyjson.get schema "paths" (JObj ∅) with
     | Raise e => Raise e
     | Ok paths =>
         match pyjson.contains paths path with
         | Raise e => Raise e
         | Ok false =>
             Raise (ValueError ("Endpoint " +:+ path +:+ " not found in schema"))
         | Ok true =>
             match pyjson.getitem schema "paths" with
             | Raise e => Raise e
             | Ok paths' =>
                 match pyjson.getitem paths' path with
                 | Raise e => Raise e
                 | Ok endpoint =>
                     match pyjson.contains endpoint (py.lower python method) with
                     | Raise e => Raise e
                     | Ok false =>
                         Raise (ValueError ("Method " +:+ method
                                            +:+ " not supported for " +:+ path))
                     | Ok true => pyjson.getitem endpoint (py.lower python method)
                     end
                 end
             end
         end
     end, w).
Proof.
  intros Hg. unfold schema_manager.get_endpoint_schema.
  rewrite (bind_Ok _ _ _ _ _ Hg). run_world.
  destruct (pyjson.get schema "paths" (JObj ∅)) as [paths|e]; simpl;
    [|reflexivity].
  destruct (pyjson.contains paths path) as [[|]|e]; simpl; try reflexivity.
  destruct (pyjson.getitem schema "paths") as [paths'|e]; simpl; [|reflexivity].
  destruct (pyjson.getitem paths' path) as [endpoint|e]; simpl; [|reflexivity].
  destruct (pyjson.contains endpoint (py.lower python method)) as [[|]|e];
    reflexivity.
Qed.

Lemma get_all_test_endpoints_from self w schema :
  get_schema self w = (Ok schema, w) ->
  get_all_test_endpoints self w
  = (match pyjson.get schema "paths" (JObj ∅) with
     | Raise e => Raise e
     | Ok paths =>
         match pyjson.keys paths with
         | Raise e => Raise e
         | Ok keys => Ok (py.sorted String.leb (test_paths keys))
         end
     end, w).
Proof.
  intros Hg. unfold schema_manager.get_all_test_endpoints.
  rewrite (bind_Ok _ _ _ _ _ Hg). run_world.
  destruct (pyjson.get schema "paths" (JObj ∅)) as [paths|e]; simpl;
    [|reflexivity].
  destruct (pyjson.keys paths); reflexivity.
Qed.

Lemma lookups_raise self path method w e :
  get_schema self w = (Raise e, w) ->
  get_endpoint_schema self path method w = (Raise e, w)
  /\ get_all_test_endpoints self w = (Raise e, w).
Proof.
  intros Hg. unfold schema_manager.get_endpoint_schema,
    schema_manager.get_all_test_endpoints.
  now rewrite !(bind_Raise _ _ _ _ _ Hg).
Qed.

Lemma listed_path_known self w content schema paths l p :
  files w !! schema_file self = Some content ->
  json_load content = Ok schema ->
  paths_of schema = Some paths ->
  fst (get_all_test_endpoints self w) = Ok l ->
  In p l ->
  exists endpoint, paths !! p = Some endpoint.
Proof.
  intros Hc Hl Hp Hall Hin.
  rewrite (get_all_test_endpoints_cached _ _ _ yaml_safe_load json_dump json_load
             self w content schema paths Hc Hl Hp) in Hall.
  cbn [fst] in Hall. injection Hall as <-.
  rewrite sorted_In, test_paths_filter, List.filter_In in Hin.
  destruct Hin as [Hin _].
  rewrite <- list_elem_of_In, list_elem_of_fmap in Hin.
  destruct Hin as [[k v] [-> Hkv]]. apply elem_of_map_to_list in Hkv.
  simpl. eauto.
Qed.
End lookup_more.

(** X20: With a cached schema document, [get_endpoint_schema] never
    returns a value for a path whose entry under ['paths'] is not a
    mapping.  It raises a [TypeError], or the [ValueError] that the method
    is not supported: an entry that is a list or a text passes the test
    [method.lower() in endpoint] by membership or as a substring, and the
    subscript that follows raises.  The call changes nothing. *)
Theorem X20_entry_that_is_no_mapping_raises
    (python : interpreter)
    (OPENAPI_YAML_ENDPOINT : string) (SCHEMA_DOWNLOAD_TIMEOUT : Q) (SSL_VERIFY : bool)
    {pyobj : Type} (yaml_safe_load : string -> result pyobj)
    (json_dump : pyobj -> string * option exn)
    (json_load : string -> result json)
    (self : schema_manager.SchemaManager) (path method : string) (w : world)
    (content : string) (schema : json) (paths : gmap string json)
    (endpoint : json) :
  files w !! schema_manager.schema_file self = Some content ->
  json_load content = Ok schema ->
  paths_of schema = Some paths ->
  paths !! path = Some endpoint ->
  (forall methods, endpoint <> JObj methods) ->
  let out := schema_manager.get_endpoint_schema python OPENAPI_YAML_ENDPOINT
               SCHEMA_DOWNLOAD_TIMEOUT SSL_VERIFY yaml_safe_load json_dump json_load
               self path method w in
  snd out = w
  /\ (fst out = Raise TypeError
      \/ fst out = Raise (ValueError ("Method " +:+ method
                                      +:+ " not supported for " +:+ path)))
  /\ (pyjson.contains endpoint (py.lower python method) = Ok true ->
      fst out = Raise TypeError).
Proof.
  intros Hc Hl Hp He Hno out. subst out.
  rewrite (get_endpoint_schema_cached python _ _ _ yaml_safe_load json_dump
             json_load self path method w content schema paths Hc Hl Hp).
  cbn [fst snd]. rewrite He. split; [reflexivity|].
  destruct endpoint as [|b|z|q|s|l|methods]; cbn [pyjson.contains pyjson.getitem];
    try (split; [now left | discriminate]).
  - destruct (py.substring_of _ s); split; auto.
    discriminate.
  - destruct (existsb _ l); split; auto.
    discriminate.
  - exfalso. now apply (Hno methods).
Qed.

(** X20, on a path that is documented by a list of method names: the
    method "get" is found in the list and the lookup raises a
    [TypeError]. *)
Lemma X20_witness :
  fst (schema_manager.get_endpoint_schema example.python "/openapi.yaml" 30 true
         example.yaml_safe_load example.json_dump scenario.json_load_listed
         example.manager "/api/test/1" "GET" example.with_schema)
  = Raise TypeError.
Proof.
  refine (proj2 (proj2 (X20_entry_that_is_no_mapping_raises example.python
            "/openapi.yaml" 30 true example.yaml_safe_load example.json_dump
            scenario.json_load_listed example.manager "/api/test/1" "GET"
            example.with_schema "cached schema" scenario.listed_methods
            {[ "/api/test/1" := JArr [JStr "get"; JStr "post"] ]}
            (JArr [JStr "get"; JStr "post"])
            eq_refl eq_refl eq_refl eq_refl _)) eq_refl).
  intros methods. discriminate.
Defined.

(** X21: A cached schema file that is not a well-formed document makes
    both lookups raise, without any request and without any other effect:
    the exception of [json.load] when the file does not parse; an
    [AttributeError] when the document is not a mapping; and, when the
    entry ['paths'] is not a mapping, an [AttributeError] from
    [get_all_test_endpoints] and some exception from
    [get_endpoint_schema]. *)
Theorem X21_malformed_cached_schema_raises
    (python : interpreter)
    (OPENAPI_YAML_ENDPOINT : string) (SCHEMA_DOWNLOAD_TIMEOUT : Q) (SSL_VERIFY : bool)
    {pyobj : Type} (yaml_safe_load : string -> result pyobj)
    (json_dump : pyobj -> string * option exn)
    (json_load : string -> result json)
    (self : schema_manager.SchemaManager) (path method : string) (w : world)
    (content : string) :
  let endpoint_schema :=
    schema_manager.get_endpoint_schema python OPENAPI_YAML_ENDPOINT
      SCHEMA_DOWNLOAD_TIMEOUT SSL_VERIFY yaml_safe_load json_dump json_load
      self path method w in
  let all_endpoints :=
    schema_manager.get_all_test_endpoints OPENAPI_YAML_ENDPOINT
      SCHEMA_DOWNLOAD_TIMEOUT SSL_VERIFY yaml_safe_load json_dump json_load
      self w in
  files w !! schema_manager.schema_file self = Some content ->
  (forall e, json_load content = Raise e ->
     endpoint_schema = (Raise e, w) /\ all_endpoints = (Raise e, w))
  /\ (forall schema, json_load content = Ok schema ->
        (forall doc, schema <> JObj doc) ->
        endpoint_schema = (Raise AttributeError, w)
        /\ all_endpoints = (Raise AttributeError, w))
  /\ (forall doc v, json_load content = Ok (JObj doc) ->
        doc !! "paths" = Some v ->
        (forall paths, v <> JObj paths) ->
        all_endpoints = (Raise AttributeError, w)
        /\ exists e, endpoint_schema = (Raise e, w)).
Proof.
  intros endpoint_schema all_endpoints Hc. subst endpoint_schema all_endpoints.
  pose proof (get_schema_cached OPENAPI_YAML_ENDPOINT SCHEMA_DOWNLOAD_TIMEOUT
                SSL_VERIFY yaml_safe_load json_dump json_load self w content Hc)
    as Hg.
  split; [|split].
  - intros e He. rewrite He in Hg. now apply lookups_raise.
  - intros schema Hs Hno. rewrite Hs in Hg.
    rewrite (get_endpoint_schema_from python _ _ _ yaml_safe_load json_dump
               json_load self path method w schema Hg).
    rewrite (get_all_test_endpoints_from _ _ _ yaml_safe_load json_dump
               json_load self w schema Hg).
    destruct schema as [|b|z|q|s|l|doc]; try (split; reflexivity).
    exfalso. now apply (Hno doc).
  - intros doc v Hs Hv Hno. rewrite Hs in Hg.
    rewrite (get_endpoint_schema_from python _ _ _ yaml_safe_load json_dump
               json_load self path method w (JObj doc) Hg).
    rewrite (get_all_test_endpoints_from _ _ _ yaml_safe_load json_dump
               json_load self w (JObj doc) Hg).
    cbn [pyjson.get pyjson.getitem]. rewrite Hv.
    destruct v as [|b|z|q|s|l|paths];
      cbn [pyjson.keys pyjson.contains pyjson.getitem];
      try (split; [reflexivity | eexists; reflexivity]).
    + split; [reflexivity|].
      destruct (py.substring_of path s); eexists; reflexivity.
    + split; [reflexivity|].
      destruct (existsb (pyjson.is_str path) l); eexists; reflexivity.
    + exfalso. now apply (Hno paths).
Qed.

(** X21, on a cached file that does not parse. *)
Lemma X21_witness :
  schema_manager.get_all_test_endpoints "/openapi.yaml" 30 true
    example.yaml_safe_load example.json_dump example.json_load
    example.manager example.offline
  = (Raise JSONDecodeError, example.offline).
Proof.
  destruct (X21_malformed_cached_schema_raises example.python "/openapi.yaml" 30
              true example.yaml_safe_load example.json_dump example.json_load
              example.manager "/api/test/1" "get" example.offline "old schema"
              eq_refl) as (Hparse & _).
  exact (proj2 (Hparse JSONDecodeError eq_refl)).
Defined.

(** X22: The two lookups agree on what the schema knows.  With a cached
    schema document, [get_endpoint_schema] never answers that a path
    listed by [get_all_test_endpoints] is not found in the schema, whatever
    the method; and when the entry of such a path is a mapping with the
    key "get", the function returned by the fixture [endpoint_schema],
    called without a method, returns the value under that key and changes
    nothing. *)
Theorem X22_listed_endpoints_are_found
    (python : interpreter)
    (OPENAPI_YAML_ENDPOINT : string) (SCHEMA_DOWNLOAD_TIMEOUT : Q) (SSL_VERIFY : bool)
    {pyobj : Type} (yaml_safe_load : string -> result pyobj)
    (json_dump : pyobj -> string * option exn)
    (json_load : string -> result json)
    (self : schema_manager.SchemaManager) (w : world)
    (content : string) (schema : json) (paths : gmap string json)
    (l : list string) (p : string) :
  files w !! schema_manager.schema_file self = Some content ->
  json_load content = Ok schema ->
  paths_of schema = Some paths ->
  fst (schema_manager.get_all_test_endpoints OPENAPI_YAML_ENDPOINT
         SCHEMA_DOWNLOAD_TIMEOUT SSL_VERIFY yaml_safe_load json_dump json_load
         self w) = Ok l ->
  In p l ->
  (forall method,
     fst (schema_manager.get_endpoint_schema python OPENAPI_YAML_ENDPOINT
            SCHEMA_DOWNLOAD_TIMEOUT SSL_VERIFY yaml_safe_load json_dump json_load
            self p method w)
     <> Raise (ValueError ("Endpoint " +:+ p +:+ " not found in schema")))
  /\ (forall methods v,
        paths !! p = Some (JObj methods) ->
        methods !! "get" = Some v ->
        schema_fixtures.endpoint_schema python OPENAPI_YAML_ENDPOINT
          SCHEMA_DOWNLOAD_TIMEOUT SSL_VERIFY yaml_safe_load json_dump json_load
          self p None w
        = (Ok v, w)).
Proof.
  intros Hc Hl Hp Hall Hin.
  destruct (listed_path_known OPENAPI_YAML_ENDPOINT SCHEMA_DOWNLOAD_TIMEOUT
              SSL_VERIFY yaml_safe_load json_dump json_load self w content
              schema paths l p Hc Hl Hp Hall Hin) as [endpoint He].
  split.
  - intros method.
    rewrite (get_endpoint_schema_cached python _ _ _ yaml_safe_load json_dump
               json_load self p method w content schema paths Hc Hl Hp).
    cbn [fst]. rewrite He.
    destruct endpoint as [|b|z|q|s|l'|methods];
      cbn [pyjson.contains pyjson.getitem]; try discriminate.
    + destruct (py.substring_of _ s); simpl; discriminate.
    + destruct (existsb _ l'); simpl; discriminate.
    + destruct (bool_decide _); simpl; [|discriminate].
      destruct (methods !! py.lower python method); discriminate.
  - intros methods v Hm Hv. unfold schema_fixtures.endpoint_schema.
    cbn [default].
    rewrite (get_endpoint_schema_cached python _ _ _ yaml_safe_load json_dump
               json_load self p "get" w content schema paths Hc Hl Hp).
    rewrite Hm.
    change (py.lower python "get") with "get".
    cbn [pyjson.contains pyjson.getitem]. rewrite Hv.
    rewrite bool_decide_eq_true_2 by eauto. reflexivity.
Qed.

(** X22, on the cached example document: "/api/test/1" is listed and its
    schema for the default method is found. *)
Lemma X22_witness :
  schema_fixtures.endpoint_schema example.python "/openapi.yaml" 30 true
    example.yaml_safe_load example.json_dump example.json_load
    example.manager "/api/test/1" None example.with_schema
  = (Ok (JObj ∅), example.with_schema).
Proof.
  refine (proj2 (X22_listed_endpoints_are_found example.python "/openapi.yaml"
            30 true example.yaml_safe_load example.json_dump example.json_load
            example.manager example.with_schema "cached schema"
            example.schema_doc
            {[ "/api/test/1" := JObj {[ "get" := JObj ∅ ]};
               "/api/test/2" := JObj {[ "GET" := JObj ∅ ]};
               "/health" := JObj {[ "get" := JObj ∅ ]} ]}
            ["/api/test/1"; "/api/test/2"] "/api/test/1"
            eq_refl eq_refl eq_refl _ _)
          {[ "get" := JObj ∅ ]} (JObj ∅) _ eq_refl).
  - vm_compute. reflexivity.
  - simpl. now left.
  - vm_compute. reflexivity.
Defined.

(** X23: On a response with status 200 the two token fixtures agree:
    [auth_token] and [fresh_auth_token] both evaluate
    [response.json()["access_token"]], returning the token or raising what
    the parser or the subscript raises (a [KeyError] when the body is a
    mapping without the key).  [auth_token] logs its opening line and the
    line of success, [fresh_auth_token] its debug line only, and neither
    touches a file. *)
Theorem X23_token_fixtures_agree_on_200
    (AUTH_GENERATE_ENDPOINT : string) (AUTH_TIMEOUT : Q) (SSL_VERIFY : bool)
    (json_loads : string -> result json)
    (base_url token : string) (w : world) (resp : response) :
  let url := (base_url ++ AUTH_GENERATE_ENDPOINT)%string in
  let session := conftest.auth_token AUTH_GENERATE_ENDPOINT AUTH_TIMEOUT
                   SSL_VERIFY json_loads base_url token w in
  let fresh := conftest.fresh_auth_token AUTH_GENERATE_ENDPOINT AUTH_TIMEOUT
                 json_loads base_url token w in
  let token_of_body :=
    match json_loads (text resp) with
    | Ok body => pyjson.getitem body "access_token"
    | Raise e => Raise e
    end in
  server w (conftest.token_request AUTH_TIMEOUT url token SSL_VERIFY) = Ok resp ->
  server w (conftest.token_request AUTH_TIMEOUT url token false) = Ok resp ->
  status_code resp = 200 ->
  fst session = token_of_body
  /\ fst fresh = token_of_body
  /\ (forall body, json_loads (text resp) = Ok (JObj body) ->
        body !! "access_token" = None ->
        token_of_body = Raise (KeyError "access_token"))
  /\ logged (snd session)
     = logged w ++ [(INFO, "Generating session access token...");
                    (INFO, "Session access token generated successfully")]
  /\ logged (snd fresh)
     = logged w ++ [(DEBUG, "Generating fresh access token for test...")]
  /\ files (snd session) = files w
  /\ files (snd fresh) = files w.
Proof.
  intros url session fresh token_of_body Hs Hf Hstatus.
  assert (Hok : (status_code resp =? constants.HTTP_OK)%Z = true)
    by (apply Z.eqb_eq; exact Hstatus).
  assert (Hsession :
    session
    = (token_of_body,
       {| server := server w; files := files w;
          sent := sent w ++ [conftest.token_request AUTH_TIMEOUT url token SSL_VERIFY];
          logged := (logged w ++ [(INFO, "Generating session access token...")])
                    ++ [(INFO, "Session access token generated successfully")] |})).
  { subst session token_of_body url. unfold conftest.auth_token. run_world.
    rewrite Hs. simpl. rewrite Hok. simpl.
    destruct (json_loads (text resp)) as [body|e]; simpl; [|reflexivity].
    destruct (pyjson.getitem body "access_token"); reflexivity. }
  assert (Hfresh :
    fresh
    = (token_of_body,
       {| server := server w; files := files w;
          sent := sent w ++ [conftest.token_request AUTH_TIMEOUT url token false];
          logged := logged w
                    ++ [(DEBUG, "Generating fresh access token for test...")] |})).
  { subst fresh token_of_body url. unfold conftest.fresh_auth_token. run_world.
    rewrite Hf. simpl. rewrite Hok. simpl.
    destruct (json_loads (text resp)) as [body|e]; simpl; [|reflexivity].
    destruct (pyjson.getitem body "access_token"); reflexivity. }
  rewrite Hsession, Hfresh. cbn [fst snd logged files].
  split; [reflexivity|]. split; [reflexivity|]. split.
  - intros body Hb Hnone. subst token_of_body. rewrite Hb. simpl.
    now rewrite Hnone.
  - rewrite <- app_assoc. repeat split; reflexivity.
Qed.

(** X23, on a service that answers the token request with status 200
    and a body with the token "abc". *)
Lemma X23_witness :
  fst (conftest.auth_token "/auth/generate" 10 true example.json_loads
         "https://qa.example" "refresh" scenario.granting)
  = Ok (JStr "abc")
  /\ fst (conftest.fresh_auth_token "/auth/generate" 10 example.json_loads
            "https://qa.example" "refresh" scenario.granting)
     = Ok (JStr "abc").
Proof.
  destruct (X23_token_fixtures_agree_on_200 "/auth/generate" 10 true
              example.json_loads "https://qa.example" "refresh"
              scenario.granting
              {| status_code := 200; text := "token-body"; elapsed := 1 # 10 |}
              eq_refl eq_refl eq_refl) as (Hsession & Hfresh & _).
  split; [exact Hsession | exact Hfresh].
Defined.

(** X24: When the answer of the service passes the status check but does
    not parse as YAML, [download_schema] raises the exception of the
    parser and writes no file.  The handler of the function is for request
    exceptions only: for another exception the line "Failed to download
    OpenAPI schema" is not logged, the last line is the one that
    announces the download. *)
Theorem X24_yaml_failure_is_raised_and_not_logged
    (OPENAPI_YAML_ENDPOINT : string) (SCHEMA_DOWNLOAD_TIMEOUT : Q) (SSL_VERIFY : bool)
    {pyobj : Type} (yaml_safe_load : string -> result pyobj)
    (json_dump : pyobj -> string * option exn)
    (self : schema_manager.SchemaManager) (force : bool) (w : world)
    (resp : response) (e : exn) :
  let get := schema_manager.schema_request OPENAPI_YAML_ENDPOINT
               SCHEMA_DOWNLOAD_TIMEOUT SSL_VERIFY self in
  let out := schema_manager.download_schema OPENAPI_YAML_ENDPOINT
               SCHEMA_DOWNLOAD_TIMEOUT SSL_VERIFY yaml_safe_load json_dump
               self force w in
  files w !! schema_manager.schema_file self = None \/ force = true ->
  server w get = Ok resp ->
  is_error_status (status_code resp) = false ->
  yaml_safe_load (text resp) = Raise e ->
  fst out = Raise e
  /\ files (snd out) = files w
  /\ sent (snd out) = sent w ++ [get]
  /\ (is_RequestException e = false ->
      logged (snd out)
      = logged w ++ [(INFO, " Downloading OpenAPI schema from "
                            +:+ schema_manager.base_url self +:+ "...")]).
Proof.
  intros get out Hc Hs Hst Hy. subst get out.
  unfold schema_manager.download_schema, schema_manager.dump_to_file,
    raise_for_status.
  run_world.
  rewrite (not_cached_or_forced self force w Hc).
  simpl. rewrite Hs. simpl. unfold is_error_status in Hst. rewrite Hst. simpl.
  rewrite Hy. simpl.
  destruct (is_RequestException e); simpl.
  - split; [reflexivity|]. split; [reflexivity|]. split; [reflexivity|].
    discriminate.
  - split; [reflexivity|]. split; [reflexivity|]. split; reflexivity.
Qed.

(** X24, on a service that answers with a page that is no YAML
    document. *)
Lemma X24_witness :
  fst (schema_manager.download_schema "/openapi.yaml" 30 true
         example.yaml_safe_load example.json_dump example.manager false
         scenario.garbled)
  = Raise YAMLError
  /\ logged (snd (schema_manager.download_schema "/openapi.yaml" 30 true
                    example.yaml_safe_load example.json_dump example.manager
                    false scenario.garbled))
     = [(INFO, " Downloading OpenAPI schema from https://qa.example...")].
Proof.
  destruct (X24_yaml_failure_is_raised_and_not_logged "/openapi.yaml" 30 true
              example.yaml_safe_load example.json_dump example.manager false
              scenario.garbled
              {| status_code := 200; text := "<html>"; elapsed := 1 # 10 |}
              YAMLError (or_introl eq_refl) eq_refl eq_refl eq_refl)
    as (Hfst & _ & _ & Hlog).
  split; [exact Hfst | exact (Hlog eq_refl)].
Defined.

Section unbalanced.
Import conftest.
Implicit Types (k e : string) (s : endpoint_results) (d : EndpointResult).

Lemma view_endpoint_4_basic_get k r s e :
  view e (test_endpoint_4_discovery.test_endpoint_basic_get k r s)
  = if decide (e = k)
    then {| status_codes := status_codes (view k s) ++ [status_code r];
            response_times := response_times (view k s) ++ [elapsed r];
            test_count := test_count (view k s) + 1;
            passed := passed (view k s);
            failed := failed (view k s) |}
    else view e s.
Proof.
  unfold test_endpoint_4_discovery.test_endpoint_basic_get.
  rewrite !view_record.
  destruct (decide (e = k)) as [->|]; [|reflexivity].
  destruct (decide (k = k)); [reflexivity | congruence].
Qed.

Lemma recorded_key k op s : In k (odict.keys (record k op s)).
Proof.
  unfold record. rewrite mutate_set.
  unfold odict.keys. generalize (apply_op op (view k s)). intros d.
  induction s as [|[k0 d0] s IH]; simpl; [now left|].
  destruct (decide (k = k0)) as [->|]; simpl; auto.
Qed.

(** A summary that runs to its end has the counts line of every recorded
    key. *)
Lemma counts_line_of_key python k s :
  In k (odict.keys s) ->
  snd (_print_endpoint_discovery_summary python s) = Ok tt ->
  In (CountsLine (test_count (view k s)) (passed (view k s)) (failed (view k s)))
     (snd (fst (_print_endpoint_discovery_summary python s))).
Proof.
  intros Hin Hok.
  assert (Hs : s <> []) by (intros ->; destruct Hin).
  destruct (py.sorted_by_key Z.leb (sort_key python) (odict.keys s))
    as [eps|err] eqn:Hsort.
  - rewrite (summary_completed python s eps Hs Hsort). cbn [fst snd].
    apply in_or_app. left. apply in_or_app. right.
    apply in_flat_map. exists k. split.
    + eapply Permutation_in; [|exact Hin].
      symmetry. apply (sorted_by_key_perm _ _ _ _ Hsort).
    + unfold endpoint_block.
      destruct (verdict _ _) as [[status_icon status_text] stable].
      right. right. now left.
  - rewrite (summary_Raise python s err Hs Hsort) in Hok. discriminate.
Qed.
End unbalanced.

(** X25: The balance of the counters is not kept by every test of the
    suite.  [test_endpoint_basic_get] of [test_endpoint_4_discovery.py]
    records the status code and the time of its response and counts one
    test, but neither passes nor fails it.  After it, on an aggregator
    with balanced counters, the entry of its endpoint has one more counted
    test than passed and failed ones together, and a summary that runs to
    its end afterwards shows for this endpoint a number of tests that is
    not the sum of passed and failed.  No other entry changes. *)
Theorem X25_endpoint_4_test_counts_without_verdict
    (python : interpreter) (endpoint_path : string) (answer : response)
    (s : conftest.endpoint_results) :
  let s' := test_endpoint_4_discovery.test_endpoint_basic_get endpoint_path
              answer s in
  let d := conftest.view endpoint_path s in
  let d' := conftest.view endpoint_path s' in
  let out := conftest._print_endpoint_discovery_summary python s' in
  balanced_results s ->
  conftest.status_codes d' = conftest.status_codes d ++ [status_code answer]
  /\ conftest.response_times d' = conftest.response_times d ++ [elapsed answer]
  /\ conftest.test_count d' = conftest.test_count d + 1
  /\ conftest.passed d' = conftest.passed d
  /\ conftest.failed d' = conftest.failed d
  /\ conftest.test_count d' = conftest.passed d' + conftest.failed d' + 1
  /\ ~ balanced d'
  /\ (forall other, other <> endpoint_path ->
        conftest.view other s' = conftest.view other s)
  /\ (snd out = Ok tt ->
      In (conftest.CountsLine (conftest.test_count d') (conftest.passed d')
            (conftest.failed d'))
         (snd (fst out))).
Proof.
  intros s' d d' out Hs. subst out d' s'.
  pose proof (Forall_view balanced endpoint_path s Hs balanced_default)
    as (Hsum & Hp & Hf & _).
  fold d in Hsum, Hp, Hf.
  rewrite view_endpoint_4_basic_get.
  destruct (decide (endpoint_path = endpoint_path)); [|congruence].
  cbn [conftest.status_codes conftest.response_times conftest.test_count
       conftest.passed conftest.failed].
  fold d.
  split; [reflexivity|]. split; [reflexivity|]. split; [reflexivity|].
  split; [reflexivity|]. split; [reflexivity|]. split; [lia|].
  split; [|split].
  - unfold balanced. cbn [conftest.test_count conftest.passed conftest.failed].
    lia.
  - intros other Hne. rewrite view_endpoint_4_basic_get.
    destruct (decide (other = endpoint_path)); congruence.
  - intros Hok.
    pose proof (counts_line_of_key python endpoint_path _
                  (recorded_key endpoint_path conftest.IncTestCount _) Hok)
      as Hline.
    fold (test_endpoint_4_discovery.test_endpoint_basic_get endpoint_path answer s)
      in Hline.
    rewrite view_endpoint_4_basic_get in Hline.
    destruct (decide (endpoint_path = endpoint_path)); [|congruence].
    cbn [conftest.test_count conftest.passed conftest.failed] in Hline.
    exact Hline.
Qed.

(** X25, on the first test of a session: the summary shows one test of
    endpoint 4, none passed and none failed. *)
Lemma X25_witness :
  balanced_results conftest.initial_results
  /\ In (conftest.CountsLine 1 0 0)
        (snd (fst (conftest._print_endpoint_discovery_summary example.python
                     (test_endpoint_4_discovery.test_endpoint_basic_get
                        "/api/test/4"
                        {| status_code := 429; text := "slow down";
                           elapsed := 1 # 10 |}
                        conftest.initial_results)))).
Proof.
  assert (Hs : balanced_results conftest.initial_results) by constructor.
  split; [exact Hs|].
  destruct (X25_endpoint_4_test_counts_without_verdict example.python
              "/api/test/4"
              {| status_code := 429; text := "slow down"; elapsed := 1 # 10 |}
              conftest.initial_results Hs)
    as (_ & _ & _ & _ & _ & _ & _ & _ & Hline).
  exact (Hline eq_refl).
Defined.
